(** * Conversation-lifecycle core of the AI-Chatbot repository

    A shallow embedding of the stored procedures of [query.sql] (session
    store, event ledger, cost ledger, takeover) and of the agent console's
    WebSocket message handler ([App.jsx]), with the properties of the
    natural-language specification stated against them.

    Each part goes on to what the specification leaves aside: the
    constraints of the schema under any series of calls, the dashboard
    procedures of [query.sql], the other handlers of the agent console and
    the loading of the owner dashboard, with properties read off the code.

    Modelling conventions for the SQL part.
    - A table is the list of its rows, in physical order; [INSERT] adds a
      row at the end, [UPDATE] rewrites rows in place.
    - A nullable column or a procedure parameter is an [option]; [None] is
      SQL's NULL.  A comparison with NULL selects no row.
    - [NOW()] is constant during one call: every procedure takes the
      transaction time [now] as an argument.
    - [gen_random_uuid()] is an argument too (the value drawn by the call);
      the primary-key check of the insert decides whether it is accepted.
    - A procedure returns [Ok (value, database)] or [Err e].  A raised error
      aborts the call and rolls its writes back, so the database after a
      failed call is the one before it ([db_after]).
    - Column constraints are checked as PostgreSQL does: width of
      [VARCHAR(n)] values, NOT NULL, primary and unique keys, foreign keys,
      the range of [INT] sums.  Value coercions of a statement are
      evaluated when the statement starts.
    - In [create_or_get_session] the unqualified names [user_id] and
      [status] of the session lookup name a column of [sessions] and an
      output column of the function alike.  PL/pgSQL settles such a clash
      by the setting [plpgsql.variable_conflict]; neither the function nor
      anything else in the repository sets it, so its default, [error],
      holds and the lookup raises "column reference is ambiguous" when it
      is reached.  [create_or_get_session] is the procedure as it runs;
      [create_or_get_session_under] is its body under each of the three
      settings. *)

From Stdlib Require Import ZArith NArith List String Ascii Bool Lia.
From Stdlib Require Import Permutation Sorted.
Import ListNotations.
Local Open Scope string_scope.
Local Open Scope list_scope.
Local Open Scope Z_scope.

Set Implicit Arguments.

(** ** Errors and the result monad *)

(** The conditions PostgreSQL raises in the modelled statements. *)
Inductive sqlerror : Type :=
| not_null_violation
| foreign_key_violation
| unique_violation
| string_data_right_truncation
| numeric_value_out_of_range
| invalid_row_count_in_limit_clause
| ambiguous_column.

(** The error taxonomy of the specification, and [Unclassified] for a
    condition it has no class for. *)
Inductive spec_error : Type := NotFound | Conflict | InvalidInput | Transient | Unclassified.

(** How a raised condition reads in that taxonomy: a dangling reference is
    [NotFound], a rejected value is [InvalidInput], a colliding fresh
    identifier can be retried; an ambiguous name is a defect of the
    procedure, not of the call. *)
Definition error_class (e : sqlerror) : spec_error :=
  match e with
  | foreign_key_violation => NotFound
  | unique_violation => Transient
  | not_null_violation
  | string_data_right_truncation
  | numeric_value_out_of_range
  | invalid_row_count_in_limit_clause => InvalidInput
  | ambiguous_column => Unclassified
  end.

Inductive result (A : Type) : Type :=
| Ok (a : A)
| Err (e : sqlerror).
Arguments Ok {A} a.
Arguments Err {A} e.

Definition bind {A B : Type} (r : result A) (k : A -> result B) : result B :=
  match r with
  | Ok a => k a
  | Err e => Err e
  end.

Declare Scope sql_scope.
Delimit Scope sql_scope with sql.
Notation "x <- c ;; k" := (bind c (fun x => k))
  (at level 100, c at next level, right associativity) : sql_scope.
Notation "' pat <- c ;; k" := (bind c (fun x => match x with pat => k end))
  (at level 100, pat pattern, c at next level, right associativity) : sql_scope.
Notation "'check' c ;; k" := (bind c (fun _ => k))
  (at level 100, c at next level, right associativity) : sql_scope.
Local Open Scope sql_scope.

(** [guard b e]: raise [e] unless [b]. *)
Definition guard (b : bool) (e : sqlerror) : result unit :=
  if b then Ok tt else Err e.

(** ** SQL values *)

Definition uuid := N.
Bind Scope N_scope with uuid.
Definition timestamp := Z.

(** The JSONB values the procedures build or pass through. *)
#[warnings="-register-all"]
Inductive jsonb : Type :=
| JNull
| JStr (s : string)
| JNum (z : Z)
| JObj (fields : list (string * jsonb)).

(** ['{}'], the default of the metadata columns. *)
Definition empty_object : jsonb := JObj [].

(** [jsonb_build_object('agent_id', v)]; a NULL value becomes JSON null. *)
Definition jsonb_build_object (k : string) (v : option string) : jsonb :=
  JObj [(k, match v with Some s => JStr s | None => JNull end)].

Definition opt_eqb {A : Type} (eqb : A -> A -> bool) (a b : option A) : bool :=
  match a, b with
  | Some x, Some y => eqb x y
  | _, _ => false
  end.

(** [col = param] for a NOT NULL uuid column: NULL matches nothing. *)
Definition uuid_is (col : uuid) (p : option uuid) : bool :=
  match p with
  | Some v => N.eqb col v
  | None => false
  end.

Definition str_is (col : string) (p : option string) : bool :=
  match p with
  | Some v => String.eqb col v
  | None => false
  end.

(** Assignment of a value to a [VARCHAR(n)] column: a longer value is an
    error unless the excess is blank, in which case it is cut to [n]. *)
Fixpoint all_spaces (s : string) : bool :=
  match s with
  | EmptyString => true
  | String c r => Ascii.eqb c " "%char && all_spaces r
  end.

Definition varchar (n : nat) (v : option string) : result (option string) :=
  match v with
  | None => Ok None
  | Some s =>
      if Nat.leb (String.length s) n then Ok (Some s)
      else if all_spaces (substring n (String.length s - n) s)
           then Ok (Some (substring 0 n s))
           else Err string_data_right_truncation
  end.

(** The value fits the column as it is. *)
Definition fits (n : nat) (v : option string) : bool :=
  match v with
  | None => true
  | Some s => Nat.leb (String.length s) n
  end.

Definition not_null {A : Type} (v : option A) : result A :=
  match v with
  | Some a => Ok a
  | None => Err not_null_violation
  end.

(** [INT] is a 32-bit signed integer; its addition raises on overflow and
    yields NULL when an operand is NULL. *)
Definition int4_min : Z := - 2147483648.
Definition int4_max : Z := 2147483647.
Definition in_int4 (z : Z) : bool := (int4_min <=? z) && (z <=? int4_max).

Definition int4_arg (v : option Z) : result (option Z) :=
  match v with
  | None => Ok None
  | Some z => if in_int4 z then Ok (Some z) else Err numeric_value_out_of_range
  end.

Definition int4_add (a b : option Z) : result (option Z) :=
  match a, b with
  | Some x, Some y =>
      if in_int4 (x + y) then Ok (Some (x + y)) else Err numeric_value_out_of_range
  | _, _ => Ok None
  end.

(** [DECIMAL(10,6)]: amounts are held in millionths of a dollar, the scale
    of the column; ten digits of precision bound the magnitude. *)
Definition decimal_10_6 (v : option Z) : result (option Z) :=
  match v with
  | None => Ok None
  | Some c =>
      if Z.abs c <? 10000000000 then Ok (Some c) else Err numeric_value_out_of_range
  end.

(** ** Tables *)

Record user : Type := mk_user {
  u_id : uuid;
  u_channel : string;
  u_channel_user_id : string;
  u_name : option string;
  u_metadata : option jsonb;
  u_created_at : option timestamp;
  u_last_seen_at : option timestamp
}.

Record session : Type := mk_session {
  s_id : uuid;
  s_user_id : option uuid;
  s_channel : string;
  s_selected_category : option string;
  s_category_selected_at : option timestamp;
  s_status : option string;
  s_assigned_agent_id : option string;
  s_escalated_at : option timestamp;
  s_resolved_at : option timestamp;
  s_created_at : option timestamp;
  s_updated_at : option timestamp
}.

Record event : Type := mk_event {
  e_id : uuid;
  e_session_id : option uuid;
  e_type : string;
  e_sender : string;
  e_content : option string;
  e_metadata : option jsonb;
  e_created_at : option timestamp
}.

Record conversation_cost : Type := mk_cost {
  c_id : uuid;
  c_session_id : option uuid;
  c_event_id : option uuid;
  c_service : string;
  c_model : option string;
  c_input_tokens : option Z;
  c_output_tokens : option Z;
  c_total_tokens : option Z;
  c_cost_usd : Z;
  c_created_at : option timestamp
}.

Record agent : Type := mk_agent {
  a_id : string;
  a_name : string;
  a_email : option string;
  a_status : option string;
  a_current_sessions : option Z;
  a_total_takeovers : option Z;
  a_created_at : option timestamp;
  a_last_active_at : option timestamp
}.

(** The tables the procedures read or write ([ai_decisions] and
    [user_feedback] are touched by none of them). *)
Record database : Type := mk_db {
  users : list user;
  sessions : list session;
  events : list event;
  conversation_costs : list conversation_cost;
  agents : list agent
}.

(** The database once the call has ended: a failed call leaves none of
    its writes behind. *)
Definition db_after {A : Type} (before : database) (r : result (A * database)) : database :=
  match r with
  | Ok (_, after) => after
  | Err _ => before
  end.

(** [UPDATE t SET ... WHERE p]: the rows selected by [p] are rewritten by
    [f]; [FOUND] tells whether there was one. *)
Definition update_where {A : Type} (p : A -> bool) (f : A -> A) (t : list A) : list A :=
  map (fun r => if p r then f r else r) t.

Definition found {A : Type} (p : A -> bool) (t : list A) : bool := existsb p t.

(** Primary key: the new identifier must not be in the table. *)
Definition pkey_free (id : uuid) (ids : list uuid) : result unit :=
  guard (negb (existsb (N.eqb id) ids)) unique_violation.

(** Foreign key: a non-NULL reference must name a row of the other table. *)
Definition references (ref : option uuid) (ids : list uuid) : result unit :=
  match ref with
  | None => Ok tt
  | Some v => guard (existsb (N.eqb v) ids) foreign_key_violation
  end.

Definition set_sessions (db : database) (t : list session) : database :=
  mk_db (users db) t (events db) (conversation_costs db) (agents db).
Definition set_events (db : database) (t : list event) : database :=
  mk_db (users db) (sessions db) t (conversation_costs db) (agents db).
Definition set_users (db : database) (t : list user) : database :=
  mk_db t (sessions db) (events db) (conversation_costs db) (agents db).
Definition set_costs (db : database) (t : list conversation_cost) : database :=
  mk_db (users db) (sessions db) (events db) t (agents db).
Definition set_agents (db : database) (t : list agent) : database :=
  mk_db (users db) (sessions db) (events db) (conversation_costs db) t.

(** ** Row updates of the [sessions] table *)

(** [SET updated_at = NOW()] *)
Definition touch (now : timestamp) (s : session) : session :=
  mk_session (s_id s) (s_user_id s) (s_channel s) (s_selected_category s)
    (s_category_selected_at s) (s_status s) (s_assigned_agent_id s)
    (s_escalated_at s) (s_resolved_at s) (s_created_at s) (Some now).

(** ** FUNCTION 2: [log_event] *)

(** [INSERT INTO events (session_id, type, sender, content, metadata)]:
    the values are coerced to their columns, NOT NULL is checked, the row
    gets its key and the insertion time, and the reference to [sessions]
    must hold. *)
Definition insert_event (now : timestamp) (gen : uuid) (db : database)
    (p_session_id : option uuid) (p_type p_sender p_content : option string)
    (metadata : option jsonb) : result database :=
  ty <- varchar 50 p_type ;;
  sender <- varchar 20 p_sender ;;
  ty <- not_null ty ;;
  sender <- not_null sender ;;
  check pkey_free gen (map e_id (events db)) ;;
  check references p_session_id (map s_id (sessions db)) ;;
  Ok (set_events db
        (events db ++ [mk_event gen p_session_id ty sender p_content metadata (Some now)])).

Definition log_event (now : timestamp) (gen : uuid) (db : database)
    (p_session_id : option uuid) (p_type p_sender p_content : option string)
    (p_metadata : option jsonb) : result (uuid * database) :=
  db1 <- insert_event now gen db p_session_id p_type p_sender p_content p_metadata ;;
  let v_event_id := gen in
  (* Update session timestamp *)
  let db2 := set_sessions db1
               (update_where (fun s => uuid_is (s_id s) p_session_id) (touch now)
                  (sessions db1)) in
  Ok (v_event_id, db2).

(** ** FUNCTION 3: [set_session_category] *)

Definition with_category (category : option string) (now : timestamp) (s : session)
    : session :=
  mk_session (s_id s) (s_user_id s) (s_channel s) category (Some now)
    (s_status s) (s_assigned_agent_id s)
    (s_escalated_at s) (s_resolved_at s) (s_created_at s) (Some now).

Definition set_session_category (now : timestamp) (db : database)
    (p_session_id : option uuid) (p_category : option string)
    : result (bool * database) :=
  category <- varchar 50 p_category ;;
  let hit := fun s => uuid_is (s_id s) p_session_id in
  let db1 := set_sessions db
               (update_where hit (with_category category now) (sessions db)) in
  Ok (found hit (sessions db), db1).

(** ** FUNCTION 4: [escalate_session] *)

Definition escalated (now : timestamp) (s : session) : session :=
  mk_session (s_id s) (s_user_id s) (s_channel s) (s_selected_category s)
    (s_category_selected_at s) (Some "escalated") (s_assigned_agent_id s)
    (Some now) (s_resolved_at s) (s_created_at s) (Some now).

Definition escalate_session (now : timestamp) (gen : uuid) (db : database)
    (p_session_id : option uuid) (p_reason : option string)
    : result (bool * database) :=
  let hit := fun s => uuid_is (s_id s) p_session_id in
  let db1 := set_sessions db (update_where hit (escalated now) (sessions db)) in
  (* Log escalation event; the metadata column takes its default *)
  db2 <- insert_event now gen db1 p_session_id (Some "escalation") (Some "system")
           p_reason (Some empty_object) ;;
  (* FOUND is the one of the last statement, the INSERT of one row *)
  let FOUND := true in
  Ok (FOUND, db2).

(** ** FUNCTION 5: [agent_takeover] *)

Definition assigned (agent_id : option string) (now : timestamp) (s : session)
    : session :=
  mk_session (s_id s) (s_user_id s) (s_channel s) (s_selected_category s)
    (s_category_selected_at s) (s_status s) agent_id
    (s_escalated_at s) (s_resolved_at s) (s_created_at s) (Some now).

(** [SET current_sessions = current_sessions + 1,
         total_takeovers = total_takeovers + 1, status = 'busy',
         last_active_at = NOW()] *)
Definition took_over (now : timestamp) (a : agent) : result agent :=
  current <- int4_add (a_current_sessions a) (Some 1) ;;
  total <- int4_add (a_total_takeovers a) (Some 1) ;;
  Ok (mk_agent (a_id a) (a_name a) (a_email a) (Some "busy") current total
        (a_created_at a) (Some now)).

(** An [UPDATE] whose new values may fail to compute. *)
Fixpoint update_where_m {A : Type} (p : A -> bool) (f : A -> result A) (t : list A)
    : result (list A) :=
  match t with
  | [] => Ok []
  | r :: rest =>
      r' <- (if p r then f r else Ok r) ;;
      rest' <- update_where_m p f rest ;;
      Ok (r' :: rest')
  end.

Definition agent_takeover (now : timestamp) (gen : uuid) (db : database)
    (p_session_id : option uuid) (p_agent_id : option string)
    : result (bool * database) :=
  agent_id <- varchar 100 p_agent_id ;;
  let db1 := set_sessions db
               (update_where (fun s => uuid_is (s_id s) p_session_id)
                  (assigned agent_id now) (sessions db)) in
  (* Log takeover event *)
  db2 <- insert_event now gen db1 p_session_id (Some "takeover") (Some "system")
           (Some "Agent took over conversation")
           (Some (jsonb_build_object "agent_id" p_agent_id)) ;;
  (* Update agent stats *)
  let hit := fun a => str_is (a_id a) p_agent_id in
  agents' <- update_where_m hit (took_over now) (agents db2) ;;
  let FOUND := found hit (agents db2) in
  Ok (FOUND, set_agents db2 agents').

(** ** FUNCTION 1: [create_or_get_session] *)

(** [COALESCE(a, b)] *)
Definition coalesce {A : Type} (a b : option A) : option A :=
  match a with
  | Some _ => a
  | None => b
  end.

(** Order of timestamps in [ORDER BY]: NULL counts as larger than every
    value (last when ascending, first when descending). *)
Definition ts_leb (a b : option timestamp) : bool :=
  match a, b with
  | _, None => true
  | None, Some _ => false
  | Some x, Some y => x <=? y
  end.

Definition same_user_key (channel channel_user_id : string) (u : user) : bool :=
  String.eqb (u_channel u) channel && String.eqb (u_channel_user_id u) channel_user_id.

(** [DO UPDATE SET last_seen_at = NOW(),
                   name = COALESCE(EXCLUDED.name, users.name)] *)
Definition seen_again (excluded_name : option string) (now : timestamp) (u : user) : user :=
  mk_user (u_id u) (u_channel u) (u_channel_user_id u)
    (coalesce excluded_name (u_name u)) (u_metadata u) (u_created_at u) (Some now).

(** Get or create user: [INSERT ... ON CONFLICT (channel, channel_user_id)
    DO UPDATE ... RETURNING id]. *)
Definition upsert_user (now : timestamp) (gen : uuid) (db : database)
    (p_channel p_channel_user_id p_user_name : option string)
    : result (uuid * database) :=
  channel <- varchar 20 p_channel ;;
  channel_user_id <- varchar 255 p_channel_user_id ;;
  name <- varchar 255 p_user_name ;;
  channel <- not_null channel ;;
  channel_user_id <- not_null channel_user_id ;;
  match find (same_user_key channel channel_user_id) (users db) with
  | Some u =>
      Ok (u_id u,
          set_users db
            (update_where (same_user_key channel channel_user_id)
               (seen_again name now) (users db)))
  | None =>
      check pkey_free gen (map u_id (users db)) ;;
      Ok (gen,
          set_users db
            (users db ++
             [mk_user gen channel channel_user_id name (Some empty_object)
                (Some now) (Some now)]))
  end.

(** [status IN ('active', 'escalated')] *)
Definition open_status (st : option string) : bool :=
  match st with
  | Some v => String.eqb v "active" || String.eqb v "escalated"
  | None => false
  end.

Definition open_session_of (v_user_id : uuid) (s : session) : bool :=
  opt_eqb N.eqb (s_user_id s) (Some v_user_id) && open_status (s_status s).

(** [ORDER BY created_at DESC LIMIT 1]: a row with the greatest creation
    time; among equal times (where SQL leaves the choice open) the one
    that comes first in the table. *)
Fixpoint latest (l : list session) : option session :=
  match l with
  | [] => None
  | s :: rest =>
      match latest rest with
      | None => Some s
      | Some b => if ts_leb (s_created_at b) (s_created_at s) then Some s else Some b
      end
  end.

Definition select_open_session (db : database) (v_user_id : uuid) : option uuid :=
  option_map s_id (latest (filter (open_session_of v_user_id) (sessions db))).

(** [INSERT INTO sessions (user_id, channel, status)
     VALUES (v_user_id, p_channel, 'active') RETURNING id] *)
Definition insert_session (now : timestamp) (gen : uuid) (db : database)
    (v_user_id : uuid) (p_channel : option string) : result database :=
  channel <- varchar 20 p_channel ;;
  channel <- not_null channel ;;
  check pkey_free gen (map s_id (sessions db)) ;;
  check references (Some v_user_id) (map u_id (users db)) ;;
  Ok (set_sessions db
        (sessions db ++
         [mk_session gen (Some v_user_id) channel None None (Some "active") None
            None None (Some now) (Some now)])).

(** A row of the result of [create_or_get_session]. *)
Record session_details : Type := mk_details {
  r_session_id : uuid;
  r_user_id : option uuid;
  r_selected_category : option string;
  r_status : option string
}.

Definition details_of (s : session) : session_details :=
  mk_details (s_id s) (s_user_id s) (s_selected_category s) (s_status s).

(** [plpgsql.variable_conflict]: what a name means that is both a variable
    of the function and a column of a table of the statement. *)
Inductive variable_conflict : Type :=
| conflict_error
| conflict_use_variable
| conflict_use_column.

(** [SELECT id INTO v_session_id FROM sessions
     WHERE user_id = v_user_id AND status IN ('active', 'escalated')
     ORDER BY created_at DESC LIMIT 1].
    The function [RETURNS TABLE(session_id, user_id, selected_category,
    status)], so [user_id] and [status] are variables of the function as
    well as columns of [sessions].  Under [error] the statement is
    refused; under [use_variable] the two names are the output variables,
    which are NULL at this point, and the condition selects no row; under
    [use_column] they are the columns. *)
Definition lookup_open_session (conflict : variable_conflict) (db : database)
    (v_user_id : uuid) : result (option uuid) :=
  match conflict with
  | conflict_error => Err ambiguous_column
  | conflict_use_variable => Ok None
  | conflict_use_column => Ok (select_open_session db v_user_id)
  end.

Definition create_or_get_session_under (conflict : variable_conflict)
    (now : timestamp) (gen_user gen_session : uuid)
    (db : database) (p_channel p_channel_user_id p_user_name : option string)
    : result (list session_details * database) :=
  (* Get or create user *)
  '(v_user_id, db1) <-
     upsert_user now gen_user db p_channel p_channel_user_id p_user_name ;;
  (* Get active session or create new one *)
  found_id <- lookup_open_session conflict db1 v_user_id ;;
  '(v_session_id, db2) <-
     match found_id with
     | Some id => Ok (id, db1)
     | None =>
         (* Create new session if none exists *)
         db2 <- insert_session now gen_session db1 v_user_id p_channel ;;
         Ok (gen_session, db2)
     end ;;
  (* Update session timestamp *)
  let db3 := set_sessions db2
               (update_where (fun s => N.eqb (s_id s) v_session_id) (touch now)
                  (sessions db2)) in
  (* Return session details *)
  Ok (map details_of (filter (fun s => N.eqb (s_id s) v_session_id) (sessions db3)), db3).

(** The procedure as the repository has it: nothing sets
    [plpgsql.variable_conflict], so its default holds. *)
Definition create_or_get_session : timestamp -> uuid -> uuid -> database ->
    option string -> option string -> option string ->
    result (list session_details * database) :=
  create_or_get_session_under conflict_error.

(** ** FUNCTION 6: [get_session_history] *)

(** A row of the result: the event without its session reference. *)
Record history_row : Type := mk_history_row {
  h_event_id : uuid;
  h_type : string;
  h_sender : string;
  h_content : option string;
  h_metadata : option jsonb;
  h_created_at : option timestamp
}.

Definition history_of (e : event) : history_row :=
  mk_history_row (e_id e) (e_type e) (e_sender e) (e_content e) (e_metadata e)
    (e_created_at e).

(** [WHERE session_id = p_session_id] *)
Definition in_session (p_session_id : option uuid) (e : event) : bool :=
  opt_eqb N.eqb (e_session_id e) p_session_id.

Definition created_leb (a b : event) : bool := ts_leb (e_created_at a) (e_created_at b).

(** [LIMIT p_limit]: NULL is no limit, a negative count is an error. *)
Definition limit {A : Type} (p_limit : option Z) (rows : list A) : result (list A) :=
  match p_limit with
  | None => Ok rows
  | Some n =>
      if n <? 0 then Err invalid_row_count_in_limit_clause
      else Ok (firstn (Z.to_nat n) rows)
  end.

(** What [ORDER BY created_at ASC] promises: the selected rows, each once,
    in an order in which creation times never decrease.  Rows with equal
    creation times may come in any order. *)
Definition ordered_by_created_at (selected rows : list event) : Prop :=
  Permutation rows selected /\ StronglySorted (fun a b => created_leb a b = true) rows.

(** The answers the query of [get_session_history] may give. *)
Definition history_answer (db : database) (p_session_id : option uuid)
    (p_limit : option Z) (answer : result (list history_row)) : Prop :=
  exists rows,
    ordered_by_created_at (filter (in_session p_session_id) (events db)) rows /\
    answer = (page <- limit p_limit rows ;; Ok (map history_of page)).

(** One way to compute such an answer: a stable insertion sort, which
    leaves rows with equal creation times in table order. *)
Fixpoint insert_by_created_at (e : event) (sorted : list event) : list event :=
  match sorted with
  | [] => [e]
  | x :: rest =>
      if created_leb e x then e :: x :: rest
      else x :: insert_by_created_at e rest
  end.

Definition order_by_created_at (rows : list event) : list event :=
  fold_right insert_by_created_at [] rows.

Definition get_session_history (db : database) (p_session_id : option uuid)
    (p_limit : option Z) : result (list history_row) :=
  let rows := order_by_created_at (filter (in_session p_session_id) (events db)) in
  page <- limit p_limit rows ;;
  Ok (map history_of page).

(** ** FUNCTION 7: [log_api_cost] *)

Definition log_api_cost (now : timestamp) (gen : uuid) (db : database)
    (p_session_id p_event_id : option uuid) (p_service p_model : option string)
    (p_input_tokens p_output_tokens : option Z) (p_cost_usd : option Z)
    : result (uuid * database) :=
  (* the INT parameters *)
  input_tokens <- int4_arg p_input_tokens ;;
  output_tokens <- int4_arg p_output_tokens ;;
  (* the VALUES list *)
  service <- varchar 20 p_service ;;
  model <- varchar 50 p_model ;;
  total_tokens <- int4_add input_tokens output_tokens ;;
  cost_usd <- decimal_10_6 p_cost_usd ;;
  (* constraints of conversation_costs *)
  service <- not_null service ;;
  cost_usd <- not_null cost_usd ;;
  check pkey_free gen (map c_id (conversation_costs db)) ;;
  check references p_session_id (map s_id (sessions db)) ;;
  check references p_event_id (map e_id (events db)) ;;
  let v_cost_id := gen in
  Ok (v_cost_id,
      set_costs db
        (conversation_costs db ++
         [mk_cost gen p_session_id p_event_id service model input_tokens output_tokens
            total_tokens cost_usd (Some now)])).

(** ** The pending escalations

    [get_realtime_metrics] counts them as the sessions
    [WHERE status = 'escalated' AND assigned_agent_id IS NULL]. *)
Definition is_pending (s : session) : bool :=
  str_is "escalated" (s_status s) &&
  match s_assigned_agent_id s with None => true | Some _ => false end.

Definition pending_escalations (db : database) : list session :=
  filter is_pending (sessions db).

Definition escalations_pending (db : database) : Z :=
  Z.of_nat (List.length (pending_escalations db)).

(** ** The agent console ([App.jsx]): state and WebSocket handler

    The React state of the console and the effect of each callback on it.
    Console output, the notification timer and the sound are left out.
    The state is typed: [escalations] is a list of escalations.  The code
    does not check what it is sent, so under the types
    [initial_escalations] and [escalation] a payload of another shape puts
    a value that is no such list into the state; [shaped] tells the
    messages for which this does not happen, and [onmessage] is the
    handler on these. *)
Module AgentConsole.

(** An entry of the list of escalations, as sent by the server. *)
Record escalation : Type := mk_escalation {
  session_id : uuid;
  channel : string;
  category : option string;
  reason : option string;
  escalated_at : option timestamp
}.

Inductive payload : Type :=
| Escalations (list_ : list escalation)
| Escalation (new : escalation)
| Info (message : option string)
| Session (id : uuid).

(** The parsed envelope [{type, payload}]. *)
Record ws_message : Type := mk_message {
  m_type : string;
  m_payload : option payload
}.

Record console : Type := mk_console {
  agentInfo : option (string * string);
  agentToken : option string;
  escalations : list escalation;
  selectedSession : option uuid;
  conversationHistory : list history_row;
  notification : option (string * string)
}.

Definition setEscalations (f : list escalation -> list escalation) (st : console)
    : console :=
  mk_console (agentInfo st) (agentToken st) (f (escalations st)) (selectedSession st)
    (conversationHistory st) (notification st).

Definition showNotification (message type : string) (st : console) : console :=
  mk_console (agentInfo st) (agentToken st) (escalations st) (selectedSession st)
    (conversationHistory st) (Some (message, type)).

Definition setSelectedSession (s : option uuid) (st : console) : console :=
  mk_console (agentInfo st) (agentToken st) (escalations st) s
    (conversationHistory st) (notification st).

Definition setConversationHistory (h : list history_row) (st : console) : console :=
  mk_console (agentInfo st) (agentToken st) (escalations st) (selectedSession st)
    h (notification st).

(** [prev.some(e => e.session_id === newEscalation.session_id)] *)
Definition listed (id : uuid) (prev : list escalation) : bool :=
  existsb (fun e => N.eqb (session_id e) id) prev.

(** The payload has the shape its case of the switch reads: a list of
    escalations, or none, under [initial_escalations]; one escalation under
    [escalation].  Otherwise [setEscalations(message.payload || [])] stores
    whatever truthy payload came as the list, and the updater of the
    [escalation] case appends whatever came (or throws on reading
    [session_id] of a missing payload, once the list is not empty); the
    typed state cannot hold these values. *)
Definition shaped (message : ws_message) : bool :=
  if String.eqb (m_type message) "initial_escalations" then
    match m_payload message with
    | None | Some (Escalations _) => true
    | Some _ => false
    end
  else if String.eqb (m_type message) "escalation" then
    match m_payload message with
    | Some (Escalation _) => true
    | _ => false
    end
  else true.

(** The [switch (message.type)] of [websocket.onmessage], on [shaped]
    messages; a message that is not [shaped] is left without effect here.
    In the [error] case, reading [message] of a missing payload throws
    inside the [try], and a missing or empty [message] gives way to the
    default text. *)
Definition onmessage (message : ws_message) (st : console) : console :=
  if String.eqb (m_type message) "connected" then st
  else if String.eqb (m_type message) "initial_escalations" then
    (* Load existing escalations on connect *)
    match m_payload message with
    | Some (Escalations l) => setEscalations (fun _ => l) st
    | None => setEscalations (fun _ => []) st
    | Some _ => st
    end
  else if String.eqb (m_type message) "escalation" then
    (* New escalation received *)
    match m_payload message with
    | Some (Escalation newEscalation) =>
        showNotification "New escalation received!" "warning"
          (setEscalations
             (fun prev =>
                (* Avoid duplicates *)
                if listed (session_id newEscalation) prev then prev
                else prev ++ [newEscalation])
             st)
    | _ => st
    end
  else if String.eqb (m_type message) "takeover_success" then
    showNotification "Takeover successful" "success" st
  else if String.eqb (m_type message) "pong" then st
  else if String.eqb (m_type message) "error" then
    match m_payload message with
    | None => st
    | Some (Info (Some (String c rest))) => showNotification (String c rest) "error" st
    | Some _ => showNotification "Error occurred" "error" st
    end
  else
    (* default: console.log('Unknown message type:', message.type) *)
    st.

(** [loadConversationHistory(sessionId)] once its request is answered:
    the events returned for the conversation, none if the request
    failed. *)
Definition loadConversationHistory (loaded : option (list history_row)) (st : console)
    : console :=
  match loaded with
  | Some events => setConversationHistory events st
  | None => showNotification "Failed to load conversation history" "error" st
  end.

(** [handleTakeover(sessionId)] run from the click to its end with nothing
    else happening to the component in between, given the outcome of the
    two requests it awaits: whether [/human-takeover] answered ok, and
    what the history request returned.  The handler is [async]; the
    module [AgentDesk] has it step by step, with the requests in flight. *)
Definition handleTakeover (sessionId : uuid) (response_ok : bool)
    (loaded : option (list history_row)) (st : console) : console :=
  match agentToken st, agentInfo st with
  | Some _, Some _ =>
      if response_ok then
        (* Remove from escalations list *)
        let st1 := setEscalations
                     (filter (fun e => negb (N.eqb (session_id e) sessionId))) st in
        (* Set as active session *)
        let st2 := setSelectedSession (Some sessionId) st1 in
        (* Load conversation history *)
        let st3 := loadConversationHistory loaded st2 in
        showNotification "You are now handling this conversation" "success" st3
      else
        showNotification "Failed to take over conversation" "error" st
  | _, _ => st
  end.

(** Modelled from the spec: the closed set of message types the server
    sends (the server is not among the sources). *)
Definition protocol : list string :=
  ["connected"; "initial_escalations"; "escalation"; "escalation_removed";
   "takeover_success"; "pong"; "error"].

End AgentConsole.

(** ** Takeover: the agent row after the update, and calls in a row *)

(** [current_sessions + 1]; NULL stays NULL. *)
Definition incr (v : option Z) : option Z := option_map (fun x => x + 1) v.

(** The agent row once [took_over] went through. *)
Definition busy (now : timestamp) (a : agent) : agent :=
  mk_agent (a_id a) (a_name a) (a_email a) (Some "busy")
    (incr (a_current_sessions a)) (incr (a_total_takeovers a))
    (a_created_at a) (Some now).

(** A counter that is an [INT] and stays one after [n] increments. *)
Definition counter_room (n : Z) (v : option Z) : Prop :=
  match v with
  | None => True
  | Some c => int4_min <= c /\ c + n <= int4_max
  end.

Definition room (n : Z) (a : agent) : Prop :=
  counter_room n (a_current_sessions a) /\ counter_room n (a_total_takeovers a).

(** A takeover request: the time of its transaction, the id drawn for its
    event, and the agent. *)
Record takeover_call : Type := mk_call {
  call_now : timestamp;
  call_gen : uuid;
  call_agent : string
}.

(** Takeover calls on one session that reach the database one after the
    other, each in its own transaction (the row lock taken by the [UPDATE]
    of [sessions] makes competing calls wait for each other, and the
    waiting [UPDATE] then finds its row again, since it selects by id
    only).  The answers are collected in call order. *)
Fixpoint run_takeovers (db : database) (sid : uuid) (calls : list takeover_call)
    : list (result bool) * database :=
  match calls with
  | [] => ([], db)
  | c :: rest =>
      let r := agent_takeover (call_now c) (call_gen c) db (Some sid)
                 (Some (call_agent c)) in
      let '(answers, final) := run_takeovers (db_after db r) sid rest in
      (match r with Ok (b, _) => Ok b | Err e => Err e end :: answers, final)
  end.

(** The [agents] table after the agent [UPDATE]s of a series of takeovers
    that all went through: each call rewrites the row of its agent. *)
Definition agents_after (calls : list takeover_call) (t : list agent) : list agent :=
  fold_left
    (fun rows c =>
       update_where (fun a => str_is (a_id a) (Some (call_agent c)))
         (busy (call_now c)) rows)
    calls t.

(** A session row whose [escalated_at] and [updated_at] are set anew and
    whose other columns are kept. *)
Definition restamped (now : timestamp) (s : session) : session :=
  mk_session (s_id s) (s_user_id s) (s_channel s) (s_selected_category s)
    (s_category_selected_at s) (s_status s) (s_assigned_agent_id s)
    (Some now) (s_resolved_at s) (s_created_at s) (Some now).

(** ** Sessions of a user, and requests in a row *)

(** [UNIQUE(channel, channel_user_id)] on [users]. *)
Definition unique_user_key (db : database) : Prop :=
  forall a b,
    In a (users db) -> In b (users db) ->
    u_channel a = u_channel b -> u_channel_user_id a = u_channel_user_id b ->
    a = b.

(** The sessions of a user that are active or escalated. *)
Definition open_sessions (db : database) (user_id : uuid) : list session :=
  filter (open_session_of user_id) (sessions db).

(** A [create_or_get_session] request of one channel user: the time of its
    transaction, the ids drawn for a user row and a session row, and the
    display name. *)
Record session_request : Type := mk_request {
  req_now : timestamp;
  req_gen_user : uuid;
  req_gen_session : uuid;
  req_name : option string
}.

(** Requests of the channel user [(channel, channel_user_id)] served one
    after the other, under a setting of [plpgsql.variable_conflict]. *)
Fixpoint run_requests (conflict : variable_conflict) (db : database)
    (channel channel_user_id : string) (requests : list session_request)
    : list (result (list session_details)) * database :=
  match requests with
  | [] => ([], db)
  | q :: rest =>
      let r := create_or_get_session_under conflict (req_now q) (req_gen_user q)
                 (req_gen_session q) db (Some channel) (Some channel_user_id)
                 (req_name q) in
      let '(answers, final) :=
        run_requests conflict (db_after db r) channel channel_user_id rest in
      (match r with Ok (rows, _) => Ok rows | Err e => Err e end :: answers, final)
  end.

(** ** The gateway's removal notice *)
Module Gateway.

(** Modelled from the spec: the realtime gateway of [server/], which is
    not among the sources.  On a successful takeover it sends a message
    of type [escalation_removed] for the session to every connected
    agent, not only to the one who acted. *)
Definition escalation_removed (session : uuid) : AgentConsole.ws_message :=
  AgentConsole.mk_message "escalation_removed" (Some (AgentConsole.Session session)).

(** Modelled from the spec: a broadcast hands the message to the handler
    of every connected console. *)
Definition broadcast (message : AgentConsole.ws_message)
    (connected : list AgentConsole.console) : list AgentConsole.console :=
  map (AgentConsole.onmessage message) connected.

End Gateway.

(** ** The data model's value sets and sample data *)

(** The event types and senders listed with the [events] table. *)
Definition event_types : list string :=
  ["user_message"; "bot_message"; "agent_message"; "category_selected";
   "escalation"; "takeover"; "system"].

Definition senders : list string := ["user"; "bot"; "agent"; "system"].


(** A small database: three users; an active, an escalated and a closed
    session; three events of the first session, two of them created at the
    same time; two agents. *)
Definition alice : user :=
  mk_user 1 "whatsapp" "u1" (Some "Alice") (Some empty_object) (Some 10) (Some 10).
Definition bob : user :=
  mk_user 2 "web" "u2" None (Some empty_object) (Some 15) (Some 15).
Definition carol : user :=
  mk_user 3 "telegram" "u3" (Some "Carol") (Some empty_object) (Some 5) (Some 30).

Definition active_session : session :=
  mk_session 11 (Some 1%N) "whatsapp" None None (Some "active") None None None
    (Some 10) (Some 20).
Definition escalated_session : session :=
  mk_session 12 (Some 2%N) "web" (Some "billing") (Some 16) (Some "escalated") None
    (Some 18) None (Some 15) (Some 18).
Definition closed_session : session :=
  mk_session 13 (Some 3%N) "telegram" (Some "orders") (Some 6) (Some "closed") None
    None None (Some 5) (Some 30).

Definition first_event : event :=
  mk_event 21 (Some 11%N) "user_message" "user" (Some "hello") (Some empty_object)
    (Some 10).
Definition second_event : event :=
  mk_event 22 (Some 11%N) "bot_message" "bot" (Some "hi, how can I help?")
    (Some empty_object) (Some 10).
Definition third_event : event :=
  mk_event 23 (Some 11%N) "user_message" "user" (Some "my invoice is wrong")
    (Some empty_object) (Some 20).

Definition ann : agent :=
  mk_agent "A1" "Ann" None (Some "online") (Some 0) (Some 0) (Some 1) (Some 1).
Definition ben : agent :=
  mk_agent "A2" "Ben" None (Some "online") (Some 2) (Some 7) (Some 1) (Some 1).

Definition sample_db : database :=
  mk_db [alice; bob; carol]
        [active_session; escalated_session; closed_session]
        [first_event; second_event; third_event]
        []
        [ann; ben].

(** The consoles of two agents, both showing the escalated session. *)
Definition pending_card : AgentConsole.escalation :=
  AgentConsole.mk_escalation 12 "web" (Some "billing") (Some "unable to resolve")
    (Some 18).

Definition ann_console : AgentConsole.console :=
  AgentConsole.mk_console (Some ("A1", "Ann")) (Some "token-of-ann") [pending_card]
    None [] None.

Definition ben_console : AgentConsole.console :=
  AgentConsole.mk_console (Some ("A2", "Ben")) (Some "token-of-ben") [pending_card]
    None [] None.

(** ** Requests to the store, and the constraints of the schema *)

(** A call of one of the procedures that write. *)
Inductive request : Type :=
| CreateOrGetSession (now : timestamp) (gen_user gen_session : uuid)
    (p_channel p_channel_user_id p_user_name : option string)
| LogEvent (now : timestamp) (gen : uuid) (p_session_id : option uuid)
    (p_type p_sender p_content : option string) (p_metadata : option jsonb)
| SetSessionCategory (now : timestamp) (p_session_id : option uuid)
    (p_category : option string)
| EscalateSession (now : timestamp) (gen : uuid) (p_session_id : option uuid)
    (p_reason : option string)
| AgentTakeover (now : timestamp) (gen : uuid) (p_session_id : option uuid)
    (p_agent_id : option string)
| LogApiCost (now : timestamp) (gen : uuid) (p_session_id p_event_id : option uuid)
    (p_service p_model : option string)
    (p_input_tokens p_output_tokens p_cost_usd : option Z).

(** The database after the request has been served, whether the call
    returned or raised. *)
Definition serve (r : request) (db : database) : database :=
  match r with
  | CreateOrGetSession now gen_user gen_session p_channel p_channel_user_id p_user_name =>
      db_after db
        (create_or_get_session now gen_user gen_session db p_channel p_channel_user_id
           p_user_name)
  | LogEvent now gen p_session_id p_type p_sender p_content p_metadata =>
      db_after db (log_event now gen db p_session_id p_type p_sender p_content p_metadata)
  | SetSessionCategory now p_session_id p_category =>
      db_after db (set_session_category now db p_session_id p_category)
  | EscalateSession now gen p_session_id p_reason =>
      db_after db (escalate_session now gen db p_session_id p_reason)
  | AgentTakeover now gen p_session_id p_agent_id =>
      db_after db (agent_takeover now gen db p_session_id p_agent_id)
  | LogApiCost now gen p_session_id p_event_id p_service p_model p_input_tokens
      p_output_tokens p_cost_usd =>
      db_after db
        (log_api_cost now gen db p_session_id p_event_id p_service p_model
           p_input_tokens p_output_tokens p_cost_usd)
  end.

(** Requests served one after the other. *)
Definition serve_all (requests : list request) (db : database) : database :=
  fold_left (fun d r => serve r d) requests db.

(** [PRIMARY KEY] of the five tables. *)
Definition primary_keys (db : database) : Prop :=
  NoDup (map u_id (users db)) /\
  NoDup (map s_id (sessions db)) /\
  NoDup (map e_id (events db)) /\
  NoDup (map c_id (conversation_costs db)) /\
  NoDup (map a_id (agents db)).

(** A reference is NULL or names a row. *)
Definition refers (ref : option uuid) (ids : list uuid) : Prop :=
  match ref with
  | None => True
  | Some v => In v ids
  end.

(** The [REFERENCES] clauses of [sessions], [events] and
    [conversation_costs]. *)
Definition foreign_keys (db : database) : Prop :=
  (forall s, In s (sessions db) -> refers (s_user_id s) (map u_id (users db))) /\
  (forall e, In e (events db) -> refers (e_session_id e) (map s_id (sessions db))) /\
  (forall c, In c (conversation_costs db) ->
     refers (c_session_id c) (map s_id (sessions db)) /\
     refers (c_event_id c) (map e_id (events db))).

(** No user has two sessions that are active or escalated. *)
Definition one_open_session_per_user (db : database) : Prop :=
  forall user_id a b,
    In a (open_sessions db user_id) -> In b (open_sessions db user_id) ->
    s_id a = s_id b.

(** The request is an escalation that names a session which is neither
    active nor escalated. *)
Definition reopens (r : request) (db : database) : Prop :=
  match r with
  | EscalateSession _ _ p_session_id _ =>
      exists s, In s (sessions db) /\ uuid_is (s_id s) p_session_id = true /\
                open_status (s_status s) = false
  | _ => False
  end.

(** No request of the series reopens a session. *)
Fixpoint never_reopens (requests : list request) (db : database) : Prop :=
  match requests with
  | [] => True
  | r :: rest => ~ reopens r db /\ never_reopens rest (serve r db)
  end.


(** ** The dashboard procedures

    Conventions added for the three reading procedures.
    - A [timestamp] counts microseconds and a [date] counts days, both from
      the same midnight, as PostgreSQL stores them.  The time zone of the
      session is taken to be UTC, so that [NOW()] and a stored [TIMESTAMP]
      are on one scale.
    - No procedure of [query.sql] writes [ai_decisions]; its rows are an
      argument of the procedures that read it.
    - A [DECIMAL] result is held as an integer at the scale its [ROUND]
      gives it.  PostgreSQL computes a quotient to sixteen significant
      digits or more before [ROUND] is applied; the model rounds the exact
      quotient.  The two agree for a ratio of two counts, for sums of
      response times below 10^16 and for daily costs below 10^8 dollars.
    - An aggregate does not depend on the order of the joined rows, which
      are listed session by session. *)

Definition date := Z.
Definition hour : Z := 3600000000.
Definition day_length : Z := 86400000000.

(** [DATE(t)] *)
Definition date_of (t : timestamp) : date := t / day_length.

(** A [DATE] that is compared with a [TIMESTAMP] stands for the midnight
    that begins it. *)
Definition midnight (d : date) : timestamp := d * day_length.

Record ai_decision : Type := mk_decision {
  d_id : uuid;
  d_session_id : option uuid;
  d_event_id : option uuid;
  d_category : string;
  d_user_message : string;
  d_bot_response : string;
  d_action : string;
  d_escalated : option bool;
  d_confidence_score : option Z;
  d_response_time_ms : option Z;
  d_retrieval_docs_count : option Z;
  d_created_at : option timestamp
}.

(** [COUNT(...)::INT]: the count is a [BIGINT], the cast raises when it is
    not an [INT]. *)
Definition count_int (n : nat) : result Z :=
  if in_int4 (Z.of_nat n) then Ok (Z.of_nat n) else Err numeric_value_out_of_range.

(** The values an aggregate looks at: the ones that are not NULL. *)
Definition non_null {A : Type} (values : list (option A)) : list A :=
  flat_map (fun v => match v with Some x => [x] | None => [] end) values.

Definition sum_z (values : list Z) : Z := fold_right Z.add 0 values.

(** [SUM(v)]: NULL when there is nothing to add. *)
Definition sum_of (values : list (option Z)) : option Z :=
  match non_null values with
  | [] => None
  | present => Some (sum_z present)
  end.

(** Rounding of the quotient [n / d] ([0 < d]) to the nearest integer, a
    tie away from zero: what [ROUND] and the cast of a [NUMERIC] to [INT]
    do. *)
Definition round_div (n d : Z) : Z := Z.sgn n * ((2 * Z.abs n + d) / (2 * d)).

(** [AVG(v)::INT] *)
Definition avg_int (values : list (option Z)) : result (option Z) :=
  match non_null values with
  | [] => Ok None
  | present => int4_arg (Some (round_div (sum_z present) (Z.of_nat (List.length present))))
  end.

(** [created_at > bound] *)
Definition newer_than (bound : timestamp) (created_at : option timestamp) : bool :=
  match created_at with
  | Some t => bound <? t
  | None => false
  end.

(** *** FUNCTION 8: [get_realtime_metrics] *)

Record realtime_metrics : Type := mk_metrics {
  m_active_sessions : Z;
  m_messages_last_hour : Z;
  m_escalations_pending : Z;
  m_agents_online : Z;
  m_avg_response_time_ms : option Z
}.

Definition is_active (s : session) : bool := str_is "active" (s_status s).
Definition is_online (a : agent) : bool := str_is "online" (a_status a).

Definition get_realtime_metrics (now : timestamp) (db : database)
    (ai_decisions : list ai_decision) : result realtime_metrics :=
  active <- count_int (List.length (filter is_active (sessions db))) ;;
  messages <- count_int
                (List.length (filter (fun e => newer_than (now - hour) (e_created_at e))
                           (events db))) ;;
  pending <- count_int (List.length (filter is_pending (sessions db))) ;;
  online <- count_int (List.length (filter is_online (agents db))) ;;
  response_time <- avg_int
                     (map d_response_time_ms
                        (filter (fun d => newer_than (now - hour) (d_created_at d))
                           ai_decisions)) ;;
  avg <- int4_arg response_time ;;
  Ok (mk_metrics active messages pending online avg).

(** *** FUNCTION 9: [get_daily_stats] *)

(** [left LEFT JOIN right ON on]: every row of [left] with each of its
    matches, or once with NULLs when it has none. *)
Definition left_join {A B : Type} (on : A -> B -> bool) (left : list A) (right : list B)
    : list (A * option B) :=
  flat_map
    (fun a =>
       match filter (on a) right with
       | [] => [(a, None)]
       | matches => map (fun b => (a, Some b)) matches
       end)
    left.

(** [cc.session_id = s.id] *)
Definition cost_of (s : session) (cc : conversation_cost) : bool :=
  match c_session_id cc with
  | Some v => N.eqb v (s_id s)
  | None => false
  end.

(** [DATE(s.created_at) = p_date] *)
Definition created_on (p_date : option date) (s : session) : bool :=
  match s_created_at s, p_date with
  | Some t, Some d => date_of t =? d
  | _, _ => false
  end.

(** [COUNT(DISTINCT v)] *)
Definition count_distinct (values : list (option uuid)) : nat :=
  List.length (nodup N.eq_dec (non_null values)).

(** [s.status = 'resolved' AND s.assigned_agent_id IS NULL] *)
Definition ai_resolved_session (s : session) : bool :=
  str_is "resolved" (s_status s) &&
  match s_assigned_agent_id s with None => true | Some _ => false end.

Definition was_escalated (s : session) : bool :=
  match s_escalated_at s with Some _ => true | None => false end.

(** [CASE WHEN c THEN s.id END] *)
Definition id_when (c : session -> bool) (s : session) : option uuid :=
  if c s then Some (s_id s) else None.

(** [ROUND(n / NULLIF(d, 0) * scale, ...)], in units of the last digit
    kept. *)
Definition ratio (n d : Z) : option Z :=
  if d =? 0 then None else Some (round_div n d).

(** The amounts are in millionths of a dollar, the rate in hundredths of a
    percent, the average in ten-thousandths of a dollar. *)
Record daily_stats : Type := mk_daily {
  ds_total_conversations : Z;
  ds_ai_resolved : Z;
  ds_human_escalations : Z;
  ds_ai_resolution_rate : option Z;
  ds_total_cost_usd : Z;
  ds_avg_cost_per_conversation : option Z
}.

Definition or_zero (v : option Z) : Z :=
  match coalesce v (Some 0) with
  | Some z => z
  | None => 0
  end.

Definition get_daily_stats (db : database) (p_date : option date) : result daily_stats :=
  let rows := filter (fun r => created_on p_date (fst r))
                (left_join cost_of (sessions db) (conversation_costs db)) in
  let total := count_distinct (map (fun r => Some (s_id (fst r))) rows) in
  let resolved := count_distinct (map (fun r => id_when ai_resolved_session (fst r)) rows) in
  let escalations := count_distinct (map (fun r => id_when was_escalated (fst r)) rows) in
  let cost := or_zero (sum_of (map (fun r => option_map c_cost_usd (snd r)) rows)) in
  total_conversations <- count_int total ;;
  ai_resolved <- count_int resolved ;;
  human_escalations <- count_int escalations ;;
  Ok (mk_daily total_conversations ai_resolved human_escalations
        (ratio (Z.of_nat resolved * 10000) (Z.of_nat total))
        cost
        (ratio cost (Z.of_nat total * 100))).

(** *** FUNCTION 10: [get_category_stats] *)

(** [ad.session_id = s.id] *)
Definition decision_of (s : session) (ad : ai_decision) : bool :=
  match d_session_id ad with
  | Some v => N.eqb v (s_id s)
  | None => false
  end.

(** [s.created_at BETWEEN p_start_date AND p_end_date] *)
Definition created_between (p_start_date p_end_date : option date) (s : session) : bool :=
  match s_created_at s, p_start_date, p_end_date with
  | Some t, Some first, Some last => (midnight first <=? t) && (t <=? midnight last)
  | _, _, _ => false
  end.

Definition has_category (s : session) : bool :=
  match s_selected_category s with Some _ => true | None => false end.

(** A row of [sessions s LEFT JOIN ai_decisions ad LEFT JOIN
    conversation_costs cc]. *)
Definition joined_row : Type := (session * option ai_decision * option conversation_cost)%type.

Definition row_session (r : joined_row) : session := fst (fst r).
Definition row_decision (r : joined_row) : option ai_decision := snd (fst r).
Definition row_cost (r : joined_row) : option conversation_cost := snd r.

Definition category_join (db : database) (ai_decisions : list ai_decision)
    (p_start_date p_end_date : option date) : list joined_row :=
  filter (fun r => created_between p_start_date p_end_date (row_session r) &&
                   has_category (row_session r))
    (left_join (fun sd cc => cost_of (fst sd) cc)
       (left_join decision_of (sessions db) ai_decisions)
       (conversation_costs db)).

(** The percentage is in tenths of a percent, the cost in millionths of a
    dollar. *)
Record category_stats : Type := mk_category {
  k_category : option string;
  k_total_messages : Z;
  k_ai_resolved_pct : option Z;
  k_total_cost_usd : Z
}.

Definition option_string_dec (a b : option string) : {a = b} + {a <> b}.
Proof. decide equality. apply string_dec. Defined.

(** Rows of one group: [GROUP BY] puts equal values together. *)
Definition in_category (category : option string) (r : joined_row) : bool :=
  if option_string_dec (s_selected_category (row_session r)) category then true else false.

(** [ad.escalated = FALSE] *)
Definition not_escalated (r : joined_row) : bool :=
  match row_decision r with
  | Some ad => match d_escalated ad with Some false => true | _ => false end
  | None => false
  end.

Definition has_decision (r : joined_row) : bool :=
  match row_decision r with Some _ => true | None => false end.

(** The output row of one group. *)
Definition category_group (category : option string) (group : list joined_row)
    : result category_stats :=
  let messages := List.length (filter has_decision group) in
  let unescalated := List.length (filter not_escalated group) in
  total_messages <- count_int messages ;;
  Ok (mk_category category total_messages
        (ratio (Z.of_nat unescalated * 1000) (Z.of_nat messages))
        (or_zero (sum_of (map (fun r => option_map c_cost_usd (row_cost r)) group)))).

Fixpoint all_ok {A : Type} (l : list (result A)) : result (list A) :=
  match l with
  | [] => Ok []
  | r :: rest =>
      x <- r ;;
      xs <- all_ok rest ;;
      Ok (x :: xs)
  end.

(** [GROUP BY s.selected_category]: one output row for each category among
    the joined rows. *)
Definition category_groups (db : database) (ai_decisions : list ai_decision)
    (p_start_date p_end_date : option date) : result (list category_stats) :=
  let rows := category_join db ai_decisions p_start_date p_end_date in
  let categories :=
    nodup option_string_dec (map (fun r => s_selected_category (row_session r)) rows) in
  all_ok (map (fun c => category_group c (filter (in_category c) rows)) categories).

(** What [ORDER BY total_messages DESC] promises: the rows of the groups,
    the counts never increasing; groups of equal count in any order. *)
Definition by_total_messages_desc (groups rows : list category_stats) : Prop :=
  Permutation rows groups /\
  StronglySorted (fun a b => k_total_messages b <= k_total_messages a) rows.

(** The answers [get_category_stats] may give. *)
Definition category_stats_answer (db : database) (ai_decisions : list ai_decision)
    (p_start_date p_end_date : option date) (answer : result (list category_stats))
    : Prop :=
  match category_groups db ai_decisions p_start_date p_end_date with
  | Ok groups => exists rows, by_total_messages_desc groups rows /\ answer = Ok rows
  | Err e => answer = Err e
  end.

(** One of them: groups of equal count stay in the order of the first
    session of each. *)
Fixpoint insert_by_total_messages (g : category_stats) (sorted : list category_stats)
    : list category_stats :=
  match sorted with
  | [] => [g]
  | h :: rest =>
      if k_total_messages h <? k_total_messages g
      then g :: sorted
      else h :: insert_by_total_messages g rest
  end.

Definition get_category_stats (db : database) (ai_decisions : list ai_decision)
    (p_start_date p_end_date : option date) : result (list category_stats) :=
  groups <- category_groups db ai_decisions p_start_date p_end_date ;;
  Ok (fold_right insert_by_total_messages [] groups).

(** Decisions and costs for the sample sessions. *)
Definition sample_decisions : list ai_decision :=
  [mk_decision 31 (Some 12%N) None "billing" "my invoice is wrong" "let me check"
     "reply_to_user" (Some false) None (Some 800) (Some 3) (Some 16);
   mk_decision 32 (Some 12%N) None "billing" "still wrong" "I will ask a colleague"
     "escalate_to_human" (Some true) None (Some 1201) (Some 2) (Some 18)].

Definition sample_costs : list conversation_cost :=
  [mk_cost 41 (Some 12%N) None "openai_completion" (Some "gpt-4") (Some 100) (Some 20)
     (Some 120) 3000 (Some 16);
   mk_cost 42 (Some 12%N) None "openai_completion" (Some "gpt-4") (Some 150) (Some 30)
     (Some 180) 4500 (Some 18)].

(** *** What a category report adds up

    The sessions a report is about and, for one category, the row that the
    two joins and the aggregates make of them, written without a join: a
    session with [d] decisions and [k] cost records stands in the joined
    table with [max 1 d * max 1 k] rows. *)
Definition reported (p_start_date p_end_date : option date) (s : session) : bool :=
  created_between p_start_date p_end_date s && has_category s.

Definition decisions_of (ai_decisions : list ai_decision) (s : session) : list ai_decision :=
  filter (decision_of s) ai_decisions.

Definition costs_of (db : database) (s : session) : list conversation_cost :=
  filter (cost_of s) (conversation_costs db).

Definition unescalated (ad : ai_decision) : bool :=
  match d_escalated ad with Some false => true | _ => false end.

Definition at_least_one (n : nat) : Z := Z.max 1 (Z.of_nat n).

Definition of_category (category : option string) (s : session) : bool :=
  if option_string_dec (s_selected_category s) category then true else false.

Definition category_report (db : database) (ai_decisions : list ai_decision)
    (p_start_date p_end_date : option date) (category : option string) : category_stats :=
  let mine := filter (of_category category)
                (filter (reported p_start_date p_end_date) (sessions db)) in
  let messages :=
    sum_z (map (fun s => Z.of_nat (List.length (decisions_of ai_decisions s)) *
                         at_least_one (List.length (costs_of db s))) mine) in
  let resolved :=
    sum_z (map (fun s => Z.of_nat (List.length (filter unescalated
                                                  (decisions_of ai_decisions s))) *
                         at_least_one (List.length (costs_of db s))) mine) in
  mk_category category messages (ratio (resolved * 1000) messages)
    (sum_z (map (fun s => at_least_one (List.length (decisions_of ai_decisions s)) *
                          sum_z (map c_cost_usd (costs_of db s))) mine)).

(** The categories of a report, each once. *)
Definition reported_categories (db : database) (p_start_date p_end_date : option date)
    : list (option string) :=
  nodup option_string_dec
    (map s_selected_category (filter (reported p_start_date p_end_date) (sessions db))).

(** The rows the second join makes of the rows of one session. *)
Definition spread {A : Type} (costs : list conversation_cost) (x : A)
    : list (A * option conversation_cost) :=
  match costs with
  | [] => [(x, None)]
  | matches => map (fun c => (x, Some c)) matches
  end.

(** Both joins, for a list of sessions. *)
Definition both_joins (db : database) (ai_decisions : list ai_decision)
    (l : list session) : list joined_row :=
  left_join (fun sd cc => cost_of (fst sd) cc) (left_join decision_of l ai_decisions)
    (conversation_costs db).


(** ** The agent console: signing in and out, and the conversation

    The handlers of the agent console's [App.jsx] around the WebSocket
    handler.  Besides the state of [AgentConsole.console] the component
    keeps whether the agent is signed in, and [localStorage] keeps the
    token.  What a handler gets from outside is an argument: the claims
    [parseJWT] read from the token ([None] when it returned null; [sub] and
    [name] are taken to be present), whether a request was answered ok, the
    clock.  The socket itself, timers and console output are left out. *)
Module AgentDesk.

Record app : Type := mk_app {
  desk : AgentConsole.console;
  isAuthenticated : bool;
  agent_token : option string
}.

(** [useState] defaults; [saved] is what [localStorage] holds. *)
Definition initial (saved : option string) : app :=
  mk_app (AgentConsole.mk_console None None [] None [] None) false saved.

Definition setAgent (token : option string) (info : option (string * string))
    (st : AgentConsole.console) : AgentConsole.console :=
  AgentConsole.mk_console info token (AgentConsole.escalations st)
    (AgentConsole.selectedSession st) (AgentConsole.conversationHistory st)
    (AgentConsole.notification st).

(** [handleLogin(token)] *)
Definition handleLogin (token : string) (payload : option (string * string)) (a : app)
    : app :=
  match payload with
  | None =>
      mk_app (AgentConsole.showNotification "Invalid token" "error" (desk a))
        (isAuthenticated a) (agent_token a)
  | Some (sub, name) =>
      mk_app (setAgent (Some token) (Some (sub, name)) (desk a)) true (Some token)
  end.

(** [handleLogout()] *)
Definition handleLogout (a : app) : app :=
  mk_app
    (AgentConsole.setSelectedSession None
       (AgentConsole.setEscalations (fun _ => []) (setAgent None None (desk a))))
    false None.

(** What a condition takes for true: a string that is not empty. *)
Definition truthy (v : option string) : bool :=
  match v with
  | Some (String _ _) => true
  | _ => false
  end.

(** [handleSendMessage(message)] run from the click to its end with
    nothing else happening in between; whether the request was answered
    ok, [Date.now()] and the time of the local copy are arguments.
    Reading [agentInfo.id] of a missing [agentInfo] throws inside the
    [try]. *)
Definition handleSendMessage (message : string) (response_ok : bool) (now_ms : uuid)
    (sent_at : timestamp) (st : AgentConsole.console) : AgentConsole.console :=
  match AgentConsole.selectedSession st with
  | None => st
  | Some _ =>
      if negb (truthy (AgentConsole.agentToken st)) then st
      else
        match AgentConsole.agentInfo st with
        | Some _ =>
            if response_ok then
              (* Add message to local conversation history *)
              AgentConsole.showNotification "Message sent" "success"
                (AgentConsole.setConversationHistory
                   (AgentConsole.conversationHistory st ++
                    [mk_history_row now_ms "agent_message" "agent" (Some message) None
                       (Some sent_at)])
                   st)
            else AgentConsole.showNotification "Failed to send message" "error" st
        | None => AgentConsole.showNotification "Failed to send message" "error" st
        end
  end.

(** [handleCloseSession()] *)
Definition handleCloseSession (st : AgentConsole.console) : AgentConsole.console :=
  AgentConsole.setConversationHistory [] (AgentConsole.setSelectedSession None st).

(** What happens to the console, one thing at a time: each handler is
    run to its end before the next thing happens. *)
Inductive action : Type :=
| Login (token : string) (payload : option (string * string))
| Logout
| Message (message : AgentConsole.ws_message)
| Takeover (sessionId : uuid) (response_ok : bool) (loaded : option (list history_row))
| Send (message : string) (response_ok : bool) (now_ms : uuid) (sent_at : timestamp)
| Close.

Definition on_desk (f : AgentConsole.console -> AgentConsole.console) (a : app) : app :=
  mk_app (f (desk a)) (isAuthenticated a) (agent_token a).

Definition act (x : action) (a : app) : app :=
  match x with
  | Login token payload => handleLogin token payload a
  | Logout => handleLogout a
  | Message message => on_desk (AgentConsole.onmessage message) a
  | Takeover sessionId response_ok loaded =>
      on_desk (AgentConsole.handleTakeover sessionId response_ok loaded) a
  | Send message response_ok now_ms sent_at =>
      on_desk (handleSendMessage message response_ok now_ms sent_at) a
  | Close => on_desk handleCloseSession a
  end.

Definition run (actions : list action) (a : app) : app :=
  fold_left (fun st x => act x st) actions a.

(** The actions that replace or extend the conversation shown. *)
Definition writes_conversation (x : action) : bool :=
  match x with
  | Takeover _ true (Some _) => true
  | Send _ true _ _ => true
  | Close => true
  | _ => false
  end.

(** *** The asynchronous handlers, step by step

    [handleTakeover] and [handleSendMessage] are [async]: each checks its
    guard and reads the state when it is called, sends its request, and
    goes on when the request is answered.  In between the component is
    open to everything else: other clicks, messages from the server, the
    answers to other requests.  A request in flight carries what its
    handler goes on with. *)
Inductive fetch : Type :=
| HumanTakeover (sessionId : uuid)
| Conversation (sessionId : uuid)
| SendMessage (message : string).

Definition fetch_eqb (a b : fetch) : bool :=
  match a, b with
  | HumanTakeover x, HumanTakeover y => N.eqb x y
  | Conversation x, Conversation y => N.eqb x y
  | SendMessage x, SendMessage y => String.eqb x y
  | _, _ => false
  end.

(** The component and the requests it awaits. *)
Record page : Type := mk_page {
  component : app;
  awaited : list fetch
}.

Definition start (saved : option string) : page := mk_page (initial saved) [].

(** The requests still awaited once [r] has been answered; [None] if [r]
    is not awaited. *)
Fixpoint answer (r : fetch) (l : list fetch) : option (list fetch) :=
  match l with
  | [] => None
  | x :: rest =>
      if fetch_eqb r x then Some rest
      else option_map (cons x) (answer r rest)
  end.

(** What happens to the component: a click, a message from the server, or
    the answer to a request it awaits. *)
Inductive input : Type :=
| LoginClicked (token : string) (payload : option (string * string))
| LogoutClicked
| Received (message : AgentConsole.ws_message)
| CloseClicked
| TakeoverClicked (sessionId : uuid)
| TakeoverAnswered (sessionId : uuid) (response_ok : bool)
| HistoryAnswered (sessionId : uuid) (loaded : option (list history_row))
| SendClicked (message : string)
| SendAnswered (message : string) (response_ok : bool) (now_ms : uuid)
    (sent_at : timestamp).

Definition step (e : input) (p : page) : page :=
  let st := desk (component p) in
  match e with
  | LoginClicked token payload =>
      mk_page (handleLogin token payload (component p)) (awaited p)
  | LogoutClicked => mk_page (handleLogout (component p)) (awaited p)
  | Received message =>
      mk_page (on_desk (AgentConsole.onmessage message) (component p)) (awaited p)
  | CloseClicked => mk_page (on_desk handleCloseSession (component p)) (awaited p)
  | TakeoverClicked sessionId =>
      (* if (!agentToken || !agentInfo) return *)
      match AgentConsole.agentInfo st with
      | Some _ =>
          if truthy (AgentConsole.agentToken st)
          then mk_page (component p) (awaited p ++ [HumanTakeover sessionId])
          else p
      | None => p
      end
  | TakeoverAnswered sessionId response_ok =>
      match answer (HumanTakeover sessionId) (awaited p) with
      | None => p
      | Some rest =>
          if response_ok then
            mk_page
              (on_desk
                 (fun st =>
                    (* Set as active session *)
                    AgentConsole.setSelectedSession (Some sessionId)
                      (* Remove from escalations list *)
                      (AgentConsole.setEscalations
                         (filter
                            (fun e => negb (N.eqb (AgentConsole.session_id e) sessionId)))
                         st))
                 (component p))
              (* Load conversation history *)
              (rest ++ [Conversation sessionId])
          else
            mk_page
              (on_desk
                 (AgentConsole.showNotification "Failed to take over conversation" "error")
                 (component p))
              rest
      end
  | HistoryAnswered sessionId loaded =>
      match answer (Conversation sessionId) (awaited p) with
      | None => p
      | Some rest =>
          mk_page
            (on_desk
               (fun st =>
                  AgentConsole.showNotification "You are now handling this conversation"
                    "success" (AgentConsole.loadConversationHistory loaded st))
               (component p))
            rest
      end
  | SendClicked message =>
      (* if (!selectedSession || !agentToken) return *)
      match AgentConsole.selectedSession st with
      | None => p
      | Some _ =>
          if negb (truthy (AgentConsole.agentToken st)) then p
          else
            match AgentConsole.agentInfo st with
            | Some _ => mk_page (component p) (awaited p ++ [SendMessage message])
            | None =>
                mk_page
                  (on_desk (AgentConsole.showNotification "Failed to send message" "error")
                     (component p))
                  (awaited p)
            end
      end
  | SendAnswered message response_ok now_ms sent_at =>
      match answer (SendMessage message) (awaited p) with
      | None => p
      | Some rest =>
          mk_page
            (on_desk
               (fun st =>
                  if response_ok then
                    (* Add message to local conversation history *)
                    AgentConsole.showNotification "Message sent" "success"
                      (AgentConsole.setConversationHistory
                         (AgentConsole.conversationHistory st ++
                          [mk_history_row now_ms "agent_message" "agent" (Some message)
                             None (Some sent_at)])
                         st)
                  else AgentConsole.showNotification "Failed to send message" "error" st)
               (component p))
            rest
      end
  end.

Definition play (trace : list input) (p : page) : page :=
  fold_left (fun q e => step e q) trace p.

(** The agent is signed in exactly when a token is held, and a token is
    held exactly when the agent's claims are. *)
Definition token_with_claims (a : app) : Prop :=
  (isAuthenticated a = true <-> AgentConsole.agentToken (desk a) <> None) /\
  (AgentConsole.agentToken (desk a) <> None <-> AgentConsole.agentInfo (desk a) <> None).

(** What the server is taken to send: messages that are [shaped], and
    under [initial_escalations] a list that names no session twice. *)
Definition expected (e : input) : Prop :=
  match e with
  | Received message =>
      AgentConsole.shaped message = true /\
      (AgentConsole.m_type message = "initial_escalations" ->
       forall l,
         AgentConsole.m_payload message = Some (AgentConsole.Escalations l) ->
         NoDup (map AgentConsole.session_id l))
  | _ => True
  end.

End AgentDesk.

(** What a later state of a session row keeps of an earlier one: the
    identity, the owner, the channel, the creation time, the time of
    resolution, and the status unless it has become [escalated]. *)
Definition descends (s s' : session) : Prop :=
  s_id s' = s_id s /\ s_user_id s' = s_user_id s /\ s_channel s' = s_channel s /\
  s_created_at s' = s_created_at s /\ s_resolved_at s' = s_resolved_at s /\
  (s_status s' = s_status s \/ s_status s' = Some "escalated").

(** ** The owner dashboard ([App.jsx]): loading and refreshing

    The state of the dashboard component and its five fetches.  A fetch
    is given its outcome: the parsed body, or [None] when the request
    failed, was answered with an error status or had no JSON body.  The
    five fetches of the first load write different parts of the state, so
    the order in which they finish does not matter. *)
Module OwnerDashboard.
Section Payload.

(** A parsed JSON body; the empty array; and [data.conversations || []],
    which is [None] when reading the property throws. *)
Variable json : Type.
Variable empty_array : json.
Variable conversations_or_empty : json -> option json.

Record dashboard : Type := mk_dashboard {
  activeTab : string;
  dateRange : Z;
  loading : bool;
  error : option string;
  realtimeMetrics : option json;
  dailyStats : option json;
  costSummary : option json;
  categoryStats : json;
  conversations : json
}.

(** The [useState] defaults. *)
Definition initial : dashboard :=
  mk_dashboard "overview" 7 false None None None None empty_array empty_array.

Definition setActiveTab (v : string) (st : dashboard) : dashboard :=
  mk_dashboard v (dateRange st) (loading st) (error st) (realtimeMetrics st)
    (dailyStats st) (costSummary st) (categoryStats st) (conversations st).

Definition setDateRange (v : Z) (st : dashboard) : dashboard :=
  mk_dashboard (activeTab st) v (loading st) (error st) (realtimeMetrics st)
    (dailyStats st) (costSummary st) (categoryStats st) (conversations st).

Definition setLoading (v : bool) (st : dashboard) : dashboard :=
  mk_dashboard (activeTab st) (dateRange st) v (error st) (realtimeMetrics st)
    (dailyStats st) (costSummary st) (categoryStats st) (conversations st).

Definition setError (v : option string) (st : dashboard) : dashboard :=
  mk_dashboard (activeTab st) (dateRange st) (loading st) v (realtimeMetrics st)
    (dailyStats st) (costSummary st) (categoryStats st) (conversations st).

Definition setRealtimeMetrics (v : json) (st : dashboard) : dashboard :=
  mk_dashboard (activeTab st) (dateRange st) (loading st) (error st) (Some v)
    (dailyStats st) (costSummary st) (categoryStats st) (conversations st).

Definition setDailyStats (v : json) (st : dashboard) : dashboard :=
  mk_dashboard (activeTab st) (dateRange st) (loading st) (error st) (realtimeMetrics st)
    (Some v) (costSummary st) (categoryStats st) (conversations st).

Definition setCostSummary (v : json) (st : dashboard) : dashboard :=
  mk_dashboard (activeTab st) (dateRange st) (loading st) (error st) (realtimeMetrics st)
    (dailyStats st) (Some v) (categoryStats st) (conversations st).

Definition setCategoryStats (v : json) (st : dashboard) : dashboard :=
  mk_dashboard (activeTab st) (dateRange st) (loading st) (error st) (realtimeMetrics st)
    (dailyStats st) (costSummary st) v (conversations st).

Definition setConversations (v : json) (st : dashboard) : dashboard :=
  mk_dashboard (activeTab st) (dateRange st) (loading st) (error st) (realtimeMetrics st)
    (dailyStats st) (costSummary st) (categoryStats st) v.

Definition fetchRealtimeMetrics (outcome : option json) (st : dashboard) : dashboard :=
  match outcome with
  | Some data => setRealtimeMetrics data st
  | None => st
  end.

Definition fetchDailyStats (outcome : option json) (st : dashboard) : dashboard :=
  match outcome with
  | Some data => setDailyStats data st
  | None => setError (Some "Failed to load daily statistics") st
  end.

Definition fetchCostSummary (outcome : option json) (st : dashboard) : dashboard :=
  match outcome with
  | Some data => setCostSummary data st
  | None => st
  end.

Definition fetchCategoryStats (outcome : option json) (st : dashboard) : dashboard :=
  match outcome with
  | Some data => setCategoryStats data st
  | None => st
  end.

Definition fetchConversations (outcome : option json) (st : dashboard) : dashboard :=
  match outcome with
  | Some data =>
      match conversations_or_empty data with
      | Some list_ => setConversations list_ st
      | None => st
      end
  | None => st
  end.

(** [loadData()]: every fetch catches what it throws, so [Promise.all]
    does not reject and the [catch] of [loadData] has nothing to catch. *)
Definition loadData (realtime daily costs categories recent : option json)
    (st : dashboard) : dashboard :=
  let st := setError None (setLoading true st) in
  let st := fetchConversations recent
              (fetchCategoryStats categories
                 (fetchCostSummary costs
                    (fetchDailyStats daily (fetchRealtimeMetrics realtime st)))) in
  setLoading false st.

(** What happens to the dashboard: the first load, a choice in the date
    range picker with the two fetches its effect starts, a tick of the
    30-second timer, a click on a tab. *)
Inductive action : Type :=
| Load (realtime daily costs categories recent : option json)
| PickRange (days : Z) (costs categories : option json)
| Tick (realtime : option json)
| Tab (id : string).

Definition act (x : action) (st : dashboard) : dashboard :=
  match x with
  | Load realtime daily costs categories recent =>
      loadData realtime daily costs categories recent st
  | PickRange days costs categories =>
      fetchCategoryStats categories (fetchCostSummary costs (setDateRange days st))
  | Tick realtime => fetchRealtimeMetrics realtime st
  | Tab id => setActiveTab id st
  end.

Definition run (actions : list action) (st : dashboard) : dashboard :=
  fold_left (fun s x => act x s) actions st.

End Payload.
End OwnerDashboard.

(** ** Basic facts about the constraint checks *)

Unset Implicit Arguments.

(** Case analysis on the first step of a chain of checks that succeeded. *)
Ltac step_ok H :=
  match type of H with
  | bind ?c _ = Ok _ =>
      let E := fresh "E" in
      destruct c eqn:E; cbn [bind] in H; [| discriminate H]
  end.

(** As the repository has it, [create_or_get_session] returns from no
    call: what passes the upsert is stopped at the lookup. *)
Lemma create_or_get_session_fails now gen_user gen_session db c u name answer :
  create_or_get_session now gen_user gen_session db c u name = Ok answer -> False.
Proof.
  unfold create_or_get_session, create_or_get_session_under. intros H.
  step_ok H. destruct a as [v_user_id db1].
  cbn [lookup_open_session bind] in H. discriminate H.
Qed.

Lemma existsb_eqb_In (v : uuid) (ids : list uuid) :
  existsb (N.eqb v) ids = true <-> In v ids.
Proof.
  rewrite existsb_exists. split.
  - intros [x [Hin Heq]]. apply N.eqb_eq in Heq. now subst.
  - intros Hin. exists v. split; [assumption | apply N.eqb_refl].
Qed.

Lemma pkey_free_fresh (gen : uuid) (ids : list uuid) :
  ~ In gen ids -> pkey_free gen ids = Ok tt.
Proof.
  intros Hfresh. unfold pkey_free, guard.
  destruct (existsb (N.eqb gen) ids) eqn:E; [| reflexivity].
  apply existsb_eqb_In in E. contradiction.
Qed.

Lemma pkey_free_taken (gen : uuid) (ids : list uuid) :
  In gen ids -> pkey_free gen ids = Err unique_violation.
Proof.
  intros Hin. unfold pkey_free, guard.
  apply existsb_eqb_In in Hin. now rewrite Hin.
Qed.

Lemma references_present (v : uuid) (ids : list uuid) :
  In v ids -> references (Some v) ids = Ok tt.
Proof.
  intros Hin. unfold references, guard.
  apply existsb_eqb_In in Hin. now rewrite Hin.
Qed.

Lemma references_dangling (v : uuid) (ids : list uuid) :
  ~ In v ids -> references (Some v) ids = Err foreign_key_violation.
Proof.
  intros Hout. unfold references, guard.
  destruct (existsb (N.eqb v) ids) eqn:E; [| reflexivity].
  apply existsb_eqb_In in E. contradiction.
Qed.

Lemma varchar_fits (n : nat) (v : option string) :
  fits n v = true -> varchar n v = Ok v.
Proof.
  destruct v as [s |]; simpl; [| reflexivity].
  intros Hfit. now rewrite Hfit.
Qed.

Lemma event_type_fits (ty : string) : In ty event_types -> fits 50 (Some ty) = true.
Proof.
  unfold event_types. simpl.
  intros H. repeat (destruct H as [<- | H]; [reflexivity |]). contradiction.
Qed.

Lemma sender_fits (sender : string) : In sender senders -> fits 20 (Some sender) = true.
Proof.
  unfold senders. simpl.
  intros H. repeat (destruct H as [<- | H]; [reflexivity |]). contradiction.
Qed.

(** Rewriting rows in place keeps their number and, when the rewrite keeps
    the key, the keys. *)
Lemma update_where_keys {A K : Type} (key : A -> K) (p : A -> bool) (f : A -> A)
    (t : list A) :
  (forall r, key (f r) = key r) -> map key (update_where p f t) = map key t.
Proof.
  intros Hkey. unfold update_where. rewrite map_map.
  apply map_ext. intros r. destruct (p r); [apply Hkey | reflexivity].
Qed.

Lemma update_where_In {A : Type} (p : A -> bool) (f : A -> A) (t : list A) (r' : A) :
  In r' (update_where p f t) <->
  exists r, In r t /\ r' = (if p r then f r else r).
Proof.
  unfold update_where. rewrite in_map_iff.
  split; intros [r [H1 H2]]; exists r; split; auto.
Qed.

Lemma update_where_none {A : Type} (p : A -> bool) (f : A -> A) (t : list A) :
  (forall r, In r t -> p r = false) -> update_where p f t = t.
Proof.
  intros Hnone. unfold update_where.
  rewrite <- (map_id t) at 2. apply map_ext_in.
  intros r Hin. now rewrite (Hnone r Hin).
Qed.

Lemma found_In {A : Type} (p : A -> bool) (t : list A) (r : A) :
  In r t -> p r = true -> found p t = true.
Proof.
  intros Hin Hp. unfold found. apply existsb_exists. now exists r.
Qed.

Lemma found_none {A : Type} (p : A -> bool) (t : list A) :
  (forall r, In r t -> p r = false) -> found p t = false.
Proof.
  intros Hnone. unfold found.
  destruct (existsb p t) eqn:E; [| reflexivity].
  apply existsb_exists in E. destruct E as [r [Hin Hp]].
  rewrite (Hnone r Hin) in Hp. discriminate.
Qed.

(** ** The event insert *)

Lemma insert_event_ok now gen db p_session_id ty sender content metadata :
  fits 50 (Some ty) = true ->
  fits 20 (Some sender) = true ->
  ~ In gen (map e_id (events db)) ->
  (forall sid, p_session_id = Some sid -> In sid (map s_id (sessions db))) ->
  insert_event now gen db p_session_id (Some ty) (Some sender) content metadata =
  Ok (set_events db
        (events db ++ [mk_event gen p_session_id ty sender content metadata (Some now)])).
Proof.
  intros Hty Hsender Hfresh Href. unfold insert_event.
  rewrite (varchar_fits 50 (Some ty) Hty), (varchar_fits 20 (Some sender) Hsender).
  cbn [bind not_null]. rewrite (pkey_free_fresh _ _ Hfresh). cbn [bind].
  destruct p_session_id as [sid |].
  - rewrite (references_present _ _ (Href sid eq_refl)). reflexivity.
  - reflexivity.
Qed.

Lemma insert_event_dangling now gen db sid ty sender content metadata :
  fits 50 (Some ty) = true ->
  fits 20 (Some sender) = true ->
  ~ In gen (map e_id (events db)) ->
  ~ In sid (map s_id (sessions db)) ->
  insert_event now gen db (Some sid) (Some ty) (Some sender) content metadata =
  Err foreign_key_violation.
Proof.
  intros Hty Hsender Hfresh Hout. unfold insert_event.
  rewrite (varchar_fits 50 (Some ty) Hty), (varchar_fits 20 (Some sender) Hsender).
  cbn [bind not_null]. rewrite (pkey_free_fresh _ _ Hfresh). cbn [bind].
  rewrite (references_dangling _ _ Hout). reflexivity.
Qed.

Lemma insert_event_appends now gen db p_session_id p_type p_sender p_content metadata db' :
  insert_event now gen db p_session_id p_type p_sender p_content metadata = Ok db' ->
  exists e,
    e_id e = gen /\
    db' = set_events db (events db ++ [e]).
Proof.
  unfold insert_event. intros H. repeat step_ok H.
  injection H as <-. eexists. split; [| reflexivity]. reflexivity.
Qed.

(** ** Event ledger: [log_event] *)

Lemma log_event_ok now gen db sid ty sender content metadata :
  fits 50 (Some ty) = true ->
  fits 20 (Some sender) = true ->
  ~ In gen (map e_id (events db)) ->
  In sid (map s_id (sessions db)) ->
  log_event now gen db (Some sid) (Some ty) (Some sender) content metadata =
  Ok (gen,
      mk_db (users db)
        (update_where (fun s => uuid_is (s_id s) (Some sid)) (touch now) (sessions db))
        (events db ++ [mk_event gen (Some sid) ty sender content metadata (Some now)])
        (conversation_costs db) (agents db)).
Proof.
  intros Fty Fsender Hfresh Hsession. unfold log_event.
  rewrite (insert_event_ok now gen db (Some sid) ty sender content metadata
             Fty Fsender Hfresh).
  - reflexivity.
  - intros sid' E. injection E as <-. exact Hsession.
Qed.

(** C7, as the procedure has it.  For an event type and sender of the
    data model and a fresh event id, [log_event] goes by the session id
    alone.  When it is the id of an existing session, the call returns the
    new id, the events table is the old one followed by exactly the new
    record, every row of that session has [updated_at] set to the call
    time and the other tables are as before.  When it is an id no session
    has, the call fails with a foreign-key violation (class NotFound) and
    the database, with its events, is as before.  When it is NULL, the
    column [events.session_id] being nullable, the call does not fail: it
    returns the new id and stores one event that belongs to no session,
    and every other table, [sessions] included, is as before. *)
Theorem log_event_goes_by_the_session_id :
  forall now gen db p_session_id ty sender content metadata,
    In ty event_types ->
    In sender senders ->
    ~ In gen (map e_id (events db)) ->
    let call :=
      log_event now gen db p_session_id (Some ty) (Some sender) content metadata in
    (forall sid,
       p_session_id = Some sid -> In sid (map s_id (sessions db)) ->
       exists db',
         call = Ok (gen, db') /\
         events db' =
           events db ++ [mk_event gen (Some sid) ty sender content metadata (Some now)] /\
         sessions db' =
           update_where (fun s => N.eqb (s_id s) sid) (touch now) (sessions db) /\
         (forall s, In s (sessions db') -> s_id s = sid -> s_updated_at s = Some now) /\
         users db' = users db /\
         conversation_costs db' = conversation_costs db /\
         agents db' = agents db) /\
    (forall sid,
       p_session_id = Some sid -> ~ In sid (map s_id (sessions db)) ->
       exists e,
         call = Err e /\ error_class e = NotFound /\
         db_after db call = db /\ events (db_after db call) = events db) /\
    (p_session_id = None ->
       call =
       Ok (gen,
           mk_db (users db) (sessions db)
             (events db ++ [mk_event gen None ty sender content metadata (Some now)])
             (conversation_costs db) (agents db))).
Proof.
  intros now gen db p_session_id ty sender content metadata Hty Hsender Hfresh call.
  pose proof (event_type_fits _ Hty) as Fty.
  pose proof (sender_fits _ Hsender) as Fsender.
  split; [| split].
  - intros sid -> Hsession. subst call.
    rewrite (log_event_ok now gen db sid ty sender content metadata
               Fty Fsender Hfresh Hsession).
    eexists. split; [reflexivity |]. cbn [events sessions users conversation_costs agents].
    repeat split.
    intros s Hin Hid. apply update_where_In in Hin.
    destruct Hin as [r [Hr ->]]. cbn [uuid_is] in *.
    destruct (N.eqb (s_id r) sid) eqn:E; [reflexivity |].
    apply N.eqb_neq in E. contradiction.
  - intros sid -> Hout. exists foreign_key_violation. subst call. unfold log_event.
    rewrite (insert_event_dangling now gen db sid ty sender content metadata
               Fty Fsender Hfresh Hout).
    simpl. repeat split.
  - intros ->. subst call. unfold log_event.
    rewrite (insert_event_ok now gen db None ty sender content metadata
               Fty Fsender Hfresh) by (intros sid E; discriminate E).
    cbn [bind sessions set_events set_sessions users events conversation_costs agents
         uuid_is].
    unfold update_where. now rewrite map_id.
Qed.

Lemma log_event_goes_by_the_session_id_witness :
  (exists db',
     log_event 40 24 sample_db (Some 11%N) (Some "agent_message") (Some "agent")
       (Some "on it") None = Ok (24%N, db') /\
     List.length (events db') = 4%nat) /\
  log_event 40 24 sample_db (Some 99%N) (Some "agent_message") (Some "agent")
    (Some "on it") None = Err foreign_key_violation /\
  exists db',
    log_event 40 24 sample_db None (Some "agent_message") (Some "agent")
      (Some "on it") None = Ok (24%N, db') /\
    sessions db' = sessions sample_db.
Proof.
  assert (Hty : In "agent_message" event_types) by (simpl; auto).
  assert (Hsender : In "agent" senders) by (simpl; auto).
  assert (Hfresh : ~ In 24%N (map e_id (events sample_db)))
    by (simpl; intros [H | [H | [H | []]]]; discriminate H).
  split; [| split].
  - destruct (log_event_goes_by_the_session_id 40 24%N sample_db (Some 11%N)
                "agent_message" "agent" (Some "on it") None Hty Hsender Hfresh)
      as [Hpresent _].
    destruct (Hpresent 11%N eq_refl) as [db' [Hcall [Hevents _]]].
    + simpl. auto.
    + exists db'. split; [exact Hcall |]. rewrite Hevents. reflexivity.
  - destruct (log_event_goes_by_the_session_id 40 24%N sample_db (Some 99%N)
                "agent_message" "agent" (Some "on it") None Hty Hsender Hfresh)
      as [_ [Habsent _]].
    destruct (Habsent 99%N eq_refl) as [e [Hcall _]].
    + simpl. intros [H | [H | [H | []]]]; discriminate H.
    + refine (eq_trans Hcall _). f_equal.
      vm_compute in Hcall. injection Hcall as <-. reflexivity.
  - destruct (log_event_goes_by_the_session_id 40 24%N sample_db None
                "agent_message" "agent" (Some "on it") None Hty Hsender Hfresh)
      as [_ [_ Hnull]].
    eexists. split; [exact (Hnull eq_refl) | reflexivity].
Defined.

(** C7 fails as stated for a NULL session id: no session has it, and still
    the call does not fail but writes an event record. *)
Lemma log_event_stores_an_event_of_no_session :
  (forall s, In s (sessions sample_db) -> uuid_is (s_id s) None = false) /\
  exists db',
    log_event 40 24 sample_db None (Some "agent_message") (Some "agent")
      (Some "on it") None = Ok (24%N, db') /\
    events db' =
      events sample_db ++
      [mk_event 24 None "agent_message" "agent" (Some "on it") None (Some 40)].
Proof.
  split; [intros s _; reflexivity |].
  eexists. split; reflexivity.
Qed.

(** ** Cost ledger: [log_api_cost] *)

Lemma int4_arg_ok (v r : option Z) : int4_arg v = Ok r -> r = v.
Proof.
  destruct v as [z |]; simpl.
  - destruct (in_int4 z); [intros H; now injection H | discriminate].
  - intros H. now injection H.
Qed.

Lemma int4_arg_in_range (z : Z) : in_int4 z = true -> int4_arg (Some z) = Ok (Some z).
Proof. intros H. simpl. now rewrite H. Qed.

Lemma int4_add_ok (x y : Z) (r : option Z) :
  int4_add (Some x) (Some y) = Ok r -> r = Some (x + y) /\ in_int4 (x + y) = true.
Proof.
  simpl. destruct (in_int4 (x + y)); [| discriminate].
  intros H. injection H as <-. now split.
Qed.

(** C10. Whenever [log_api_cost] succeeds on integer token counts, the
    record it stores is the one appended to [conversation_costs], carries
    the returned id and both counts, and its [total_tokens] is their exact
    integer sum (a sum outside the range of [INT] makes the call fail, it
    is never stored wrapped). *)
Theorem log_api_cost_total_tokens :
  forall now gen db sid eid service model (i o : Z) cost id db',
    log_api_cost now gen db sid eid service model (Some i) (Some o) cost = Ok (id, db') ->
    exists row,
      conversation_costs db' = conversation_costs db ++ [row] /\
      c_id row = id /\
      c_input_tokens row = Some i /\
      c_output_tokens row = Some o /\
      c_total_tokens row = Some (i + o).
Proof.
  intros now gen db sid eid service model i o cost id db' H.
  unfold log_api_cost in H.
  repeat step_ok H.
  match goal with E : int4_arg (Some i) = _ |- _ => apply int4_arg_ok in E; subst end.
  match goal with E : int4_arg (Some o) = _ |- _ => apply int4_arg_ok in E; subst end.
  match goal with
  | E : int4_add _ _ = _ |- _ => apply int4_add_ok in E; destruct E as [-> _]
  end.
  injection H as <- <-. eexists. simpl. repeat split.
Qed.

Lemma log_api_cost_total_tokens_witness :
  exists row,
    conversation_costs
      (db_after sample_db
         (log_api_cost 50 31 sample_db (Some 11%N) (Some 21%N) (Some "openai_completion")
            (Some "gpt-4") (Some 1200) (Some 345) (Some 46350))) = [row] /\
    c_total_tokens row = Some 1545.
Proof.
  destruct (log_api_cost 50 31 sample_db (Some 11%N) (Some 21%N)
              (Some "openai_completion") (Some "gpt-4") (Some 1200) (Some 345)
              (Some 46350)) as [[id db'] | e] eqn:Hcall.
  - destruct (log_api_cost_total_tokens 50 31%N sample_db (Some 11%N) (Some 21%N)
                (Some "openai_completion") (Some "gpt-4") 1200 345 (Some 46350) id db'
                Hcall) as [row [Hrows [_ [_ [_ Htotal]]]]].
    exists row. simpl. split; [exact Hrows | exact Htotal].
  - vm_compute in Hcall. discriminate Hcall.
Defined.

(** C8, as the procedure has it.  [log_api_cost] checks neither the sign
    of the token counts nor the sign of the amount.  With a service name
    and a model that fit their columns, token counts that are [INT] values
    with an [INT] sum, an amount within [DECIMAL(10,6)] and a fresh id, the
    call appends exactly one record and returns its id whenever the session
    and the event exist, whatever the signs of the counts and of the
    amount; when the session or the event is missing it fails with a
    foreign-key violation (class NotFound) and writes nothing. *)
Theorem log_api_cost_checks_references_only :
  forall now gen db sid eid service model (i o cost : Z),
    fits 20 (Some service) = true ->
    fits 50 model = true ->
    in_int4 i = true -> in_int4 o = true -> in_int4 (i + o) = true ->
    Z.abs cost < 10000000000 ->
    ~ In gen (map c_id (conversation_costs db)) ->
    let call := log_api_cost now gen db (Some sid) (Some eid) (Some service) model
                  (Some i) (Some o) (Some cost) in
    (In sid (map s_id (sessions db)) -> In eid (map e_id (events db)) ->
       call =
       Ok (gen,
           set_costs db
             (conversation_costs db ++
              [mk_cost gen (Some sid) (Some eid) service model (Some i) (Some o)
                 (Some (i + o)) cost (Some now)]))) /\
    (~ In sid (map s_id (sessions db)) \/ ~ In eid (map e_id (events db)) ->
       call = Err foreign_key_violation /\
       error_class foreign_key_violation = NotFound /\
       db_after db call = db).
Proof.
  intros now gen db sid eid service model i o cost Hservice Hmodel Hi Ho Hsum Hcost
    Hfresh call.
  assert (Hprefix : forall k : option Z -> option Z -> string -> option string ->
                              option Z -> Z -> result (uuid * database),
             (input_tokens <- int4_arg (Some i) ;;
              output_tokens <- int4_arg (Some o) ;;
              service' <- varchar 20 (Some service) ;;
              model' <- varchar 50 model ;;
              total_tokens <- int4_add input_tokens output_tokens ;;
              cost_usd <- decimal_10_6 (Some cost) ;;
              service' <- not_null service' ;;
              cost_usd <- not_null cost_usd ;;
              check pkey_free gen (map c_id (conversation_costs db)) ;;
              k input_tokens output_tokens service' model' total_tokens cost_usd) =
             k (Some i) (Some o) service model (Some (i + o)) cost).
  { intros k.
    rewrite (int4_arg_in_range i Hi), (int4_arg_in_range o Ho). cbn [bind].
    rewrite (varchar_fits 20 (Some service) Hservice), (varchar_fits 50 model Hmodel).
    cbn [bind int4_add]. rewrite Hsum. cbn [bind decimal_10_6].
    apply Z.ltb_lt in Hcost. rewrite Hcost. cbn [bind not_null].
    rewrite (pkey_free_fresh _ _ Hfresh). reflexivity. }
  subst call. unfold log_api_cost.
  rewrite (Hprefix (fun input_tokens output_tokens service' model' total_tokens cost_usd =>
    check references (Some sid) (map s_id (sessions db)) ;;
    check references (Some eid) (map e_id (events db)) ;;
    Ok (gen,
        set_costs db
          (conversation_costs db ++
           [mk_cost gen (Some sid) (Some eid) service' model' input_tokens output_tokens
              total_tokens cost_usd (Some now)])))).
  split.
  - intros Hs He.
    rewrite (references_present _ _ Hs), (references_present _ _ He). reflexivity.
  - intros Hmissing.
    destruct (in_dec N.eq_dec sid (map s_id (sessions db))) as [Hs | Hs].
    + destruct Hmissing as [Hno | Hno]; [contradiction |].
      rewrite (references_present _ _ Hs), (references_dangling _ _ Hno).
      cbn. repeat split.
    + rewrite (references_dangling _ _ Hs). cbn. repeat split.
Qed.

Lemma log_api_cost_checks_references_only_witness :
  (exists db',
     log_api_cost 50 31 sample_db (Some 11%N) (Some 21%N) (Some "pinecone") None
       (Some (-5)) (Some (-7)) (Some (-250000)) = Ok (31%N, db') /\
     List.length (conversation_costs db') = 1%nat) /\
  log_api_cost 50 31 sample_db (Some 11%N) (Some 77%N) (Some "pinecone") None
    (Some (-5)) (Some (-7)) (Some (-250000)) = Err foreign_key_violation.
Proof.
  assert (Hfresh : ~ In 31%N (map c_id (conversation_costs sample_db)))
    by (simpl; intros []).
  assert (Hcost : Z.abs (-250000) < 10000000000) by (simpl; lia).
  split.
  - destruct (log_api_cost_checks_references_only 50 31%N sample_db 11%N 21%N "pinecone"
                None (-5) (-7) (-250000) eq_refl eq_refl eq_refl eq_refl eq_refl
                Hcost Hfresh) as [Hpresent _].
    eexists. split.
    + apply Hpresent; simpl; auto.
    + reflexivity.
  - destruct (log_api_cost_checks_references_only 50 31%N sample_db 11%N 77%N "pinecone"
                None (-5) (-7) (-250000) eq_refl eq_refl eq_refl eq_refl eq_refl
                Hcost Hfresh) as [_ Habsent].
    apply Habsent. right. simpl.
    intros [H | [H | [H | []]]]; discriminate H.
Defined.

(** C8 fails as stated: a call with negative token counts and a negative
    amount is accepted and stores its record. *)
Lemma log_api_cost_accepts_negative_values :
  exists db',
    log_api_cost 50 31 sample_db (Some 11%N) (Some 21%N) (Some "openai_completion")
      (Some "gpt-4") (Some (-5)) (Some (-7)) (Some (-250000)) = Ok (31%N, db') /\
    conversation_costs db' =
      [mk_cost 31 (Some 11%N) (Some 21%N) "openai_completion" (Some "gpt-4")
         (Some (-5)) (Some (-7)) (Some (-12)) (-250000) (Some 50)].
Proof. eexists. split; reflexivity. Qed.

(** ** Session store: the updates select their row by id alone *)

Lemma touch_id now s : s_id (touch now s) = s_id s.
Proof. reflexivity. Qed.

Lemma with_category_id category now s : s_id (with_category category now s) = s_id s.
Proof. reflexivity. Qed.

Lemma escalated_id now s : s_id (escalated now s) = s_id s.
Proof. reflexivity. Qed.

Lemma assigned_id agent_id now s : s_id (assigned agent_id now s) = s_id s.
Proof. reflexivity. Qed.

Lemma uuid_is_hit (sid : uuid) (t : list session) :
  In sid (map s_id t) -> found (fun s => uuid_is (s_id s) (Some sid)) t = true.
Proof.
  intros Hin. apply in_map_iff in Hin. destruct Hin as [s [Hid Hs]].
  apply (found_In _ t s Hs). simpl. rewrite Hid. apply N.eqb_refl.
Qed.

Lemma set_session_category_ok now db sid category :
  fits 50 category = true ->
  set_session_category now db (Some sid) category =
  Ok (found (fun s => uuid_is (s_id s) (Some sid)) (sessions db),
      set_sessions db
        (update_where (fun s => uuid_is (s_id s) (Some sid))
           (with_category category now) (sessions db))).
Proof.
  intros Hfit. unfold set_session_category.
  rewrite (varchar_fits 50 category Hfit). reflexivity.
Qed.

Lemma escalate_session_ok now gen db sid reason :
  In sid (map s_id (sessions db)) ->
  ~ In gen (map e_id (events db)) ->
  escalate_session now gen db (Some sid) reason =
  Ok (true,
      mk_db (users db)
        (update_where (fun s => uuid_is (s_id s) (Some sid)) (escalated now) (sessions db))
        (events db ++
         [mk_event gen (Some sid) "escalation" "system" reason (Some empty_object)
            (Some now)])
        (conversation_costs db) (agents db)).
Proof.
  intros Hsession Hfresh. unfold escalate_session.
  rewrite insert_event_ok; try reflexivity; try assumption.
  intros sid' E. injection E as <-. cbn [sessions set_sessions].
  rewrite (update_where_keys s_id); [assumption | apply escalated_id].
Qed.

Lemma counter_room_incr (v : option Z) :
  counter_room 1 v -> int4_add v (Some 1) = Ok (incr v).
Proof.
  destruct v as [c |]; simpl; [| reflexivity].
  unfold in_int4, int4_min, int4_max. intros [Hlo Hhi].
  destruct (Z.leb_spec (-2147483648) (c + 1)); [| unfold int4_min in Hlo; lia].
  destruct (Z.leb_spec (c + 1) 2147483647); [| unfold int4_max in Hhi; lia].
  reflexivity.
Qed.

Lemma took_over_room now a : room 1 a -> took_over now a = Ok (busy now a).
Proof.
  intros [Hcurrent Htotal]. unfold took_over.
  rewrite (counter_room_incr _ Hcurrent), (counter_room_incr _ Htotal). reflexivity.
Qed.

Lemma counter_room_less (n m : Z) (v : option Z) :
  m <= n -> counter_room n v -> counter_room m v.
Proof. destruct v as [c |]; simpl; [lia | trivial]. Qed.

Lemma counter_room_after (n : Z) (v : option Z) :
  1 <= n -> counter_room n v -> counter_room (n - 1) (incr v).
Proof. destruct v as [c |]; simpl; [lia | trivial]. Qed.

Lemma room_less n m a : m <= n -> room n a -> room m a.
Proof. intros Hle [H1 H2]. split; eapply counter_room_less; eassumption. Qed.

Lemma room_after n now a : 1 <= n -> room n a -> room (n - 1) (busy now a).
Proof. intros Hle [H1 H2]. split; simpl; now apply counter_room_after. Qed.

Lemma update_where_m_pure {A : Type} (p : A -> bool) (f : A -> result A) (g : A -> A)
    (t : list A) :
  (forall r, In r t -> p r = true -> f r = Ok (g r)) ->
  update_where_m p f t = Ok (update_where p g t).
Proof.
  induction t as [| r rest IH]; intros Hpure; simpl.
  - reflexivity.
  - rewrite IH by (intros r' Hin; apply Hpure; now right).
    destruct (p r) eqn:Hp.
    + rewrite (Hpure r (or_introl eq_refl) Hp). reflexivity.
    + reflexivity.
Qed.

(** One takeover call: no condition on the session's status or on an
    earlier assignment enters. *)
Lemma agent_takeover_ok now gen db sid aid :
  In sid (map s_id (sessions db)) ->
  fits 100 (Some aid) = true ->
  ~ In gen (map e_id (events db)) ->
  (forall a, In a (agents db) -> a_id a = aid -> room 1 a) ->
  agent_takeover now gen db (Some sid) (Some aid) =
  Ok (found (fun a => str_is (a_id a) (Some aid)) (agents db),
      mk_db (users db)
        (update_where (fun s => uuid_is (s_id s) (Some sid)) (assigned (Some aid) now)
           (sessions db))
        (events db ++
         [mk_event gen (Some sid) "takeover" "system" (Some "Agent took over conversation")
            (Some (jsonb_build_object "agent_id" (Some aid))) (Some now)])
        (conversation_costs db)
        (update_where (fun a => str_is (a_id a) (Some aid)) (busy now) (agents db))).
Proof.
  intros Hsession Hfit Hfresh Hroom. unfold agent_takeover.
  rewrite (varchar_fits 100 (Some aid) Hfit). cbn [bind].
  rewrite insert_event_ok; try reflexivity; try assumption.
  - cbn [bind agents set_events set_sessions].
    rewrite (update_where_m_pure _ (took_over now) (busy now)).
    + reflexivity.
    + intros a Hin Hhit. apply took_over_room. apply Hroom; [assumption |].
      simpl in Hhit. now apply String.eqb_eq in Hhit.
  - intros sid' E. injection E as <-. cbn [sessions set_sessions].
    rewrite (update_where_keys s_id); [assumption | apply assigned_id].
Qed.

Lemma agent_takeover_dangling now gen db sid aid :
  ~ In sid (map s_id (sessions db)) ->
  fits 100 (Some aid) = true ->
  ~ In gen (map e_id (events db)) ->
  agent_takeover now gen db (Some sid) (Some aid) = Err foreign_key_violation.
Proof.
  intros Hout Hfit Hfresh. unfold agent_takeover.
  rewrite (varchar_fits 100 (Some aid) Hfit). cbn [bind].
  rewrite insert_event_dangling; try reflexivity; try assumption.
  cbn [sessions set_sessions].
  rewrite (update_where_keys s_id); [assumption | apply assigned_id].
Qed.

(** The same with a session id that may be NULL: the reference of the
    takeover event is all that looks at the session. *)
Lemma agent_takeover_written now gen db p_session_id aid :
  refers p_session_id (map s_id (sessions db)) ->
  fits 100 (Some aid) = true ->
  ~ In gen (map e_id (events db)) ->
  (forall a, In a (agents db) -> a_id a = aid -> room 1 a) ->
  agent_takeover now gen db p_session_id (Some aid) =
  Ok (found (fun a => str_is (a_id a) (Some aid)) (agents db),
      mk_db (users db)
        (update_where (fun s => uuid_is (s_id s) p_session_id) (assigned (Some aid) now)
           (sessions db))
        (events db ++
         [mk_event gen p_session_id "takeover" "system"
            (Some "Agent took over conversation")
            (Some (jsonb_build_object "agent_id" (Some aid))) (Some now)])
        (conversation_costs db)
        (update_where (fun a => str_is (a_id a) (Some aid)) (busy now) (agents db))).
Proof.
  intros Hsession Hfit Hfresh Hroom. unfold agent_takeover.
  rewrite (varchar_fits 100 (Some aid) Hfit). cbn [bind].
  rewrite insert_event_ok; try reflexivity; try assumption.
  - cbn [bind agents set_events set_sessions].
    rewrite (update_where_m_pure _ (took_over now) (busy now)).
    + reflexivity.
    + intros a Hin Hhit. apply took_over_room. apply Hroom; [assumption |].
      simpl in Hhit. now apply String.eqb_eq in Hhit.
  - intros sid E. subst p_session_id. cbn [sessions set_sessions].
    rewrite (update_where_keys s_id); [exact Hsession | apply assigned_id].
Qed.

(** ** Takeover calls one after the other *)

Lemma run_takeovers_cons db sid c rest :
  run_takeovers db sid (c :: rest) =
  (match agent_takeover (call_now c) (call_gen c) db (Some sid) (Some (call_agent c)) with
   | Ok (b, _) => Ok b
   | Err e => Err e
   end
   :: fst (run_takeovers
             (db_after db
                (agent_takeover (call_now c) (call_gen c) db (Some sid)
                   (Some (call_agent c))))
             sid rest),
   snd (run_takeovers
          (db_after db
             (agent_takeover (call_now c) (call_gen c) db (Some sid)
                (Some (call_agent c))))
          sid rest)).
Proof.
  simpl.
  destruct (run_takeovers
              (db_after db
                 (agent_takeover (call_now c) (call_gen c) db (Some sid)
                    (Some (call_agent c)))) sid rest) as [answers final].
  reflexivity.
Qed.

Lemma agent_found (aid : string) (t : list agent) :
  In aid (map a_id t) -> found (fun a => str_is (a_id a) (Some aid)) t = true.
Proof.
  intros Hin. apply in_map_iff in Hin. destruct Hin as [a [Hid Ha]].
  apply (found_In _ t a Ha). simpl. rewrite Hid. apply String.eqb_refl.
Qed.

Lemma busy_id now a : a_id (busy now a) = a_id a.
Proof. reflexivity. Qed.

(** Calls on an existing session by existing agents: all accepted, the
    last agent assigned, one event per call. *)
Lemma run_takeovers_accepted :
  forall calls db sid,
    Forall (fun c => fits 100 (Some (call_agent c)) = true) calls ->
    NoDup (map call_gen calls) ->
    (forall c, In c calls -> ~ In (call_gen c) (map e_id (events db))) ->
    In sid (map s_id (sessions db)) ->
    (forall c, In c calls -> In (call_agent c) (map a_id (agents db))) ->
    (forall a, In a (agents db) -> room (Z.of_nat (List.length calls)) a) ->
    fst (run_takeovers db sid calls) = map (fun _ => Ok true) calls /\
    (forall before c s,
        calls = before ++ [c] ->
        In s (sessions (snd (run_takeovers db sid calls))) -> s_id s = sid ->
        s_assigned_agent_id s = Some (call_agent c)) /\
    events (snd (run_takeovers db sid calls)) =
      events db ++
      map (fun c =>
             mk_event (call_gen c) (Some sid) "takeover" "system"
               (Some "Agent took over conversation")
               (Some (jsonb_build_object "agent_id" (Some (call_agent c))))
               (Some (call_now c)))
          calls.
Proof.
  induction calls as [| c rest IH]; intros db sid Hfit Hnodup Hfresh Hsession Hagents Hroom.
  - simpl. repeat split.
    + intros before c s Hnil. destruct before; discriminate Hnil.
    + now rewrite app_nil_r.
  - rewrite run_takeovers_cons.
    inversion Hfit as [| c' rest' Hfit_c Hfit_rest]; subst.
    inversion Hnodup as [| g gs Hnotin Hnodup_rest]; subst.
    assert (Hlen : Z.of_nat (List.length (c :: rest)) = Z.of_nat (List.length rest) + 1)
      by (simpl List.length; lia).
    rewrite (agent_takeover_ok (call_now c) (call_gen c) db sid (call_agent c)
               Hsession Hfit_c (Hfresh c (or_introl eq_refl))).
    2:{ intros a Ha _. apply (room_less (Z.of_nat (List.length (c :: rest)))); [lia |].
        now apply Hroom. }
    rewrite (agent_found _ _ (Hagents c (or_introl eq_refl))).
    cbn [db_after fst snd].
    match goal with
    | |- context [run_takeovers ?d sid rest] => set (db1 := d)
    end.
    destruct (IH db1 sid) as [IHanswers [IHlast IHevents]]; try assumption.
    + intros c' Hin. subst db1. cbn [events]. rewrite map_app. simpl.
      intros Hdup. apply in_app_or in Hdup. destruct Hdup as [Hold | [Heq | []]].
      * exact (Hfresh c' (or_intror Hin) Hold).
      * apply Hnotin. rewrite Heq. now apply in_map.
    + subst db1. cbn [sessions].
      rewrite (update_where_keys s_id); [assumption | apply assigned_id].
    + intros c' Hin. subst db1. cbn [agents].
      rewrite (update_where_keys a_id); [| apply busy_id].
      apply Hagents. now right.
    + intros a' Hin. subst db1. cbn [agents] in Hin.
      apply update_where_In in Hin. destruct Hin as [a [Ha ->]].
      pose proof (Hroom a Ha) as Ra. rewrite Hlen in Ra.
      destruct (str_is (a_id a) (Some (call_agent c))).
      * replace (Z.of_nat (List.length rest)) with (Z.of_nat (List.length rest) + 1 - 1)
          by lia.
        apply room_after; [lia | assumption].
      * apply (room_less (Z.of_nat (List.length rest) + 1)); [lia | assumption].
    + split; [| split].
      * simpl. now rewrite IHanswers.
      * intros before cl s Hcalls Hin Hid.
        destruct rest as [| c2 rest2].
        -- destruct before as [| b before'].
           ++ injection Hcalls as <-. simpl in Hin. subst db1. cbn [sessions] in Hin.
              apply update_where_In in Hin. destruct Hin as [r [Hr ->]].
              cbn [uuid_is] in *.
              destruct (N.eqb (s_id r) sid) eqn:Hhit.
              ** reflexivity.
              ** apply N.eqb_neq in Hhit. contradiction.
           ++ injection Hcalls as _ Hnil. destruct before'; discriminate Hnil.
        -- destruct before as [| b before'].
           ++ discriminate Hcalls.
           ++ injection Hcalls as _ Hrest.
              exact (IHlast before' cl s Hrest Hin Hid).
      * rewrite IHevents. subst db1. cbn [events]. rewrite <- app_assoc. reflexivity.
Qed.

Lemma run_takeovers_dangling :
  forall calls db sid,
    Forall (fun c => fits 100 (Some (call_agent c)) = true) calls ->
    (forall c, In c calls -> ~ In (call_gen c) (map e_id (events db))) ->
    ~ In sid (map s_id (sessions db)) ->
    fst (run_takeovers db sid calls) = map (fun _ => Err foreign_key_violation) calls /\
    snd (run_takeovers db sid calls) = db.
Proof.
  induction calls as [| c rest IH]; intros db sid Hfit Hfresh Hout.
  - split; reflexivity.
  - rewrite run_takeovers_cons.
    inversion Hfit as [| c' rest' Hfit_c Hfit_rest]; subst.
    rewrite (agent_takeover_dangling (call_now c) (call_gen c) db sid (call_agent c)
               Hout Hfit_c (Hfresh c (or_introl eq_refl))).
    cbn [db_after fst snd].
    destruct (IH db sid Hfit_rest) as [IHanswers IHfinal]; try assumption.
    + intros c' Hin. apply Hfresh. now right.
    + split; [simpl; now rewrite IHanswers | exact IHfinal].
Qed.

Lemma references_ok_inv (v : uuid) (ids : list uuid) (u : unit) :
  references (Some v) ids = Ok u -> In v ids.
Proof.
  unfold references, guard.
  destruct (existsb (N.eqb v) ids) eqn:E; [| discriminate].
  intros _. now apply existsb_eqb_In.
Qed.

Lemma found_inv {A : Type} (p : A -> bool) (t : list A) :
  found p t = true -> exists r, In r t /\ p r = true.
Proof. unfold found. now rewrite existsb_exists. Qed.

(** A takeover that is accepted names an agent that exists, and a session
    that exists unless the session id is NULL. *)
Lemma agent_takeover_accepted_inv now gen db p_session_id aid db' :
  agent_takeover now gen db p_session_id aid = Ok (true, db') ->
  refers p_session_id (map s_id (sessions db)) /\
  exists a, In a (agents db) /\ aid = Some (a_id a).
Proof.
  unfold agent_takeover. intros H. repeat step_ok H.
  match goal with
  | E : insert_event _ _ _ _ _ _ _ _ = Ok ?d |- _ =>
      assert (Hagents : agents d = agents db);
      [ pose proof (insert_event_appends _ _ _ _ _ _ _ _ _ E) as [e [_ ->]]; reflexivity
      | unfold insert_event in E; repeat step_ok E ]
  end.
  injection H as Hfound _. rewrite Hagents in Hfound.
  split.
  - destruct p_session_id as [sid |]; [| exact I].
    match goal with
    | E : references (Some sid) _ = Ok _ |- _ => apply references_ok_inv in E
    end.
    cbn [sessions set_sessions refers] in *.
    match goal with
    | E : In sid (map s_id (update_where _ _ _)) |- _ =>
        rewrite (update_where_keys s_id) in E by reflexivity; exact E
    end.
  - apply found_inv in Hfound. destruct Hfound as [agent_row [Ha Hhit]].
    exists agent_row. split; [exact Ha |].
    destruct aid as [v |]; simpl in Hhit; [| discriminate].
    apply String.eqb_eq in Hhit. now subst.
Qed.

(** The agent rows after a series of accepted takeovers. *)
Lemma run_takeovers_agents :
  forall calls db sid,
    Forall (fun c => fits 100 (Some (call_agent c)) = true) calls ->
    NoDup (map call_gen calls) ->
    (forall c, In c calls -> ~ In (call_gen c) (map e_id (events db))) ->
    In sid (map s_id (sessions db)) ->
    (forall a, In a (agents db) -> room (Z.of_nat (List.length calls)) a) ->
    agents (snd (run_takeovers db sid calls)) = agents_after calls (agents db).
Proof.
  induction calls as [| c rest IH]; intros db sid Hfit Hnodup Hfresh Hsession Hroom.
  - reflexivity.
  - rewrite run_takeovers_cons.
    inversion Hfit as [| c' rest' Hfit_c Hfit_rest]; subst.
    inversion Hnodup as [| g gs Hnotin Hnodup_rest]; subst.
    assert (Hlen : Z.of_nat (List.length (c :: rest)) = Z.of_nat (List.length rest) + 1)
      by (simpl List.length; lia).
    rewrite (agent_takeover_ok (call_now c) (call_gen c) db sid (call_agent c)
               Hsession Hfit_c (Hfresh c (or_introl eq_refl))).
    2:{ intros a Ha _. apply (room_less (Z.of_nat (List.length (c :: rest)))); [lia |].
        now apply Hroom. }
    cbn [db_after fst snd].
    match goal with
    | |- context [run_takeovers ?d sid rest] => set (db1 := d)
    end.
    rewrite (IH db1 sid); try assumption.
    + reflexivity.
    + intros c' Hin. subst db1. cbn [events]. rewrite map_app. simpl.
      intros Hdup. apply in_app_or in Hdup. destruct Hdup as [Hold | [Heq | []]].
      * exact (Hfresh c' (or_intror Hin) Hold).
      * apply Hnotin. rewrite Heq. now apply in_map.
    + subst db1. cbn [sessions].
      rewrite (update_where_keys s_id); [assumption | apply assigned_id].
    + intros a' Hin. subst db1. cbn [agents] in Hin.
      apply update_where_In in Hin. destruct Hin as [a [Ha ->]].
      pose proof (Hroom a Ha) as Ra. rewrite Hlen in Ra.
      destruct (str_is (a_id a) (Some (call_agent c))).
      * replace (Z.of_nat (List.length rest)) with (Z.of_nat (List.length rest) + 1 - 1)
          by lia.
        apply room_after; [lia | assumption].
      * apply (room_less (Z.of_nat (List.length rest) + 1)); [lia | assumption].
Qed.

(** C1, as the procedure has it.  [agent_takeover] returns true only if
    the agent exists and the session id is NULL or that of an existing
    session; it looks neither at the status of the session nor at an
    assignment already made.  One call with such a session id, by an
    existing agent whose counters have room, with an agent id that fits
    its column and a fresh event id, returns true, whatever the status and
    the assignee are: the session with that id is assigned to the agent,
    one takeover event is appended, and the agent's row has
    [current_sessions] and [total_takeovers] one higher, the status [busy]
    and [last_active_at] the time of the call.  Let takeover calls on one
    session reach the database one after the other.  If the session
    exists, the agents exist and their counters have room, then every call
    returns true; after the calls the session is assigned to the agent of
    the last one, the ledger has gained one takeover event per call, and
    the agent rows have been rewritten once per call.  If no session has
    that id, every call fails with a foreign-key violation and the
    database is as before. *)
Theorem agent_takeover_accepts_every_call :
  (forall now gen db p_session_id aid db',
     agent_takeover now gen db p_session_id aid = Ok (true, db') ->
     refers p_session_id (map s_id (sessions db)) /\
     exists a, In a (agents db) /\ aid = Some (a_id a)) /\
  (forall now gen db p_session_id aid,
     refers p_session_id (map s_id (sessions db)) ->
     In aid (map a_id (agents db)) ->
     fits 100 (Some aid) = true ->
     ~ In gen (map e_id (events db)) ->
     (forall a, In a (agents db) -> a_id a = aid -> room 1 a) ->
     agent_takeover now gen db p_session_id (Some aid) =
     Ok (true,
         mk_db (users db)
           (update_where (fun s => uuid_is (s_id s) p_session_id)
              (assigned (Some aid) now) (sessions db))
           (events db ++
            [mk_event gen p_session_id "takeover" "system"
               (Some "Agent took over conversation")
               (Some (jsonb_build_object "agent_id" (Some aid))) (Some now)])
           (conversation_costs db)
           (update_where (fun a => str_is (a_id a) (Some aid)) (busy now)
              (agents db))) /\
     (forall a,
        In a (agents db) -> a_id a = aid ->
        a_current_sessions (busy now a) = option_map (fun n => n + 1) (a_current_sessions a) /\
        a_total_takeovers (busy now a) = option_map (fun n => n + 1) (a_total_takeovers a) /\
        a_status (busy now a) = Some "busy" /\
        a_last_active_at (busy now a) = Some now)) /\
  (forall db sid calls,
     Forall (fun c => fits 100 (Some (call_agent c)) = true) calls ->
     NoDup (map call_gen calls) ->
     (forall c, In c calls -> ~ In (call_gen c) (map e_id (events db))) ->
     let answers := fst (run_takeovers db sid calls) in
     let final := snd (run_takeovers db sid calls) in
     (In sid (map s_id (sessions db)) ->
      (forall c, In c calls -> In (call_agent c) (map a_id (agents db))) ->
      (forall a, In a (agents db) -> room (Z.of_nat (List.length calls)) a) ->
        answers = map (fun _ => Ok true) calls /\
        (forall before c s,
            calls = before ++ [c] -> In s (sessions final) -> s_id s = sid ->
            s_assigned_agent_id s = Some (call_agent c)) /\
        events final =
          events db ++
          map (fun c =>
                 mk_event (call_gen c) (Some sid) "takeover" "system"
                   (Some "Agent took over conversation")
                   (Some (jsonb_build_object "agent_id" (Some (call_agent c))))
                   (Some (call_now c)))
              calls /\
        agents final = agents_after calls (agents db)) /\
     (~ In sid (map s_id (sessions db)) ->
        answers = map (fun _ => Err foreign_key_violation) calls /\
        error_class foreign_key_violation = NotFound /\
        final = db)).
Proof.
  split; [| split].
  - intros now gen db p_session_id aid db' Hcall.
    exact (agent_takeover_accepted_inv now gen db p_session_id aid db' Hcall).
  - intros now gen db p_session_id aid Hsession Hagent Hfit Hfresh Hroom. split.
    + rewrite (agent_takeover_written now gen db p_session_id aid
                 Hsession Hfit Hfresh Hroom).
      now rewrite (agent_found _ _ Hagent).
    + intros a _ _. repeat split.
  - intros db sid calls Hfit Hnodup Hfresh answers final. split.
    + intros Hsession Hagents Hroom.
      destruct (run_takeovers_accepted calls db sid Hfit Hnodup Hfresh Hsession Hagents
                  Hroom) as (Hanswers & Hlast & Hevents).
      repeat split; try assumption.
      exact (run_takeovers_agents calls db sid Hfit Hnodup Hfresh Hsession Hroom).
    + intros Hout.
      destruct (run_takeovers_dangling calls db sid Hfit Hfresh Hout) as [H1 H2].
      repeat split; assumption.
Qed.

Lemma agent_takeover_accepts_every_call_witness :
  fst (run_takeovers sample_db 12 [mk_call 40 24 "A1"; mk_call 41 25 "A2"]) =
    [Ok true; Ok true] /\
  map a_current_sessions
    (agents (snd (run_takeovers sample_db 12 [mk_call 40 24 "A1"; mk_call 41 25 "A1"]))) =
    map (fun a => if String.eqb (a_id a) "A1"
                  then option_map (fun n => n + 2) (a_current_sessions a)
                  else a_current_sessions a)
        (agents sample_db) /\
  fst (run_takeovers sample_db 99 [mk_call 40 24 "A1"; mk_call 41 25 "A2"]) =
    [Err foreign_key_violation; Err foreign_key_violation] /\
  (exists db', agent_takeover 40 24 sample_db None (Some "A1") = Ok (true, db')) /\
  exists a, In a (agents sample_db) /\ Some "A1" = Some (a_id a).
Proof.
  destruct agent_takeover_accepts_every_call as (Honly & Hone & Hcalls).
  pose (calls := [mk_call 40 24 "A1"; mk_call 41 25 "A2"]).
  pose (again := [mk_call 40 24 "A1"; mk_call 41 25 "A1"]).
  assert (Hfit : forall l, incl l (calls ++ again) ->
             Forall (fun c => fits 100 (Some (call_agent c)) = true) l).
  { intros l Hl. apply Forall_forall. intros c Hc. apply Hl in Hc. simpl in Hc.
    destruct Hc as [<- | [<- | [<- | [<- | []]]]]; reflexivity. }
  assert (Hnodup : NoDup (map call_gen calls) /\ NoDup (map call_gen again)).
  { split; simpl; repeat constructor; simpl; intuition discriminate. }
  assert (Hfresh : forall c, In c (calls ++ again) ->
                     ~ In (call_gen c) (map e_id (events sample_db))).
  { intros c [<- | [<- | [<- | [<- | []]]]]; simpl; intuition discriminate. }
  assert (Hroom : forall a, In a (agents sample_db) -> room 2 a).
  { intros a [<- | [<- | []]]; split; simpl; unfold int4_min, int4_max; lia. }
  split; [| split; [| split; [| split]]].
  - destruct (Hcalls sample_db 12%N calls) as [Hpresent _].
    + apply Hfit. now apply incl_appl, incl_refl.
    + apply Hnodup.
    + intros c Hc. apply Hfresh, in_or_app. now left.
    + destruct Hpresent as [Hanswers _].
      * simpl. auto.
      * intros c [<- | [<- | []]]; simpl; auto.
      * exact Hroom.
      * exact Hanswers.
  - destruct (Hcalls sample_db 12%N again) as [Hpresent _].
    + apply Hfit. now apply incl_appr, incl_refl.
    + apply Hnodup.
    + intros c Hc. apply Hfresh, in_or_app. now right.
    + destruct Hpresent as (_ & _ & _ & Hagents).
      * simpl. auto.
      * intros c [<- | [<- | []]]; simpl; auto.
      * exact Hroom.
      * fold again. rewrite Hagents. reflexivity.
  - destruct (Hcalls sample_db 99%N calls) as [_ Habsent].
    + apply Hfit. now apply incl_appl, incl_refl.
    + apply Hnodup.
    + intros c Hc. apply Hfresh, in_or_app. now left.
    + destruct Habsent as [Hanswers _].
      * simpl. intuition discriminate.
      * exact Hanswers.
  - eexists.
    refine (proj1 (Hone 40 24%N sample_db None "A1" I _ eq_refl _ _)).
    + simpl. auto.
    + simpl. intuition discriminate.
    + intros a Ha _. apply (room_less 2); [lia | now apply Hroom].
  - destruct (agent_takeover 40 24 sample_db (Some 12%N) (Some "A1"))
      as [[[|] db'] | e] eqn:Hcall.
    + exact (proj2 (Honly 40 24%N sample_db (Some 12%N) (Some "A1") db' Hcall)).
    + vm_compute in Hcall. discriminate Hcall.
    + vm_compute in Hcall. discriminate Hcall.
Defined.

(** C1 fails as stated: a takeover of a session that is [active], not
    escalated, is accepted; and of two takeovers of the same escalated,
    unassigned session, one after the other, both are accepted, the
    session ending with the second agent. *)
Lemma agent_takeover_accepted_without_escalation_and_twice :
  s_status active_session = Some "active" /\
  (exists db', agent_takeover 40 24 sample_db (Some 11%N) (Some "A1") = Ok (true, db')) /\
  is_pending escalated_session = true /\
  fst (run_takeovers sample_db 12 [mk_call 40 24 "A1"; mk_call 41 25 "A2"]) =
    [Ok true; Ok true] /\
  map s_assigned_agent_id
    (sessions (snd (run_takeovers sample_db 12 [mk_call 40 24 "A1"; mk_call 41 25 "A2"]))) =
    [None; Some "A2"; None].
Proof.
  split; [reflexivity |]. split; [eexists; reflexivity |].
  split; [reflexivity |]. split; reflexivity.
Qed.

(** A call naming an agent that has no row returns false, yet the session
    has been assigned and the takeover event written. *)
Remark agent_takeover_unknown_agent :
  exists db',
    agent_takeover 40 24 sample_db (Some 12%N) (Some "A9") = Ok (false, db') /\
    map s_assigned_agent_id (sessions db') = [None; Some "A9"; None] /\
    List.length (events db') = 4%nat /\
    agents db' = agents sample_db.
Proof. eexists. repeat split. Qed.




(** ** Repeated escalation *)

Lemma escalated_of_escalated now s :
  s_status s = Some "escalated" -> escalated now s = restamped now s.
Proof. intros H. unfold escalated, restamped. now rewrite H. Qed.

Lemma is_pending_restamped now s : is_pending (restamped now s) = is_pending s.
Proof. reflexivity. Qed.

Lemma filter_update_where_keys {A K : Type} (key : A -> K) (q p : A -> bool)
    (f : A -> A) (t : list A) :
  (forall r, In r t -> p r = true -> q (f r) = q r /\ key (f r) = key r) ->
  map key (filter q (update_where p f t)) = map key (filter q t).
Proof.
  induction t as [| r rest IH]; intros Hkeep; simpl.
  - reflexivity.
  - assert (IH' : map key (filter q (update_where p f rest)) = map key (filter q rest))
      by (apply IH; intros r' Hin; apply Hkeep; now right).
    destruct (p r) eqn:Hp.
    + destruct (Hkeep r (or_introl eq_refl) Hp) as [Hq Hkey].
      rewrite Hq. destruct (q r); simpl; [rewrite Hkey |]; now rewrite IH'.
    + destruct (q r); simpl; now rewrite IH'.
Qed.

Lemma NoDup_map_filter {A K : Type} (key : A -> K) (q : A -> bool) (t : list A) :
  NoDup (map key t) -> NoDup (map key (filter q t)).
Proof.
  induction t as [| r rest IH]; simpl; intros Hnodup.
  - constructor.
  - inversion Hnodup as [| k ks Hnotin Hrest]; subst.
    destruct (q r); simpl.
    + constructor; [| now apply IH].
      intros Hin. apply Hnotin. apply in_map_iff in Hin.
      destruct Hin as [x [Hkey Hx]]. apply filter_In in Hx.
      apply in_map_iff. exists x. tauto.
    + now apply IH.
Qed.

(** The console's list on an [escalation] message. *)
Lemma onmessage_escalation (new : AgentConsole.escalation) (st : AgentConsole.console) :
  AgentConsole.escalations
    (AgentConsole.onmessage
       (AgentConsole.mk_message "escalation" (Some (AgentConsole.Escalation new))) st) =
  if AgentConsole.listed (AgentConsole.session_id new) (AgentConsole.escalations st)
  then AgentConsole.escalations st
  else AgentConsole.escalations st ++ [new].
Proof. reflexivity. Qed.

Lemma listed_In (id : uuid) (prev : list AgentConsole.escalation) :
  AgentConsole.listed id prev = true <-> In id (map AgentConsole.session_id prev).
Proof.
  unfold AgentConsole.listed. rewrite existsb_exists, in_map_iff.
  split; intros [e [H1 H2]]; exists e.
  - apply N.eqb_eq in H2. tauto.
  - split; [assumption | now apply N.eqb_eq].
Qed.

Lemma escalation_keeps_list_duplicate_free (new : AgentConsole.escalation)
    (st : AgentConsole.console) :
  NoDup (map AgentConsole.session_id (AgentConsole.escalations st)) ->
  let st' := AgentConsole.onmessage
               (AgentConsole.mk_message "escalation" (Some (AgentConsole.Escalation new)))
               st in
  NoDup (map AgentConsole.session_id (AgentConsole.escalations st')) /\
  In (AgentConsole.session_id new)
     (map AgentConsole.session_id (AgentConsole.escalations st')) /\
  (In (AgentConsole.session_id new)
      (map AgentConsole.session_id (AgentConsole.escalations st)) ->
   AgentConsole.escalations st' = AgentConsole.escalations st).
Proof.
  intros Hnodup st'. subst st'. rewrite onmessage_escalation.
  destruct (AgentConsole.listed (AgentConsole.session_id new)
              (AgentConsole.escalations st)) eqn:Hlisted.
  - apply listed_In in Hlisted. repeat split; auto.
  - assert (Hnew : ~ In (AgentConsole.session_id new)
                       (map AgentConsole.session_id (AgentConsole.escalations st))).
    { intros Hin. apply listed_In in Hin. rewrite Hin in Hlisted. discriminate. }
    rewrite map_app. simpl. repeat split.
    + apply NoDup_app_remove_l with (l := []). simpl.
      apply Permutation_NoDup
        with (l := AgentConsole.session_id new
                   :: map AgentConsole.session_id (AgentConsole.escalations st)).
      * apply Permutation_cons_append.
      * now constructor.
    + apply in_or_app. right. now left.
    + intros Hin. contradiction.
Qed.

(** C6, as the code has it.  [escalate_session] on a session that is
    already escalated returns true and keeps its status, category and
    assignment, but it is not a no-op: [escalated_at] and [updated_at] of
    the session are set to the time of the call and one more escalation
    event is appended.  The pending escalations (the sessions that are
    escalated and unassigned) are the same sessions as before, each listed
    once when ids are keys; and the agent console adds the session of an
    [escalation] message only if it is not yet in its list, so that a
    duplicate-free list stays duplicate-free and lists that session. *)
Theorem escalate_session_again_restamps :
  forall now gen db sid reason,
    In sid (map s_id (sessions db)) ->
    (forall s, In s (sessions db) -> s_id s = sid -> s_status s = Some "escalated") ->
    ~ In gen (map e_id (events db)) ->
    (exists db',
       escalate_session now gen db (Some sid) reason = Ok (true, db') /\
       sessions db' =
         update_where (fun s => N.eqb (s_id s) sid) (restamped now) (sessions db) /\
       events db' =
         events db ++
         [mk_event gen (Some sid) "escalation" "system" reason (Some empty_object)
            (Some now)] /\
       map s_id (pending_escalations db') = map s_id (pending_escalations db) /\
       (NoDup (map s_id (sessions db)) -> NoDup (map s_id (pending_escalations db'))) /\
       users db' = users db /\
       conversation_costs db' = conversation_costs db /\
       agents db' = agents db) /\
    (forall new st,
       NoDup (map AgentConsole.session_id (AgentConsole.escalations st)) ->
       let st' := AgentConsole.onmessage
                    (AgentConsole.mk_message "escalation"
                       (Some (AgentConsole.Escalation new))) st in
       NoDup (map AgentConsole.session_id (AgentConsole.escalations st')) /\
       In (AgentConsole.session_id new)
          (map AgentConsole.session_id (AgentConsole.escalations st')) /\
       (In (AgentConsole.session_id new)
           (map AgentConsole.session_id (AgentConsole.escalations st)) ->
        AgentConsole.escalations st' = AgentConsole.escalations st)).
Proof.
  intros now gen db sid reason Hsession Hescalated Hfresh. split.
  - eexists. rewrite (escalate_session_ok now gen db sid reason Hsession Hfresh).
    assert (Hrows :
      update_where (fun s => uuid_is (s_id s) (Some sid)) (escalated now) (sessions db) =
      update_where (fun s => N.eqb (s_id s) sid) (restamped now) (sessions db)).
    { unfold update_where. apply map_ext_in. intros s Hs. cbn [uuid_is].
      destruct (N.eqb (s_id s) sid) eqn:E; [| reflexivity].
      apply N.eqb_eq in E. apply escalated_of_escalated. now apply Hescalated. }
    assert (Hpending :
      map s_id (filter is_pending
                  (update_where (fun s => N.eqb (s_id s) sid) (restamped now)
                     (sessions db))) =
      map s_id (filter is_pending (sessions db))).
    { apply filter_update_where_keys. intros r _ _. split; reflexivity. }
    split; [reflexivity |]. cbn [sessions events users conversation_costs agents].
    unfold pending_escalations. cbn [sessions]. rewrite Hrows.
    repeat split.
    + exact Hpending.
    + intros Hnodup. rewrite Hpending. now apply NoDup_map_filter.
  - intros new st Hnodup. now apply escalation_keeps_list_duplicate_free.
Qed.

Lemma escalate_session_again_restamps_witness :
  (exists db',
     escalate_session 40 24 sample_db (Some 12%N) (Some "still waiting") = Ok (true, db') /\
     map s_id (pending_escalations db') = [12%N]) /\
  AgentConsole.escalations
    (AgentConsole.onmessage
       (AgentConsole.mk_message "escalation"
          (Some (AgentConsole.Escalation
                   (AgentConsole.mk_escalation 12 "web" (Some "billing")
                      (Some "still waiting") (Some 40)))))
       (AgentConsole.mk_console (Some ("A1", "Ann")) (Some "token")
          [AgentConsole.mk_escalation 12 "web" (Some "billing") (Some "unable to resolve")
             (Some 18)]
          None [] None)) =
  [AgentConsole.mk_escalation 12 "web" (Some "billing") (Some "unable to resolve")
     (Some 18)].
Proof.
  assert (Hsession : In 12%N (map s_id (sessions sample_db))) by (simpl; auto).
  assert (Hescalated : forall s, In s (sessions sample_db) -> s_id s = 12%N ->
                         s_status s = Some "escalated").
  { intros s [<- | [<- | [<- | []]]] Hid; try discriminate Hid. reflexivity. }
  assert (Hfresh : ~ In 24%N (map e_id (events sample_db)))
    by (simpl; intuition discriminate).
  destruct (escalate_session_again_restamps 40 24%N sample_db 12%N (Some "still waiting")
              Hsession Hescalated Hfresh) as [[db' [Hcall [_ [_ [Hpending _]]]]] Hconsole].
  split.
  - exists db'. split; [exact Hcall |]. rewrite Hpending. reflexivity.
  - apply Hconsole.
    + simpl. repeat constructor. simpl. intuition.
    + simpl. auto.
Defined.

(** C6 fails as stated: escalating the escalated session of the sample
    database again changes its row (the escalation time 18 becomes 40) and
    adds an event. *)
Lemma escalate_session_again_is_not_a_noop :
  s_status escalated_session = Some "escalated" /\
  exists db',
    escalate_session 40 24 sample_db (Some 12%N) (Some "still waiting") = Ok (true, db') /\
    map s_escalated_at (sessions sample_db) = [None; Some 18; None] /\
    map s_escalated_at (sessions db') = [None; Some 40; None] /\
    sessions db' <> sessions sample_db /\
    List.length (events sample_db) = 3%nat /\
    List.length (events db') = 4%nat.
Proof.
  split; [reflexivity |]. eexists.
  split; [reflexivity |]. split; [reflexivity |]. split; [reflexivity |].
  split; [| split; reflexivity].
  intros Heq. apply (f_equal (map s_escalated_at)) in Heq. discriminate Heq.
Qed.

(** ** Session store: the body of [create_or_get_session] with the names read as columns *)

Lemma ts_leb_refl (a : option timestamp) : ts_leb a a = true.
Proof. destruct a as [x |]; simpl; [apply Z.leb_refl | reflexivity]. Qed.

Lemma ts_leb_total (a b : option timestamp) : ts_leb a b = true \/ ts_leb b a = true.
Proof.
  destruct a as [x |], b as [y |]; simpl; auto.
  destruct (Z.leb_spec x y); [now left |].
  right. apply Z.leb_le. lia.
Qed.

Lemma ts_leb_trans (a b c : option timestamp) :
  ts_leb a b = true -> ts_leb b c = true -> ts_leb a c = true.
Proof.
  destruct a as [x |], b as [y |], c as [z |]; simpl; try congruence.
  rewrite !Z.leb_le. lia.
Qed.

Lemma latest_none (l : list session) : latest l = None -> l = [].
Proof.
  destruct l as [| s rest]; simpl; [reflexivity |].
  destruct (latest rest) as [b |]; [| discriminate].
  destruct (ts_leb (s_created_at b) (s_created_at s)); discriminate.
Qed.

Lemma latest_greatest (l : list session) (x : session) :
  latest l = Some x ->
  In x l /\ forall y, In y l -> ts_leb (s_created_at y) (s_created_at x) = true.
Proof.
  revert x. induction l as [| s rest IH]; simpl; intros x Hlatest.
  - discriminate.
  - destruct (latest rest) as [b |] eqn:Hrest.
    + destruct (IH b eq_refl) as [Hin Hmax].
      destruct (ts_leb (s_created_at b) (s_created_at s)) eqn:Hle;
        injection Hlatest as <-.
      * split; [now left |].
        intros y [<- | Hy]; [apply ts_leb_refl |].
        eapply ts_leb_trans; [apply (Hmax y Hy) | exact Hle].
      * split; [now right |].
        intros y [<- | Hy]; [| now apply Hmax].
        destruct (ts_leb_total (s_created_at s) (s_created_at b)) as [H | H];
          [exact H | congruence].
    + injection Hlatest as <-. apply latest_none in Hrest. subst rest.
      split; [now left |].
      intros y [<- | []]. apply ts_leb_refl.
Qed.

(** A rewrite of session rows that keeps the columns the lookup reads
    gives the same lookup. *)
Lemma latest_map (g : session -> session) (l : list session) :
  (forall r, s_created_at (g r) = s_created_at r) ->
  latest (map g l) = option_map g (latest l).
Proof.
  intros Hcreated. induction l as [| s rest IH]; simpl; [reflexivity |].
  rewrite IH. destruct (latest rest) as [b |]; simpl; [| reflexivity].
  rewrite !Hcreated. now destruct (ts_leb (s_created_at b) (s_created_at s)).
Qed.

Lemma filter_map_commute {A : Type} (q : A -> bool) (g : A -> A) (l : list A) :
  (forall r, q (g r) = q r) -> filter q (map g l) = map g (filter q l).
Proof.
  intros Hq. induction l as [| r rest IH]; simpl; [reflexivity |].
  rewrite Hq, IH. now destruct (q r).
Qed.

Lemma select_open_session_touched (db db' : database) (user_id : uuid)
    (p : session -> bool) (now : timestamp) :
  sessions db' = update_where p (touch now) (sessions db) ->
  select_open_session db' user_id = select_open_session db user_id.
Proof.
  intros Hsessions. unfold select_open_session. rewrite Hsessions.
  unfold update_where.
  rewrite filter_map_commute by (intros r; now destruct (p r)).
  rewrite latest_map by (intros r; now destruct (p r)).
  destruct (latest (filter (open_session_of user_id) (sessions db))) as [b |];
    simpl; [| reflexivity].
  now destruct (p b).
Qed.

Lemma find_same_user_key (db : database) (usr : user) :
  unique_user_key db ->
  In usr (users db) ->
  find (same_user_key (u_channel usr) (u_channel_user_id usr)) (users db) = Some usr.
Proof.
  intros Hunique Hin.
  destruct (find (same_user_key (u_channel usr) (u_channel_user_id usr)) (users db))
    as [x |] eqn:Hfind.
  - apply find_some in Hfind. destruct Hfind as [Hx Hkey].
    unfold same_user_key in Hkey. apply andb_true_iff in Hkey.
    destruct Hkey as [H1 H2]. apply String.eqb_eq in H1, H2.
    f_equal. now apply Hunique.
  - exfalso. apply (find_none _ _ Hfind) in Hin.
    unfold same_user_key in Hin. now rewrite !String.eqb_refl in Hin.
Qed.

Lemma find_update_where {A : Type} (p : A -> bool) (f : A -> A) (t : list A) (x : A) :
  (forall r, p (f r) = p r) ->
  find p t = Some x -> find p (update_where p f t) = Some (f x).
Proof.
  intros Hkeep. induction t as [| r rest IH]; simpl; [discriminate |].
  destruct (p r) eqn:Hp.
  - intros H. injection H as <-. now rewrite Hkeep, Hp.
  - rewrite Hp. exact IH.
Qed.

Lemma upsert_user_known now gen db c u name usr :
  fits 20 (Some c) = true -> fits 255 (Some u) = true -> fits 255 name = true ->
  find (same_user_key c u) (users db) = Some usr ->
  upsert_user now gen db (Some c) (Some u) name =
  Ok (u_id usr,
      set_users db (update_where (same_user_key c u) (seen_again name now) (users db))).
Proof.
  intros Hc Hu Hname Hfind. unfold upsert_user.
  rewrite (varchar_fits 20 (Some c) Hc), (varchar_fits 255 (Some u) Hu),
    (varchar_fits 255 name Hname).
  cbn [bind not_null]. now rewrite Hfind.
Qed.

(** The call for a known user that has an open session. *)
Lemma create_or_get_session_reuses now gen_user gen_session db c u name usr sid :
  fits 20 (Some c) = true -> fits 255 (Some u) = true -> fits 255 name = true ->
  find (same_user_key c u) (users db) = Some usr ->
  select_open_session db (u_id usr) = Some sid ->
  create_or_get_session_under conflict_use_column now gen_user gen_session db (Some c) (Some u) name =
  Ok (map details_of
        (filter (fun s => N.eqb (s_id s) sid)
           (update_where (fun s => N.eqb (s_id s) sid) (touch now) (sessions db))),
      mk_db (update_where (same_user_key c u) (seen_again name now) (users db))
        (update_where (fun s => N.eqb (s_id s) sid) (touch now) (sessions db))
        (events db) (conversation_costs db) (agents db)).
Proof.
  intros Hc Hu Hname Hfind Hselect. unfold create_or_get_session_under. cbn [lookup_open_session bind].
  rewrite (upsert_user_known now gen_user db c u name usr Hc Hu Hname Hfind).
  cbn [bind].
  replace (select_open_session
             (set_users db
                (update_where (same_user_key c u) (seen_again name now) (users db)))
             (u_id usr))
    with (select_open_session db (u_id usr)) by reflexivity.
  rewrite Hselect. reflexivity.
Qed.

Lemma update_where_app {A : Type} (p : A -> bool) (f : A -> A) (a b : list A) :
  update_where p f (a ++ b) = update_where p f a ++ update_where p f b.
Proof. apply map_app. Qed.

Lemma touch_only_new_row now (gen : uuid) (t : list session) (new : session) :
  ~ In gen (map s_id t) ->
  s_id new = gen ->
  touch now new = new ->
  update_where (fun s => N.eqb (s_id s) gen) (touch now) (t ++ [new]) = t ++ [new].
Proof.
  intros Hfresh Hid Htouch. rewrite update_where_app. f_equal.
  - apply update_where_none. intros r Hr.
    apply N.eqb_neq. intros E. apply Hfresh. rewrite <- E. now apply in_map.
  - simpl. now rewrite Hid, N.eqb_refl, Htouch.
Qed.

Lemma filter_only_new_row (gen : uuid) (t : list session) (new : session) :
  ~ In gen (map s_id t) ->
  s_id new = gen ->
  filter (fun s => N.eqb (s_id s) gen) (t ++ [new]) = [new].
Proof.
  intros Hfresh Hid. rewrite filter_app. simpl. rewrite Hid, N.eqb_refl.
  replace (filter (fun s => N.eqb (s_id s) gen) t) with (@nil session); [reflexivity |].
  symmetry. induction t as [| r rest IH]; simpl; [reflexivity |].
  destruct (N.eqb_spec (s_id r) gen) as [E | E].
  - exfalso. apply Hfresh. now left.
  - apply IH. intros Hin. apply Hfresh. now right.
Qed.

(** The call for a known user without an open session. *)
Lemma create_or_get_session_creates now gen_user gen_session db c u name usr :
  fits 20 (Some c) = true -> fits 255 (Some u) = true -> fits 255 name = true ->
  find (same_user_key c u) (users db) = Some usr ->
  select_open_session db (u_id usr) = None ->
  ~ In gen_session (map s_id (sessions db)) ->
  create_or_get_session_under conflict_use_column now gen_user gen_session db (Some c) (Some u) name =
  Ok ([mk_details gen_session (Some (u_id usr)) None (Some "active")],
      mk_db (update_where (same_user_key c u) (seen_again name now) (users db))
        (sessions db ++
         [mk_session gen_session (Some (u_id usr)) c None None (Some "active") None
            None None (Some now) (Some now)])
        (events db) (conversation_costs db) (agents db)).
Proof.
  intros Hc Hu Hname Hfind Hselect Hfresh. unfold create_or_get_session_under. cbn [lookup_open_session bind].
  rewrite (upsert_user_known now gen_user db c u name usr Hc Hu Hname Hfind).
  cbn [bind].
  replace (select_open_session
             (set_users db
                (update_where (same_user_key c u) (seen_again name now) (users db)))
             (u_id usr))
    with (select_open_session db (u_id usr)) by reflexivity.
  rewrite Hselect. unfold insert_session.
  rewrite (varchar_fits 20 (Some c) Hc). cbn [bind not_null sessions users set_users].
  rewrite (pkey_free_fresh _ _ Hfresh). cbn [bind].
  rewrite references_present.
  2:{ rewrite (update_where_keys u_id) by reflexivity.
      apply find_some in Hfind. apply in_map. tauto. }
  cbn [bind sessions set_sessions users events conversation_costs agents].
  rewrite touch_only_new_row by (try assumption; reflexivity).
  rewrite filter_only_new_row by (try assumption; reflexivity).
  reflexivity.
Qed.

Lemma run_requests_cons db c u q rest :
  run_requests conflict_use_column db c u (q :: rest) =
  (match create_or_get_session_under conflict_use_column (req_now q) (req_gen_user q) (req_gen_session q) db
           (Some c) (Some u) (req_name q) with
   | Ok (rows, _) => Ok rows
   | Err e => Err e
   end
   :: fst (run_requests conflict_use_column
             (db_after db
                (create_or_get_session_under conflict_use_column (req_now q) (req_gen_user q) (req_gen_session q) db
                   (Some c) (Some u) (req_name q)))
             c u rest),
   snd (run_requests conflict_use_column
          (db_after db
             (create_or_get_session_under conflict_use_column (req_now q) (req_gen_user q) (req_gen_session q) db
                (Some c) (Some u) (req_name q)))
          c u rest)).
Proof.
  simpl.
  destruct (run_requests conflict_use_column
              (db_after db
                 (create_or_get_session_under conflict_use_column (req_now q) (req_gen_user q) (req_gen_session q)
                    db (Some c) (Some u) (req_name q))) c u rest) as [answers final].
  reflexivity.
Qed.

Lemma rows_of_session (sid : uuid) (t : list session) :
  In sid (map s_id t) ->
  map details_of (filter (fun s => N.eqb (s_id s) sid) t) <> [] /\
  Forall (fun r => r_session_id r = sid)
    (map details_of (filter (fun s => N.eqb (s_id s) sid) t)).
Proof.
  intros Hin. split.
  - apply in_map_iff in Hin. destruct Hin as [s [Hid Hs]].
    assert (Hrow : In (details_of s)
                     (map details_of (filter (fun s => N.eqb (s_id s) sid) t))).
    { apply in_map. apply filter_In. split; [assumption |]. now apply N.eqb_eq. }
    intros Hnil. rewrite Hnil in Hrow. contradiction.
  - apply Forall_forall. intros r Hr. apply in_map_iff in Hr.
    destruct Hr as [s [<- Hs]]. apply filter_In in Hs.
    destruct Hs as [_ Hid]. now apply N.eqb_eq in Hid.
Qed.

Lemma select_open_session_some (db : database) (user_id sid : uuid) :
  select_open_session db user_id = Some sid ->
  exists cur,
    s_id cur = sid /\ In cur (open_sessions db user_id) /\
    forall o, In o (open_sessions db user_id) ->
              ts_leb (s_created_at o) (s_created_at cur) = true.
Proof.
  unfold select_open_session, open_sessions.
  destruct (latest (filter (open_session_of user_id) (sessions db))) as [cur |] eqn:Hlatest;
    simpl; [| discriminate].
  intros H. injection H as <-. exists cur.
  destruct (latest_greatest _ _ Hlatest) as [Hin Hmax]. auto.
Qed.

Lemma same_user_key_seen_again c u name now r :
  same_user_key c u (seen_again name now r) = same_user_key c u r.
Proof. reflexivity. Qed.

(** While the user has an open session, every request is answered with
    the session the lookup selects, and the set of sessions stays. *)
Lemma run_requests_reuse c u user_id sid :
  fits 20 (Some c) = true -> fits 255 (Some u) = true ->
  forall requests db,
    Forall (fun q => fits 255 (req_name q) = true) requests ->
    (exists usr, find (same_user_key c u) (users db) = Some usr /\ u_id usr = user_id) ->
    select_open_session db user_id = Some sid ->
    Forall (fun a => exists rows,
                a = Ok rows /\ rows <> [] /\ Forall (fun r => r_session_id r = sid) rows)
      (fst (run_requests conflict_use_column db c u requests)) /\
    map s_id (sessions (snd (run_requests conflict_use_column db c u requests))) = map s_id (sessions db).
Proof.
  intros Hc Hu. induction requests as [| q rest IH]; intros db Hnames Huser Hselect.
  - split; [constructor | reflexivity].
  - inversion Hnames as [| q' rest' Hname Hnames_rest]; subst.
    destruct Huser as [usr [Hfind Hid]]. subst user_id.
    rewrite run_requests_cons.
    rewrite (create_or_get_session_reuses (req_now q) (req_gen_user q) (req_gen_session q)
               db c u (req_name q) usr sid Hc Hu Hname Hfind Hselect).
    cbn [db_after fst snd].
    match goal with
    | |- context [run_requests conflict_use_column ?d c u rest] => set (db1 := d)
    end.
    assert (Hsid : In sid (map s_id (sessions db))).
    { destruct (select_open_session_some db (u_id usr) sid Hselect) as [cur [<- [Hin _]]].
      apply in_map. unfold open_sessions in Hin. apply filter_In in Hin. tauto. }
    assert (Hkeys : map s_id (sessions db1) = map s_id (sessions db)).
    { subst db1. cbn [sessions]. now apply update_where_keys. }
    destruct (IH db1 Hnames_rest) as [IHanswers IHkeys].
    + exists (seen_again (req_name q) (req_now q) usr). split; [| reflexivity].
      subst db1. cbn [users].
      apply find_update_where; [| assumption].
      intros r. apply same_user_key_seen_again.
    + rewrite <- Hselect.
      apply (select_open_session_touched db db1 (u_id usr)
               (fun s => N.eqb (s_id s) sid) (req_now q)).
      reflexivity.
    + split.
      * constructor; [| exact IHanswers].
        eexists. split; [reflexivity |].
        apply rows_of_session. rewrite (update_where_keys s_id) by reflexivity.
        exact Hsid.
      * now rewrite IHkeys.
Qed.

(** What the lookup is written for.  Were the clash of names settled for
    the columns, a series of requests for a user with an active or
    escalated session would be answered with the id of one and the same
    session, an open session of that user with the latest creation time,
    and no session would be added; for a user without one, a request with
    a fresh id would add one session, of status [active], and answer with
    it. *)
Lemma idempotent_under_use_column :
  forall db usr requests,
    unique_user_key db ->
    In usr (users db) ->
    fits 20 (Some (u_channel usr)) = true ->
    fits 255 (Some (u_channel_user_id usr)) = true ->
    Forall (fun q => fits 255 (req_name q) = true) requests ->
    (forall s,
       In s (open_sessions db (u_id usr)) ->
       exists cur,
         In cur (open_sessions db (u_id usr)) /\
         (forall o, In o (open_sessions db (u_id usr)) ->
                    ts_leb (s_created_at o) (s_created_at cur) = true) /\
         ((forall o, In o (open_sessions db (u_id usr)) -> s_id o = s_id s) ->
          s_id cur = s_id s) /\
         Forall (fun a => exists rows,
                     a = Ok rows /\ rows <> [] /\
                     Forall (fun r => r_session_id r = s_id cur) rows)
           (fst (run_requests conflict_use_column db (u_channel usr) (u_channel_user_id usr) requests)) /\
         map s_id
           (sessions (snd (run_requests conflict_use_column db (u_channel usr) (u_channel_user_id usr)
                             requests))) =
         map s_id (sessions db)) /\
    (open_sessions db (u_id usr) = [] ->
     forall q,
       fits 255 (req_name q) = true ->
       ~ In (req_gen_session q) (map s_id (sessions db)) ->
       exists db',
         create_or_get_session_under conflict_use_column (req_now q) (req_gen_user q) (req_gen_session q) db
           (Some (u_channel usr)) (Some (u_channel_user_id usr)) (req_name q) =
         Ok ([mk_details (req_gen_session q) (Some (u_id usr)) None (Some "active")],
             db') /\
         sessions db' =
           sessions db ++
           [mk_session (req_gen_session q) (Some (u_id usr)) (u_channel usr) None None
              (Some "active") None None None (Some (req_now q)) (Some (req_now q))]).
Proof.
  intros db usr requests Hunique Husr Hc Hu Hnames.
  pose proof (find_same_user_key db usr Hunique Husr) as Hfind.
  split.
  - intros s Hs.
    destruct (select_open_session db (u_id usr)) as [sid |] eqn:Hselect.
    + destruct (select_open_session_some db (u_id usr) sid Hselect)
        as [cur [Hid [Hcur Hmax]]].
      exists cur. split; [exact Hcur |]. split; [exact Hmax |].
      split; [intros Honly; now apply Honly |].
      rewrite Hid.
      apply (run_requests_reuse (u_channel usr) (u_channel_user_id usr) (u_id usr) sid
               Hc Hu requests db Hnames); [| exact Hselect].
      exists usr. split; [exact Hfind | reflexivity].
    + exfalso. unfold select_open_session in Hselect. unfold open_sessions in Hs.
      destruct (latest (filter (open_session_of (u_id usr)) (sessions db))) as [b |] eqn:Hl;
        [discriminate |].
      apply latest_none in Hl. rewrite Hl in Hs. contradiction.
  - intros Hnone q Hname Hfresh. eexists.
    rewrite (create_or_get_session_creates (req_now q) (req_gen_user q) (req_gen_session q)
               db (u_channel usr) (u_channel_user_id usr) (req_name q) usr
               Hc Hu Hname Hfind).
    + split; reflexivity.
    + unfold select_open_session. unfold open_sessions in Hnone. now rewrite Hnone.
    + exact Hfresh.
Qed.

Lemma sample_db_unique_user_key : unique_user_key sample_db.
Proof.
  intros a b Ha Hb. simpl in Ha, Hb.
  destruct Ha as [<- | [<- | [<- | []]]]; destruct Hb as [<- | [<- | [<- | []]]];
    simpl; intros H1 H2; try reflexivity; discriminate.
Qed.

(** ** Session store: [create_or_get_session] as it runs *)

(** C3, on the procedure as it runs.  For a user who has a row, with
    values that fit their columns, the user statement goes through and the
    session lookup raises the ambiguity of [user_id] and [status]: the
    call returns no session id, whether the user has an active or
    escalated session or none, and the database is as before.  Read with
    the names as columns, the same body returns the user's open session
    with the latest creation time and adds none, which is what the lookup
    is written for.  As it runs, no call whatever returns an answer, and
    none adds a session. *)
Theorem create_or_get_session_raises_at_the_lookup :
  forall now gen_user gen_session db usr name,
    In usr (users db) ->
    fits 20 (Some (u_channel usr)) = true ->
    fits 255 (Some (u_channel_user_id usr)) = true ->
    fits 255 name = true ->
    let call :=
      create_or_get_session now gen_user gen_session db
        (Some (u_channel usr)) (Some (u_channel_user_id usr)) name in
    call = Err ambiguous_column /\
    db_after db call = db /\
    (unique_user_key db ->
     forall sid,
       select_open_session db (u_id usr) = Some sid ->
       exists rows db',
         create_or_get_session_under conflict_use_column now gen_user gen_session db
           (Some (u_channel usr)) (Some (u_channel_user_id usr)) name = Ok (rows, db') /\
         rows <> [] /\
         Forall (fun r => r_session_id r = sid) rows /\
         map s_id (sessions db') = map s_id (sessions db)) /\
    (forall now' gen_user' gen_session' c u n,
       (forall answer,
          create_or_get_session now' gen_user' gen_session' db c u n <> Ok answer) /\
       sessions (db_after db (create_or_get_session now' gen_user' gen_session' db c u n)) =
       sessions db).
Proof.
  intros now gen_user gen_session db usr name Husr Hc Hu Hname call.
  assert (Hcall : call = Err ambiguous_column).
  { unfold call, create_or_get_session, create_or_get_session_under, upsert_user.
    rewrite (varchar_fits 20 _ Hc), (varchar_fits 255 _ Hu), (varchar_fits 255 name Hname).
    cbn [bind not_null].
    destruct (find (same_user_key (u_channel usr) (u_channel_user_id usr)) (users db))
      as [found_row |] eqn:Hfind; [reflexivity |].
    exfalso. apply (find_none _ _ Hfind) in Husr.
    unfold same_user_key in Husr. now rewrite !String.eqb_refl in Husr. }
  split; [exact Hcall |]. split; [now rewrite Hcall |]. split.
  - intros Hunique sid Hselect.
    pose proof (find_same_user_key db usr Hunique Husr) as Hfind.
    do 2 eexists.
    rewrite (create_or_get_session_reuses now gen_user gen_session db _ _ name usr sid
               Hc Hu Hname Hfind Hselect).
    split; [reflexivity |].
    destruct (select_open_session_some db (u_id usr) sid Hselect) as [cur [Hid [Hcur _]]].
    assert (Hsid : In sid (map s_id (sessions db))).
    { rewrite <- Hid. apply in_map. unfold open_sessions in Hcur.
      apply filter_In in Hcur. tauto. }
    cbn [sessions].
    split; [| split].
    + apply rows_of_session. now rewrite (update_where_keys s_id) by reflexivity.
    + apply rows_of_session. now rewrite (update_where_keys s_id) by reflexivity.
    + now apply update_where_keys.
  - intros now' gen_user' gen_session' c u n. split.
    + intros answer Hanswer.
      exact (create_or_get_session_fails _ _ _ _ _ _ _ _ Hanswer).
    + destruct (create_or_get_session now' gen_user' gen_session' db c u n)
        as [answer | e] eqn:Hanswer; [| reflexivity].
      exfalso. exact (create_or_get_session_fails _ _ _ _ _ _ _ _ Hanswer).
Qed.

Lemma create_or_get_session_raises_at_the_lookup_witness :
  select_open_session sample_db (u_id alice) = Some 11%N /\
  create_or_get_session 40 91 92 sample_db (Some "whatsapp") (Some "u1") (Some "Alice") =
    Err ambiguous_column /\
  db_after sample_db
    (create_or_get_session 40 91 92 sample_db (Some "whatsapp") (Some "u1")
       (Some "Alice")) = sample_db.
Proof.
  split; [reflexivity |].
  destruct (create_or_get_session_raises_at_the_lookup 40 91%N 92%N sample_db alice
              (Some "Alice")) as (Hcall & Hsame & _); try reflexivity.
  - simpl. now left.
  - split; [exact Hcall | exact Hsame].
Defined.

(** C4, as the user statement has it.  For a user who has a row, with
    values that fit their columns, the upsert with which
    [create_or_get_session] starts returns the user's id and rewrites the
    user's row, and no other: [last_seen_at] becomes the time of the call,
    and the name becomes the display name whenever one is given, whether
    or not a name was stored; the stored name is kept only when the
    display name is NULL. *)
Theorem upsert_user_name_and_last_seen :
  forall now gen_user db usr name,
    unique_user_key db ->
    In usr (users db) ->
    fits 20 (Some (u_channel usr)) = true ->
    fits 255 (Some (u_channel_user_id usr)) = true ->
    fits 255 name = true ->
    exists db',
      upsert_user now gen_user db (Some (u_channel usr)) (Some (u_channel_user_id usr))
        name = Ok (u_id usr, db') /\
      In (seen_again name now usr) (users db') /\
      (forall r,
         In r (users db') ->
         u_channel r = u_channel usr -> u_channel_user_id r = u_channel_user_id usr ->
         u_id r = u_id usr /\
         u_last_seen_at r = Some now /\
         u_name r = match name with
                    | Some display_name => Some display_name
                    | None => u_name usr
                    end) /\
      (forall r,
         In r (users db') ->
         u_channel r <> u_channel usr \/ u_channel_user_id r <> u_channel_user_id usr ->
         In r (users db)) /\
      sessions db' = sessions db /\
      events db' = events db /\
      conversation_costs db' = conversation_costs db /\
      agents db' = agents db.
Proof.
  intros now gen_user db usr name Hunique Husr Hc Hu Hname.
  pose proof (find_same_user_key db usr Hunique Husr) as Hfind.
  eexists.
  rewrite (upsert_user_known now gen_user db _ _ name usr Hc Hu Hname Hfind).
  split; [reflexivity |]. cbn [users set_users sessions events conversation_costs agents].
  assert (Hkey : forall r, In r (users db) ->
             same_user_key (u_channel usr) (u_channel_user_id usr) r = true -> r = usr).
  { intros r Hr Hk. unfold same_user_key in Hk. apply andb_true_iff in Hk.
    destruct Hk as [H1 H2]. apply String.eqb_eq in H1, H2. now apply Hunique. }
  split; [| split; [| split; [| repeat split]]].
  - apply update_where_In. exists usr. split; [assumption |].
    unfold same_user_key. now rewrite !String.eqb_refl.
  - intros r Hr H1 H2. apply update_where_In in Hr. destruct Hr as [r0 [Hr0 ->]].
    destruct (same_user_key (u_channel usr) (u_channel_user_id usr) r0) eqn:Hk.
    + rewrite (Hkey r0 Hr0 Hk). simpl. repeat split. now destruct name.
    + unfold same_user_key in Hk. rewrite H1, H2, !String.eqb_refl in Hk. discriminate.
  - intros r Hr Hother. apply update_where_In in Hr. destruct Hr as [r0 [Hr0 ->]].
    destruct (same_user_key (u_channel usr) (u_channel_user_id usr) r0) eqn:Hk.
    + rewrite (Hkey r0 Hr0 Hk) in Hother. simpl in Hother. tauto.
    + assumption.
Qed.

Lemma upsert_user_name_and_last_seen_witness :
  exists db',
    upsert_user 40 91 sample_db (Some "whatsapp") (Some "u1") (Some "Al") =
      Ok (1%N, db') /\
    In (mk_user 1 "whatsapp" "u1" (Some "Al") (Some empty_object) (Some 10) (Some 40))
       (users db').
Proof.
  destruct (upsert_user_name_and_last_seen 40 91%N sample_db alice (Some "Al")
              sample_db_unique_user_key (or_introl eq_refl) eq_refl eq_refl eq_refl)
    as [db' (Hcall & Hrow & _)].
  exists db'. split; [exact Hcall | exact Hrow].
Defined.

(** C4 fails as stated.  The user statement of a call with the display
    name "Al" for the user stored as "Alice" writes "Al" over the stored
    name; and the call does not update [last_seen_at]: it raises at the
    session lookup, and after it the user's row is the one from before,
    last seen at 10, not at the call time 40. *)
Lemma stored_name_is_overwritten_and_last_seen_is_not_updated :
  u_name alice = Some "Alice" /\
  (exists db',
     upsert_user 40 91 sample_db (Some "whatsapp") (Some "u1") (Some "Al") =
       Ok (1%N, db') /\
     map u_name (users db') = [Some "Al"; None; Some "Carol"]) /\
  create_or_get_session 40 91 92 sample_db (Some "whatsapp") (Some "u1") (Some "Al") =
    Err ambiguous_column /\
  map u_last_seen_at
    (users (db_after sample_db
              (create_or_get_session 40 91 92 sample_db (Some "whatsapp") (Some "u1")
                 (Some "Al")))) = [Some 10; Some 15; Some 30].
Proof.
  split; [reflexivity |]. split; [eexists; split; reflexivity |].
  split; reflexivity.
Qed.

(** ** Event ledger: [get_session_history] *)

Lemma created_leb_total (a b : event) : created_leb a b = true \/ created_leb b a = true.
Proof. apply ts_leb_total. Qed.

Lemma created_leb_trans (a b c : event) :
  created_leb a b = true -> created_leb b c = true -> created_leb a c = true.
Proof. apply ts_leb_trans. Qed.

Lemma insert_by_created_at_perm (e : event) (l : list event) :
  Permutation (insert_by_created_at e l) (e :: l).
Proof.
  induction l as [| x rest IH]; simpl.
  - apply Permutation_refl.
  - destruct (created_leb e x).
    + apply Permutation_refl.
    + apply perm_trans with (x :: e :: rest).
      * now apply perm_skip.
      * apply perm_swap.
Qed.

Lemma insert_by_created_at_sorted (e : event) (l : list event) :
  StronglySorted (fun a b => created_leb a b = true) l ->
  StronglySorted (fun a b => created_leb a b = true) (insert_by_created_at e l).
Proof.
  induction l as [| x rest IH]; simpl; intros Hsorted.
  - repeat constructor.
  - inversion Hsorted as [| x' rest' Hrest Hx]; subst.
    destruct (created_leb e x) eqn:Hle.
    + constructor; [assumption |].
      constructor; [assumption |].
      eapply Forall_impl; [| exact Hx].
      intros y Hy. eapply created_leb_trans; eassumption.
    + constructor; [now apply IH |].
      assert (Hxe : created_leb x e = true)
        by (destruct (created_leb_total x e); [assumption | congruence]).
      eapply Permutation_Forall.
      * apply Permutation_sym. apply insert_by_created_at_perm.
      * now constructor.
Qed.

Lemma order_by_created_at_ordered (l : list event) :
  ordered_by_created_at l (order_by_created_at l).
Proof.
  unfold ordered_by_created_at, order_by_created_at.
  induction l as [| e rest [IHperm IHsorted]]; simpl.
  - split; [apply Permutation_refl | constructor].
  - split.
    + eapply perm_trans; [apply insert_by_created_at_perm |]. now apply perm_skip.
    + now apply insert_by_created_at_sorted.
Qed.

Lemma firstn_incl {A : Type} (n : nat) (l : list A) (x : A) :
  In x (firstn n l) -> In x l.
Proof.
  revert n. induction l as [| y rest IH]; intros n Hin.
  - rewrite firstn_nil in Hin. contradiction.
  - destruct n as [| n]; simpl in Hin; [contradiction |].
    destruct Hin as [<- | Hin]; [now left | right; now apply (IH n)].
Qed.

Lemma firstn_sorted {A : Type} (R : A -> A -> Prop) (n : nat) (l : list A) :
  StronglySorted R l -> StronglySorted R (firstn n l).
Proof.
  revert n. induction l as [| x rest IH]; intros n Hsorted.
  - rewrite firstn_nil. constructor.
  - destruct n as [| n]; simpl; [constructor |].
    inversion Hsorted as [| x' rest' Hrest Hx]; subst.
    constructor; [now apply IH |].
    apply Forall_forall. intros y Hy.
    rewrite Forall_forall in Hx. apply Hx. now apply (firstn_incl n).
Qed.

Lemma map_sorted {A B : Type} (R : A -> A -> Prop) (S : B -> B -> Prop) (f : A -> B)
    (l : list A) :
  (forall a b, R a b -> S (f a) (f b)) ->
  StronglySorted R l -> StronglySorted S (map f l).
Proof.
  intros Hmono. induction 1 as [| x rest Hrest IH Hx]; simpl.
  - constructor.
  - constructor; [assumption |].
    apply Forall_forall. intros y Hy. apply in_map_iff in Hy.
    destruct Hy as [a [<- Ha]]. apply Hmono.
    rewrite Forall_forall in Hx. now apply Hx.
Qed.

Lemma ts_leb_antisym (a b : option timestamp) :
  ts_leb a b = true -> ts_leb b a = true -> a = b.
Proof.
  destruct a as [x |], b as [y |]; simpl; try congruence.
  rewrite !Z.leb_le. intros. f_equal. lia.
Qed.

Lemma NoDup_map_injective {A B : Type} (f : A -> B) (l : list A) (a b : A) :
  NoDup (map f l) -> In a l -> In b l -> f a = f b -> a = b.
Proof.
  induction l as [| x rest IH]; simpl; intros Hnodup Ha Hb Heq; [contradiction |].
  inversion Hnodup as [| y ys Hnotin Hrest]; subst.
  destruct Ha as [<- | Ha], Hb as [<- | Hb].
  - reflexivity.
  - exfalso. apply Hnotin. rewrite Heq. now apply in_map.
  - exfalso. apply Hnotin. rewrite <- Heq. now apply in_map.
  - now apply IH.
Qed.

(** Two orderings of the same rows agree when no two rows tie. *)
Lemma sorted_permutation_unique {A : Type} (R : A -> A -> Prop) (l l' : list A) :
  (forall a b, In a l -> In b l -> R a b -> R b a -> a = b) ->
  StronglySorted R l -> StronglySorted R l' -> Permutation l l' -> l = l'.
Proof.
  revert l'. induction l as [| x xs IH]; intros l' Hanti Hsorted Hsorted' Hperm.
  - apply Permutation_nil in Hperm. now subst.
  - destruct l' as [| y ys].
    + apply Permutation_sym, Permutation_nil in Hperm. discriminate Hperm.
    + inversion Hsorted as [| x0 xs0 Hxs Hx]; subst.
      inversion Hsorted' as [| y0 ys0 Hys Hy]; subst.
      rewrite Forall_forall in Hx, Hy.
      assert (Hxy : x = y).
      { assert (Hx_in : In x (y :: ys))
          by (apply (Permutation_in _ Hperm); now left).
        assert (Hy_in : In y (x :: xs))
          by (apply (Permutation_in _ (Permutation_sym Hperm)); now left).
        destruct Hx_in as [-> | Hx_in]; [reflexivity |].
        destruct Hy_in as [-> | Hy_in]; [reflexivity |].
        apply Hanti; [now left | now right | now apply Hx | now apply Hy]. }
      subst y. f_equal. apply IH; try assumption.
      * intros a b Ha Hb. apply Hanti; now right.
      * now apply Permutation_cons_inv with (a := x).
Qed.

(** C5, as the procedure has it.  [get_session_history(session, limit)]
    takes no cursor, and the events carry no sequence number.  The query
    admits every answer that lists the events of the session by
    non-decreasing creation time (events of equal time in any order) and
    stops after [limit] rows; the stable sort of the table is one of them.
    Every answer to a limit [n >= 0] has min(n, number of events of the
    session) rows, all events of that session, oldest first, and is the
    beginning of an answer to the request without limit: each call starts
    again at the oldest event.  A negative limit is an error.  When no two
    events of the session have the same creation time, there is only one
    answer. *)
Theorem get_session_history_oldest_first :
  forall db p_session_id p_limit,
    history_answer db p_session_id p_limit
      (get_session_history db p_session_id p_limit) /\
    (forall n answer,
       p_limit = Some n -> n < 0 ->
       history_answer db p_session_id p_limit answer ->
       answer = Err invalid_row_count_in_limit_clause) /\
    (forall n answer,
       p_limit = Some n -> 0 <= n ->
       history_answer db p_session_id p_limit answer ->
       exists page,
         answer = Ok page /\
         List.length page =
           Nat.min (Z.to_nat n)
             (List.length (filter (in_session p_session_id) (events db))) /\
         (forall row, In row page ->
            exists e, In e (events db) /\ in_session p_session_id e = true /\
                      row = history_of e) /\
         StronglySorted
           (fun a b => ts_leb (h_created_at a) (h_created_at b) = true) page /\
         exists whole,
           history_answer db p_session_id None (Ok whole) /\
           page = firstn (Z.to_nat n) whole) /\
    (NoDup (map e_created_at (filter (in_session p_session_id) (events db))) ->
     forall answer,
       history_answer db p_session_id p_limit answer ->
       answer = get_session_history db p_session_id p_limit).
Proof.
  intros db p_session_id p_limit. split; [| split; [| split]].
  - exists (order_by_created_at (filter (in_session p_session_id) (events db))).
    split; [apply order_by_created_at_ordered | reflexivity].
  - intros n answer -> Hneg [rows [_ ->]]. simpl.
    destruct (Z.ltb_spec n 0); [reflexivity | lia].
  - intros n answer -> Hpos [rows [[Hperm Hsorted] ->]]. simpl.
    destruct (Z.ltb_spec n 0); [lia |]. simpl.
    exists (map history_of (firstn (Z.to_nat n) rows)).
    split; [reflexivity |]. split; [| split; [| split]].
    + rewrite length_map, length_firstn. now rewrite (Permutation_length Hperm).
    + intros row Hrow. apply in_map_iff in Hrow. destruct Hrow as [e [<- He]].
      exists e. apply firstn_incl in He.
      apply (Permutation_in _ Hperm) in He. apply filter_In in He.
      destruct He as [He Hs]. auto.
    + apply (map_sorted (fun a b => created_leb a b = true)).
      * intros a b Hab. exact Hab.
      * now apply firstn_sorted.
    + exists (map history_of rows). split.
      * exists rows. split; [now split | reflexivity].
      * now rewrite firstn_map.
  - intros Hdistinct answer [rows [[Hperm Hsorted] ->]].
    unfold get_session_history.
    destruct (order_by_created_at_ordered
                (filter (in_session p_session_id) (events db))) as [Hperm' Hsorted'].
    rewrite (sorted_permutation_unique (fun a b => created_leb a b = true) rows
               (order_by_created_at (filter (in_session p_session_id) (events db))));
      try assumption; try reflexivity.
    + intros a b Ha Hb Hab Hba.
      apply (NoDup_map_injective e_created_at
               (filter (in_session p_session_id) (events db))); try assumption.
      * now apply (Permutation_in _ Hperm).
      * now apply (Permutation_in _ Hperm).
      * now apply ts_leb_antisym.
    + eapply perm_trans; [exact Hperm | now apply Permutation_sym].
Qed.

(** C5 fails as stated.  In the sample database the first and the second
    event of session 11 have the same creation time and the third is
    later.  The query admits the answer that lists the second event before
    the first, against the order of insertion; and no request, whatever
    its limit, is answered with the third event alone, so the events after
    a page cannot be fetched without the page. *)
Lemma history_has_no_sequence_and_no_cursor :
  events sample_db = [first_event; second_event; third_event] /\
  e_created_at first_event = e_created_at second_event /\
  history_answer sample_db (Some 11%N) (Some 2)
    (Ok [history_of second_event; history_of first_event]) /\
  get_session_history sample_db (Some 11%N) (Some 2) =
    Ok [history_of first_event; history_of second_event] /\
  forall p_limit,
    ~ history_answer sample_db (Some 11%N) p_limit (Ok [history_of third_event]).
Proof.
  split; [reflexivity |]. split; [reflexivity |]. split; [| split; [reflexivity |]].
  - exists [second_event; first_event; third_event]. split; [split |].
    + apply perm_swap.
    + repeat constructor.
    + reflexivity.
  - intros p_limit [rows [[Hperm Hsorted] Hanswer]].
    assert (Hfirst : In first_event rows).
    { apply (Permutation_in _ (Permutation_sym Hperm)). simpl. auto. }
    assert (Hpage : exists k, map history_of (firstn k rows) = [history_of third_event]).
    { destruct p_limit as [n |]; simpl in Hanswer.
      - destruct (n <? 0); [discriminate |]. simpl in Hanswer.
        injection Hanswer as Hpage. now exists (Z.to_nat n).
      - injection Hanswer as Hpage. exists (List.length rows).
        now rewrite firstn_all. }
    destruct Hpage as [k Hpage].
    destruct rows as [| x rest]; [contradiction |].
    destruct k as [| k]; [discriminate |].
    assert (Hcreated : e_created_at x = Some 20).
    { apply (f_equal (fun page => option_map h_created_at (hd_error page))) in Hpage.
      simpl in Hpage. now injection Hpage. }
    inversion Hsorted as [| x' rest' _ Hle]; subst.
    rewrite Forall_forall in Hle.
    destruct Hfirst as [Heq | Hrest]; [subst x; discriminate Hcreated |].
    specialize (Hle first_event Hrest). unfold created_leb in Hle.
    rewrite Hcreated in Hle. discriminate Hle.
Qed.

Lemma get_session_history_oldest_first_witness :
  (exists page,
     get_session_history sample_db (Some 11%N) (Some 2) = Ok page /\
     List.length page = 2%nat) /\
  get_session_history sample_db (Some 11%N) (Some (-1)) =
    Err invalid_row_count_in_limit_clause /\
  (forall answer, history_answer sample_db (Some 12%N) (Some 50) answer -> answer = Ok []).
Proof.
  split; [| split].
  - destruct (get_session_history_oldest_first sample_db (Some 11%N) (Some 2))
      as [Hanswer [_ [Hpage _]]].
    destruct (Hpage 2 _ eq_refl ltac:(lia) Hanswer) as [page [Hcall [Hlen _]]].
    exists page. split; [exact Hcall |]. rewrite Hlen. reflexivity.
  - destruct (get_session_history_oldest_first sample_db (Some 11%N) (Some (-1)))
      as [Hanswer [Hneg _]].
    exact (Hneg (-1) _ eq_refl ltac:(lia) Hanswer).
  - destruct (get_session_history_oldest_first sample_db (Some 12%N) (Some 50))
      as [_ [_ [_ Hunique]]].
    intros answer Hanswer. apply (Hunique (NoDup_nil _) answer Hanswer).
Defined.

(** ** The ledger is append-only *)

(** No procedure rewrites or removes a stored event: after a successful
    call the events table is the old one, followed by the events the call
    has logged. *)
Lemma events_are_only_appended :
  (forall now gen db sid ty sender content metadata id db',
     log_event now gen db sid ty sender content metadata = Ok (id, db') ->
     exists e, events db' = events db ++ [e]) /\
  (forall now db sid category found' db',
     set_session_category now db sid category = Ok (found', db') ->
     events db' = events db) /\
  (forall now gen db sid reason found' db',
     escalate_session now gen db sid reason = Ok (found', db') ->
     exists e, events db' = events db ++ [e]) /\
  (forall now gen db sid aid found' db',
     agent_takeover now gen db sid aid = Ok (found', db') ->
     exists e, events db' = events db ++ [e]) /\
  (forall now gen_user gen_session db c u name rows db',
     create_or_get_session now gen_user gen_session db c u name = Ok (rows, db') ->
     events db' = events db) /\
  (forall now gen db sid eid service model i o cost id db',
     log_api_cost now gen db sid eid service model i o cost = Ok (id, db') ->
     events db' = events db).
Proof.
  repeat split.
  - intros now gen db sid ty sender content metadata id db' H.
    unfold log_event in H. step_ok H.
    apply insert_event_appends in E. destruct E as [e [_ ->]].
    injection H as _ <-. now exists e.
  - intros now db sid category found' db' H.
    unfold set_session_category in H. step_ok H. now injection H as _ <-.
  - intros now gen db sid reason found' db' H.
    unfold escalate_session in H. step_ok H.
    apply insert_event_appends in E. destruct E as [e [_ ->]].
    injection H as _ <-. now exists e.
  - intros now gen db sid aid found' db' H.
    unfold agent_takeover in H. repeat step_ok H.
    match goal with
    | E : insert_event _ _ _ _ _ _ _ _ = Ok _ |- _ =>
        apply insert_event_appends in E; destruct E as [e [_ ->]]
    end.
    injection H as _ <-. now exists e.
  - intros now gen_user gen_session db c u name rows db' H.
    exfalso. exact (create_or_get_session_fails _ _ _ _ _ _ _ _ H).
  - intros now gen db sid eid service model i o cost id db' H.
    unfold log_api_cost in H. repeat step_ok H. now injection H as _ <-.
Qed.

(** ** The agent console and the removal notice *)

(** The agent who takes a session over drops it from the own list. *)
Lemma handleTakeover_removes (sessionId : uuid) (loaded : option (list history_row))
    (st : AgentConsole.console) token info :
  AgentConsole.agentToken st = Some token ->
  AgentConsole.agentInfo st = Some info ->
  ~ In sessionId
      (map AgentConsole.session_id
         (AgentConsole.escalations (AgentConsole.handleTakeover sessionId true loaded st))).
Proof.
  intros Htoken Hinfo. unfold AgentConsole.handleTakeover. rewrite Htoken, Hinfo.
  assert (Hlist :
    AgentConsole.escalations
      (AgentConsole.showNotification "You are now handling this conversation" "success"
         (AgentConsole.loadConversationHistory loaded
            (AgentConsole.setSelectedSession (Some sessionId)
               (AgentConsole.setEscalations
                  (filter (fun e => negb (N.eqb (AgentConsole.session_id e) sessionId)))
                  st)))) =
    filter (fun e => negb (N.eqb (AgentConsole.session_id e) sessionId))
      (AgentConsole.escalations st)) by (destruct loaded; reflexivity).
  rewrite Hlist. intros Hin. apply in_map_iff in Hin.
  destruct Hin as [e [Hid He]]. apply filter_In in He. destruct He as [_ Hne].
  rewrite Hid, N.eqb_refl in Hne. discriminate Hne.
Qed.

(** The six message types the [switch] has a case for. *)
Lemma onmessage_known_types (st : AgentConsole.console) :
  AgentConsole.onmessage (AgentConsole.mk_message "connected" None) st = st /\
  AgentConsole.onmessage (AgentConsole.mk_message "pong" None) st = st /\
  (forall l,
     AgentConsole.escalations
       (AgentConsole.onmessage
          (AgentConsole.mk_message "initial_escalations"
             (Some (AgentConsole.Escalations l))) st) = l) /\
  AgentConsole.notification
    (AgentConsole.onmessage (AgentConsole.mk_message "takeover_success" None) st) =
    Some ("Takeover successful", "success") /\
  (forall text,
     AgentConsole.notification
       (AgentConsole.onmessage
          (AgentConsole.mk_message "error" (Some (AgentConsole.Info (Some text)))) st) =
     Some (match text with
           | EmptyString => "Error occurred"
           | _ => text
           end, "error")) /\
  (forall new,
     In (AgentConsole.session_id new)
        (map AgentConsole.session_id
           (AgentConsole.escalations
              (AgentConsole.onmessage
                 (AgentConsole.mk_message "escalation"
                    (Some (AgentConsole.Escalation new))) st)))).
Proof.
  repeat split; try reflexivity.
  { intros text. now destruct text. }
  intros new. rewrite onmessage_escalation.
  destruct (AgentConsole.listed (AgentConsole.session_id new)
              (AgentConsole.escalations st)) eqn:Hlisted.
  - now apply listed_In.
  - rewrite map_app. apply in_or_app. right. now left.
Qed.

(** C9 at the failing input.  The [switch] of the console has no case for
    [escalation_removed]: such a message, whatever its payload, leaves the
    console as it is.  With Ann and Ben both showing session 12, Ann's
    takeover empties her list, and after the removal notice has gone to
    both consoles Ben's list still shows session 12. *)
Theorem escalation_removed_is_ignored :
  (forall payload st,
     AgentConsole.onmessage (AgentConsole.mk_message "escalation_removed" payload) st =
     st) /\
  In "escalation_removed" AgentConsole.protocol /\
  map (fun console => map AgentConsole.session_id (AgentConsole.escalations console))
    (Gateway.broadcast (Gateway.escalation_removed 12)
       [AgentConsole.handleTakeover 12 true (Some []) ann_console; ben_console]) =
  [[]; [12%N]].
Proof.
  split; [| split].
  - intros payload st. reflexivity.
  - simpl. auto 10.
  - reflexivity.
Qed.
(** ** What a successful call has written *)

Lemma pkey_free_inv (gen : uuid) (ids : list uuid) (u : unit) :
  pkey_free gen ids = Ok u -> ~ In gen ids.
Proof.
  unfold pkey_free, guard.
  destruct (existsb (N.eqb gen) ids) eqn:E; [discriminate |].
  intros _ Hin. apply existsb_eqb_In in Hin. congruence.
Qed.

Lemma references_inv (ref : option uuid) (ids : list uuid) (u : unit) :
  references ref ids = Ok u -> refers ref ids.
Proof.
  destruct ref as [v |]; simpl; [| trivial].
  unfold guard. destruct (existsb (N.eqb v) ids) eqn:E; [| discriminate].
  intros _. now apply existsb_eqb_In.
Qed.

Lemma NoDup_snoc {A : Type} (l : list A) (x : A) :
  NoDup l -> ~ In x l -> NoDup (l ++ [x]).
Proof.
  intros Hl Hx. apply NoDup_app_remove_l with (l := []). simpl.
  apply Permutation_NoDup with (l := x :: l).
  - apply Permutation_cons_append.
  - now constructor.
Qed.

Lemma insert_event_inv now gen db p_session_id p_type p_sender p_content metadata db' :
  insert_event now gen db p_session_id p_type p_sender p_content metadata = Ok db' ->
  exists e,
    e_id e = gen /\ e_session_id e = p_session_id /\ e_content e = p_content /\
    e_metadata e = metadata /\ e_created_at e = Some now /\
    ~ In gen (map e_id (events db)) /\
    refers p_session_id (map s_id (sessions db)) /\
    db' = set_events db (events db ++ [e]).
Proof.
  unfold insert_event. intros H. repeat step_ok H. injection H as <-.
  eexists. repeat split; try reflexivity; try reflexivity.
  - eapply pkey_free_inv; eassumption.
  - eapply references_inv; eassumption.
Qed.

Lemma log_event_inv now gen db p_session_id p_type p_sender p_content p_metadata id db' :
  log_event now gen db p_session_id p_type p_sender p_content p_metadata = Ok (id, db') ->
  exists e,
    id = gen /\ e_id e = gen /\ e_session_id e = p_session_id /\
    e_content e = p_content /\ e_metadata e = p_metadata /\
    e_created_at e = Some now /\
    ~ In gen (map e_id (events db)) /\
    refers p_session_id (map s_id (sessions db)) /\
    db' = mk_db (users db)
            (update_where (fun s => uuid_is (s_id s) p_session_id) (touch now)
               (sessions db))
            (events db ++ [e]) (conversation_costs db) (agents db).
Proof.
  unfold log_event. intros H. step_ok H.
  apply insert_event_inv in E.
  destruct E as [e [H1 [H2 [H3 [H4 [H5 [H6 [H7 ->]]]]]]]].
  injection H as <- <-. exists e. repeat split; assumption.
Qed.

Lemma set_session_category_inv now db p_session_id p_category found' db' :
  set_session_category now db p_session_id p_category = Ok (found', db') ->
  exists category,
    found' = found (fun s => uuid_is (s_id s) p_session_id) (sessions db) /\
    db' = mk_db (users db)
            (update_where (fun s => uuid_is (s_id s) p_session_id)
               (with_category category now) (sessions db))
            (events db) (conversation_costs db) (agents db).
Proof.
  unfold set_session_category. intros H. step_ok H.
  injection H as <- <-. eexists. split; reflexivity.
Qed.

Lemma escalate_session_inv now gen db p_session_id p_reason found' db' :
  escalate_session now gen db p_session_id p_reason = Ok (found', db') ->
  found' = true /\
  ~ In gen (map e_id (events db)) /\
  refers p_session_id (map s_id (sessions db)) /\
  db' = mk_db (users db)
          (update_where (fun s => uuid_is (s_id s) p_session_id) (escalated now)
             (sessions db))
          (events db ++
           [mk_event gen p_session_id "escalation" "system" p_reason (Some empty_object)
              (Some now)])
          (conversation_costs db) (agents db).
Proof.
  unfold escalate_session. intros H. step_ok H.
  injection H as <- <-.
  unfold insert_event in E.
  change (varchar 50 (Some "escalation")) with (Ok (Some "escalation")) in E.
  change (varchar 20 (Some "system")) with (Ok (Some "system")) in E.
  cbn [bind not_null] in E.
  repeat step_ok E. injection E as <-.
  cbn [events sessions set_sessions] in *.
  repeat split.
  - eapply pkey_free_inv; eassumption.
  - match goal with
    | R : references _ _ = Ok _ |- _ => apply references_inv in R
    end.
    now rewrite (update_where_keys s_id) in * by reflexivity.
Qed.

Lemma update_where_m_inv {A : Type} (p : A -> bool) (f : A -> result A) (t t' : list A) :
  update_where_m p f t = Ok t' ->
  Forall2 (fun r r' => if p r then f r = Ok r' else r' = r) t t'.
Proof.
  revert t'. induction t as [| r rest IH]; simpl; intros t' H.
  - injection H as <-. constructor.
  - repeat step_ok H. injection H as <-. constructor.
    + destruct (p r); [assumption | now injection E].
    + now apply IH.
Qed.

Lemma took_over_inv now a a' :
  took_over now a = Ok a' ->
  a_id a' = a_id a /\ a_status a' = Some "busy" /\ a_last_active_at a' = Some now /\
  a_name a' = a_name a /\ a_email a' = a_email a.
Proof.
  unfold took_over. intros H. repeat step_ok H. injection H as <-. repeat split.
Qed.

Lemma agent_takeover_inv now gen db p_session_id p_agent_id found' db' :
  agent_takeover now gen db p_session_id p_agent_id = Ok (found', db') ->
  exists agent_id agents',
    found' = found (fun a => str_is (a_id a) p_agent_id) (agents db) /\
    ~ In gen (map e_id (events db)) /\
    refers p_session_id (map s_id (sessions db)) /\
    (forall v, p_agent_id = Some v -> exists w, agent_id = Some w) /\
    (p_agent_id = None -> agent_id = None) /\
    Forall2 (fun a a' => if str_is (a_id a) p_agent_id
                         then took_over now a = Ok a' else a' = a)
      (agents db) agents' /\
    db' = mk_db (users db)
            (update_where (fun s => uuid_is (s_id s) p_session_id)
               (assigned agent_id now) (sessions db))
            (events db ++
             [mk_event gen p_session_id "takeover" "system"
                (Some "Agent took over conversation")
                (Some (jsonb_build_object "agent_id" p_agent_id)) (Some now)])
            (conversation_costs db) agents'.
Proof.
  unfold agent_takeover. intros H. step_ok H. rename a into agent_id.
  step_ok H. rename a into db2. step_ok H. rename a into agents'.
  injection H as <- <-.
  unfold insert_event in E0.
  change (varchar 50 (Some "takeover")) with (Ok (Some "takeover")) in E0.
  change (varchar 20 (Some "system")) with (Ok (Some "system")) in E0.
  cbn [bind not_null] in E0.
  repeat step_ok E0. injection E0 as <-.
  cbn [events sessions agents set_events set_sessions set_agents] in *.
  exists agent_id, agents'. repeat split.
  - eapply pkey_free_inv; eassumption.
  - match goal with
    | R : references _ _ = Ok _ |- _ => apply references_inv in R
    end.
    now rewrite (update_where_keys s_id) in * by reflexivity.
  - intros v ->. simpl in E.
    destruct (Nat.leb (String.length v) 100); [injection E as <-; eauto |].
    destruct (all_spaces _); [injection E as <-; eauto | discriminate].
  - intros ->. simpl in E. now injection E.
  - now apply update_where_m_inv.
Qed.

Lemma log_api_cost_inv now gen db p_session_id p_event_id p_service p_model
    p_input_tokens p_output_tokens p_cost_usd id db' :
  log_api_cost now gen db p_session_id p_event_id p_service p_model p_input_tokens
    p_output_tokens p_cost_usd = Ok (id, db') ->
  exists c,
    id = gen /\ c_id c = gen /\ c_session_id c = p_session_id /\
    c_event_id c = p_event_id /\
    c_input_tokens c = p_input_tokens /\ c_output_tokens c = p_output_tokens /\
    Some (c_cost_usd c) = p_cost_usd /\
    ~ In gen (map c_id (conversation_costs db)) /\
    refers p_session_id (map s_id (sessions db)) /\
    refers p_event_id (map e_id (events db)) /\
    db' = set_costs db (conversation_costs db ++ [c]).
Proof.
  unfold log_api_cost. intros H. repeat step_ok H. injection H as <- <-.
  repeat match goal with
         | E : int4_arg _ = Ok _ |- _ => apply int4_arg_ok in E; subst
         end.
  eexists. repeat split; try reflexivity.
  - match goal with
    | D : decimal_10_6 p_cost_usd = Ok ?x, N : not_null ?x = Ok ?y |- _ =>
        destruct p_cost_usd as [c |]; simpl in D;
        [ destruct (Z.abs c <? 10000000000); [| discriminate D];
          injection D as <-; simpl in N; now injection N as <-
        | injection D as <-; discriminate N ]
    end.
  - eapply pkey_free_inv; eassumption.
  - eapply references_inv; eassumption.
  - eapply references_inv; eassumption.
Qed.

(** ** The constraints of the schema are kept *)

Lemma Forall2_took_over_keys now p_agent_id (t t' : list agent) :
  Forall2 (fun a a' => if str_is (a_id a) p_agent_id
                       then took_over now a = Ok a' else a' = a) t t' ->
  map a_id t' = map a_id t.
Proof.
  induction 1 as [| a a' rest rest' Hhead _ IH]; simpl; [reflexivity |].
  f_equal; [| exact IH].
  destruct (str_is (a_id a) p_agent_id).
  - now apply took_over_inv in Hhead.
  - now subst.
Qed.

Lemma serve_keeps_keys (r : request) (db : database) :
  primary_keys db -> unique_user_key db ->
  primary_keys (serve r db) /\ unique_user_key (serve r db).
Proof.
  intros (Hu & Hs & He & Hc & Ha) Hunique.
  assert (Hsame : primary_keys db /\ unique_user_key db)
    by (repeat split; assumption).
  destruct r; cbn [serve].
  - destruct (create_or_get_session _ _ _ _ _ _ _) as [answer | e] eqn:Hcall;
      [| exact Hsame].
    exfalso. exact (create_or_get_session_fails _ _ _ _ _ _ _ _ Hcall).
  - destruct (log_event _ _ _ _ _ _ _ _) as [[id db'] | e] eqn:Hcall; [| exact Hsame].
    cbn [db_after]. apply log_event_inv in Hcall.
    destruct Hcall as [ev [_ [Hid [_ [_ [_ [_ [Hfresh [_ ->]]]]]]]]].
    split; [| exact Hunique]. repeat split; cbn; try assumption.
    + now rewrite (update_where_keys s_id) by reflexivity.
    + rewrite map_app. simpl. rewrite Hid. now apply NoDup_snoc.
  - destruct (set_session_category _ _ _ _) as [[b db'] | e] eqn:Hcall; [| exact Hsame].
    cbn [db_after]. apply set_session_category_inv in Hcall.
    destruct Hcall as [category [_ ->]].
    split; [| exact Hunique]. repeat split; cbn; try assumption.
    now rewrite (update_where_keys s_id) by reflexivity.
  - destruct (escalate_session _ _ _ _ _) as [[b db'] | e] eqn:Hcall; [| exact Hsame].
    cbn [db_after]. apply escalate_session_inv in Hcall.
    destruct Hcall as [_ [Hfresh [_ ->]]].
    split; [| exact Hunique]. repeat split; cbn; try assumption.
    + now rewrite (update_where_keys s_id) by reflexivity.
    + rewrite map_app. now apply NoDup_snoc.
  - destruct (agent_takeover _ _ _ _ _) as [[b db'] | e] eqn:Hcall; [| exact Hsame].
    cbn [db_after]. apply agent_takeover_inv in Hcall.
    destruct Hcall as [agent_id [agents' [_ [Hfresh [_ [_ [_ [Hagents ->]]]]]]]].
    split; [| exact Hunique]. repeat split; cbn; try assumption.
    + now rewrite (update_where_keys s_id) by reflexivity.
    + rewrite map_app. now apply NoDup_snoc.
    + now rewrite (Forall2_took_over_keys _ _ _ _ Hagents).
  - destruct (log_api_cost _ _ _ _ _ _ _ _ _ _) as [[id db'] | e] eqn:Hcall;
      [| exact Hsame].
    cbn [db_after]. apply log_api_cost_inv in Hcall.
    destruct Hcall as [c [_ [Hid [_ [_ [_ [_ [_ [Hfresh [_ [_ ->]]]]]]]]]]].
    split; [| exact Hunique]. repeat split; cbn; try assumption.
    rewrite map_app. simpl. rewrite Hid. now apply NoDup_snoc.
Qed.

(** X1. Whatever requests are served, and whether they return or raise,
    the primary keys of the five tables stay free of duplicates and no
    two user rows share a (channel, channel_user_id) pair. *)
Theorem requests_keep_keys_unique :
  forall requests db,
    primary_keys db -> unique_user_key db ->
    primary_keys (serve_all requests db) /\ unique_user_key (serve_all requests db).
Proof.
  unfold serve_all.
  induction requests as [| r rest IH]; intros db Hkeys Hunique; simpl.
  - split; assumption.
  - destruct (serve_keeps_keys r db Hkeys Hunique) as [Hkeys' Hunique'].
    now apply IH.
Qed.

Lemma refers_incl (ref : option uuid) (ids ids' : list uuid) :
  incl ids ids' -> refers ref ids -> refers ref ids'.
Proof. destruct ref as [v |]; simpl; auto. Qed.

Lemma foreign_keys_grow (db db' : database) :
  foreign_keys db ->
  incl (map u_id (users db)) (map u_id (users db')) ->
  incl (map s_id (sessions db)) (map s_id (sessions db')) ->
  incl (map e_id (events db)) (map e_id (events db')) ->
  (forall s, In s (sessions db') ->
     (exists s0, In s0 (sessions db) /\ s_user_id s = s_user_id s0) \/
     refers (s_user_id s) (map u_id (users db'))) ->
  (forall e, In e (events db') ->
     In e (events db) \/ refers (e_session_id e) (map s_id (sessions db'))) ->
  (forall c, In c (conversation_costs db') ->
     In c (conversation_costs db) \/
     (refers (c_session_id c) (map s_id (sessions db')) /\
      refers (c_event_id c) (map e_id (events db')))) ->
  foreign_keys db'.
Proof.
  intros (Fs & Fe & Fc) Iu Is Ie Hs He Hc. repeat split.
  - intros s Hin. destruct (Hs s Hin) as [[s0 [Hs0 ->]] | H]; [| exact H].
    eapply refers_incl; [exact Iu | now apply Fs].
  - intros e Hin. destruct (He e Hin) as [H | H]; [| exact H].
    eapply refers_incl; [exact Is | now apply Fe].
  - destruct (Hc c H) as [H0 | [H0 _]]; [| exact H0].
    eapply refers_incl; [exact Is | now apply Fc].
  - destruct (Hc c H) as [H0 | [_ H0]]; [| exact H0].
    eapply refers_incl; [exact Ie | now apply Fc].
Qed.

Lemma updated_session_origin (p : session -> bool) (f : session -> session)
    (t : list session) (s : session) :
  (forall r, s_user_id (f r) = s_user_id r) ->
  In s (update_where p f t) ->
  exists s0, In s0 t /\ s_user_id s = s_user_id s0.
Proof.
  intros Hkeep Hin. apply update_where_In in Hin. destruct Hin as [r [Hr ->]].
  exists r. split; [assumption |]. destruct (p r); [apply Hkeep | reflexivity].
Qed.

Lemma serve_keeps_references (r : request) (db : database) :
  foreign_keys db -> foreign_keys (serve r db).
Proof.
  intros Hfk.
  destruct r; cbn [serve].
  - destruct (create_or_get_session _ _ _ _ _ _ _) as [answer | e] eqn:Hcall;
      [| exact Hfk].
    exfalso. exact (create_or_get_session_fails _ _ _ _ _ _ _ _ Hcall).
  - destruct (log_event _ _ _ _ _ _ _ _) as [[id db'] | e] eqn:Hcall; [| exact Hfk].
    cbn [db_after]. apply log_event_inv in Hcall.
    destruct Hcall as [ev [_ [Hid [Hsid [_ [_ [_ [_ [Href ->]]]]]]]]].
    apply (foreign_keys_grow db _ Hfk); cbn.
    + apply incl_refl.
    + rewrite (update_where_keys s_id) by reflexivity. apply incl_refl.
    + rewrite map_app. now apply incl_appl, incl_refl.
    + intros s Hin. left.
      apply updated_session_origin in Hin; [exact Hin | reflexivity].
    + intros e' Hin. apply in_app_or in Hin. destruct Hin as [Hin | [<- | []]].
      * now left.
      * right. rewrite (update_where_keys s_id) by reflexivity. now rewrite Hsid.
    + intros cc Hin. now left.
  - destruct (set_session_category _ _ _ _) as [[b db'] | e] eqn:Hcall; [| exact Hfk].
    cbn [db_after]. apply set_session_category_inv in Hcall.
    destruct Hcall as [category [_ ->]].
    apply (foreign_keys_grow db _ Hfk); cbn.
    + apply incl_refl.
    + rewrite (update_where_keys s_id) by reflexivity. apply incl_refl.
    + apply incl_refl.
    + intros s Hin. left.
      apply updated_session_origin in Hin; [exact Hin | reflexivity].
    + intros e' Hin. now left.
    + intros cc Hin. now left.
  - destruct (escalate_session _ _ _ _ _) as [[b db'] | e] eqn:Hcall; [| exact Hfk].
    cbn [db_after]. apply escalate_session_inv in Hcall.
    destruct Hcall as [_ [_ [Href ->]]].
    apply (foreign_keys_grow db _ Hfk); cbn.
    + apply incl_refl.
    + rewrite (update_where_keys s_id) by reflexivity. apply incl_refl.
    + rewrite map_app. now apply incl_appl, incl_refl.
    + intros s Hin. left.
      apply updated_session_origin in Hin; [exact Hin | reflexivity].
    + intros e' Hin. apply in_app_or in Hin. destruct Hin as [Hin | [<- | []]].
      * now left.
      * right. now rewrite (update_where_keys s_id) by reflexivity.
    + intros cc Hin. now left.
  - destruct (agent_takeover _ _ _ _ _) as [[b db'] | e] eqn:Hcall; [| exact Hfk].
    cbn [db_after]. apply agent_takeover_inv in Hcall.
    destruct Hcall as [agent_id [agents' [_ [_ [Href [_ [_ [_ ->]]]]]]]].
    apply (foreign_keys_grow db _ Hfk); cbn.
    + apply incl_refl.
    + rewrite (update_where_keys s_id) by reflexivity. apply incl_refl.
    + rewrite map_app. now apply incl_appl, incl_refl.
    + intros s Hin. left.
      apply updated_session_origin in Hin; [exact Hin | reflexivity].
    + intros e' Hin. apply in_app_or in Hin. destruct Hin as [Hin | [<- | []]].
      * now left.
      * right. now rewrite (update_where_keys s_id) by reflexivity.
    + intros cc Hin. now left.
  - destruct (log_api_cost _ _ _ _ _ _ _ _ _ _) as [[id db'] | e] eqn:Hcall;
      [| exact Hfk].
    cbn [db_after]. apply log_api_cost_inv in Hcall.
    destruct Hcall as [c [_ [_ [Hs [He [_ [_ [_ [_ [Rs [Re ->]]]]]]]]]]].
    apply (foreign_keys_grow db _ Hfk); cbn; try apply incl_refl.
    + intros s Hin. left. now exists s.
    + intros e' Hin. now left.
    + intros cc Hin. apply in_app_or in Hin. destruct Hin as [Hin | [<- | []]].
      * now left.
      * right. rewrite Hs, He. now split.
Qed.

(** X2. Whatever requests are served, every reference stays valid: a
    session's user, an event's session, and a cost record's session and
    event are NULL or name a row that exists. *)
Theorem requests_keep_references_valid :
  forall requests db,
    foreign_keys db -> foreign_keys (serve_all requests db).
Proof.
  unfold serve_all.
  induction requests as [| r rest IH]; intros db Hfk; simpl.
  - assumption.
  - apply IH. now apply serve_keeps_references.
Qed.

(** ** One open session per user *)

Lemma filter_update_where {A : Type} (q p : A -> bool) (f : A -> A) (t : list A) :
  (forall r, In r t -> p r = true -> q (f r) = q r) ->
  filter q (update_where p f t) = update_where p f (filter q t).
Proof.
  induction t as [| r rest IH]; intros Hkeep; simpl; [reflexivity |].
  rewrite IH by (intros r' Hin; apply Hkeep; now right).
  destruct (p r) eqn:Hp.
  - rewrite (Hkeep r (or_introl eq_refl) Hp).
    destruct (q r); simpl; [now rewrite Hp | reflexivity].
  - destruct (q r); simpl; [now rewrite Hp | reflexivity].
Qed.

Lemma one_open_session_updated (db : database) (p : session -> bool)
    (f : session -> session) (sessions' : list session) :
  one_open_session_per_user db ->
  sessions' = update_where p f (sessions db) ->
  (forall r, s_id (f r) = s_id r) ->
  (forall user_id r, In r (sessions db) -> p r = true ->
     open_session_of user_id (f r) = open_session_of user_id r) ->
  forall user_id a b,
    In a (filter (open_session_of user_id) sessions') ->
    In b (filter (open_session_of user_id) sessions') ->
    s_id a = s_id b.
Proof.
  intros Hone -> Hid Hopen user_id a b Ha Hb.
  rewrite filter_update_where in Ha, Hb by (intros r Hr Hp; now apply Hopen).
  apply update_where_In in Ha. destruct Ha as [a0 [Ha0 ->]].
  apply update_where_In in Hb. destruct Hb as [b0 [Hb0 ->]].
  transitivity (s_id a0); [destruct (p a0); [apply Hid | reflexivity] |].
  transitivity (s_id b0); [| destruct (p b0); [symmetry; apply Hid | reflexivity]].
  now apply (Hone user_id).
Qed.

Lemma serve_keeps_one_open_session (r : request) (db : database) :
  ~ reopens r db ->
  one_open_session_per_user db ->
  one_open_session_per_user (serve r db).
Proof.
  intros Hkeep Hone.
  destruct r; cbn [serve].
  - destruct (create_or_get_session _ _ _ _ _ _ _) as [answer | e] eqn:Hcall;
      [| exact Hone].
    exfalso. exact (create_or_get_session_fails _ _ _ _ _ _ _ _ Hcall).
  - destruct (log_event _ _ _ _ _ _ _ _) as [[id db'] | e] eqn:Hcall; [| exact Hone].
    cbn [db_after]. apply log_event_inv in Hcall.
    destruct Hcall as [ev [_ [_ [_ [_ [_ [_ [_ [_ ->]]]]]]]]].
    intros user_id a b. unfold open_sessions. cbn [sessions].
    apply (one_open_session_updated db _ _ _ Hone eq_refl); reflexivity.
  - destruct (set_session_category _ _ _ _) as [[b db'] | e] eqn:Hcall; [| exact Hone].
    cbn [db_after]. apply set_session_category_inv in Hcall.
    destruct Hcall as [category [_ ->]].
    intros user_id a b0. unfold open_sessions. cbn [sessions].
    apply (one_open_session_updated db _ _ _ Hone eq_refl); reflexivity.
  - destruct (escalate_session _ _ _ _ _) as [[b db'] | e] eqn:Hcall; [| exact Hone].
    cbn [db_after]. apply escalate_session_inv in Hcall.
    destruct Hcall as [_ [_ [_ ->]]].
    intros user_id a b0. unfold open_sessions. cbn [sessions].
    apply (one_open_session_updated db _ _ _ Hone eq_refl); [reflexivity |].
    intros uid r Hr Hhit.
    assert (Hopen : open_status (s_status r) = true).
    { destruct (open_status (s_status r)) eqn:Hst; [reflexivity |].
      exfalso. apply Hkeep. simpl. now exists r. }
    unfold open_session_of. cbn [s_user_id s_status escalated]. now rewrite Hopen.
  - destruct (agent_takeover _ _ _ _ _) as [[b db'] | e] eqn:Hcall; [| exact Hone].
    cbn [db_after]. apply agent_takeover_inv in Hcall.
    destruct Hcall as [agent_id [agents' [_ [_ [_ [_ [_ [_ ->]]]]]]]].
    intros user_id a b0. unfold open_sessions. cbn [sessions].
    apply (one_open_session_updated db _ _ _ Hone eq_refl); reflexivity.
  - destruct (log_api_cost _ _ _ _ _ _ _ _ _ _) as [[id db'] | e] eqn:Hcall;
      [| exact Hone].
    cbn [db_after]. apply log_api_cost_inv in Hcall.
    destruct Hcall as [c [_ [_ [_ [_ [_ [_ [_ [_ [_ [_ ->]]]]]]]]]]].
    exact Hone.
Qed.

(** X3. If no user has two sessions that are active or escalated, this
    stays so under every series of requests in which no escalation names a
    session that is neither active nor escalated: no call of
    [create_or_get_session] commits, and no other procedure adds a
    session. *)
Theorem requests_keep_one_open_session :
  forall requests db,
    never_reopens requests db ->
    one_open_session_per_user db ->
    one_open_session_per_user (serve_all requests db).
Proof.
  unfold serve_all.
  induction requests as [| r rest IH]; intros db Hnever Hone; simpl.
  - assumption.
  - destruct Hnever as [Hkeep Hrest].
    apply IH; [assumption |]. now apply serve_keeps_one_open_session.
Qed.

(** ** What a call reports: missing rows, NULL ids and full counters *)

Lemma database_eta (db : database) :
  mk_db (users db) (sessions db) (events db) (conversation_costs db) (agents db) = db.
Proof. now destruct db. Qed.

(** X4. What a call of [create_or_get_session] reports.  Every call ends
    in an error and leaves the database as it was.  The user statement
    runs first and its errors win: with values that fit, a NULL channel
    or channel user id is a not-null violation, and a pair no user row has
    whose generated id is taken is a unique violation.  Whenever the user
    statement succeeds, so for a known pair or a fresh id, the session
    lookup raises the ambiguity of [user_id] and [status]. *)
Theorem create_or_get_session_reports_the_user_statement_first :
  forall now gen_user gen_session db p_channel p_channel_user_id p_user_name,
    let call :=
      create_or_get_session now gen_user gen_session db
        p_channel p_channel_user_id p_user_name in
    let user_statement :=
      upsert_user now gen_user db p_channel p_channel_user_id p_user_name in
    db_after db call = db /\
    (forall e, user_statement = Err e -> call = Err e) /\
    (forall written, user_statement = Ok written -> call = Err ambiguous_column) /\
    (fits 20 p_channel = true -> fits 255 p_channel_user_id = true ->
     fits 255 p_user_name = true ->
     (p_channel = None \/ p_channel_user_id = None ->
      call = Err not_null_violation) /\
     (forall c u,
        p_channel = Some c -> p_channel_user_id = Some u ->
        find (same_user_key c u) (users db) = None ->
        In gen_user (map u_id (users db)) ->
        call = Err unique_violation) /\
     (forall c u,
        p_channel = Some c -> p_channel_user_id = Some u ->
        find (same_user_key c u) (users db) <> None \/
        ~ In gen_user (map u_id (users db)) ->
        call = Err ambiguous_column)).
Proof.
  intros now gen_user gen_session db p_channel p_channel_user_id p_user_name
    call user_statement.
  assert (Herr : forall e, user_statement = Err e -> call = Err e).
  { intros e He. unfold call, create_or_get_session, create_or_get_session_under.
    fold user_statement. now rewrite He. }
  assert (Hok : forall written,
             user_statement = Ok written -> call = Err ambiguous_column).
  { intros [v db1] Hw.
    unfold call, create_or_get_session, create_or_get_session_under.
    fold user_statement. now rewrite Hw. }
  split; [| split; [exact Herr | split; [exact Hok |]]].
  - destruct user_statement as [written | e] eqn:Hu.
    + now rewrite (Hok written eq_refl).
    + now rewrite (Herr e eq_refl).
  - intros Hc Hcu Hname.
    assert (Hshape : user_statement =
              (channel <- not_null p_channel ;;
               channel_user_id <- not_null p_channel_user_id ;;
               match find (same_user_key channel channel_user_id) (users db) with
               | Some u =>
                   Ok (u_id u,
                       set_users db
                         (update_where (same_user_key channel channel_user_id)
                            (seen_again p_user_name now) (users db)))
               | None =>
                   check pkey_free gen_user (map u_id (users db)) ;;
                   Ok (gen_user,
                       set_users db
                         (users db ++
                          [mk_user gen_user channel channel_user_id p_user_name
                             (Some empty_object) (Some now) (Some now)]))
               end)).
    { unfold user_statement, upsert_user.
      now rewrite (varchar_fits 20 p_channel Hc),
        (varchar_fits 255 p_channel_user_id Hcu),
        (varchar_fits 255 p_user_name Hname). }
    split; [| split].
    + intros Hnull. apply Herr. rewrite Hshape.
      destruct Hnull as [-> | ->]; [reflexivity |].
      now destruct p_channel.
    + intros c u -> -> Hfind Htaken. apply Herr. rewrite Hshape.
      cbn [not_null bind]. rewrite Hfind, (pkey_free_taken _ _ Htaken).
      reflexivity.
    + intros c u -> -> Hcase.
      destruct (find (same_user_key c u) (users db)) as [usr |] eqn:Hfind.
      * eapply Hok. rewrite Hshape. cbn [not_null bind]. rewrite Hfind.
        reflexivity.
      * destruct Hcase as [Hknown | Hfresh]; [now contradiction Hknown |].
        eapply Hok. rewrite Hshape. cbn [not_null bind].
        rewrite Hfind, (pkey_free_fresh _ _ Hfresh). reflexivity.
Qed.

(** X5. [set_session_category] tells whether the session exists: for an
    id no session has it returns false and changes nothing; for an
    existing session it returns true, and of two calls in a row the second
    decides the stored category and its time, NULL included. *)
Theorem set_session_category_missing_and_last_write :
  forall now db sid category,
    fits 50 category = true ->
    (~ In sid (map s_id (sessions db)) ->
     set_session_category now db (Some sid) category = Ok (false, db)) /\
    (In sid (map s_id (sessions db)) ->
     exists db',
       set_session_category now db (Some sid) category = Ok (true, db') /\
       forall later category',
         fits 50 category' = true ->
         exists db'',
           set_session_category later db' (Some sid) category' = Ok (true, db'') /\
           (forall s, In s (sessions db'') -> s_id s = sid ->
              s_selected_category s = category' /\
              s_category_selected_at s = Some later) /\
           (forall s, In s (sessions db'') -> s_id s <> sid -> In s (sessions db))).
Proof.
  intros now db sid category Hfit. split.
  - intros Hmissing. rewrite (set_session_category_ok now db sid category Hfit).
    assert (Hnone : forall r, In r (sessions db) -> uuid_is (s_id r) (Some sid) = false).
    { intros r Hr. simpl. apply N.eqb_neq. intros E. apply Hmissing.
      rewrite <- E. now apply in_map. }
    rewrite (found_none _ _ Hnone), (update_where_none _ _ _ Hnone).
    unfold set_sessions. now rewrite database_eta.
  - intros Hpresent. eexists.
    rewrite (set_session_category_ok now db sid category Hfit).
    rewrite (uuid_is_hit _ _ Hpresent). split; [reflexivity |].
    intros later category' Hfit'. eexists.
    rewrite (set_session_category_ok later _ sid category' Hfit').
    cbn [sessions set_sessions].
    rewrite uuid_is_hit
      by (rewrite (update_where_keys s_id) by reflexivity; exact Hpresent).
    split; [reflexivity |]. cbn [sessions set_sessions]. split.
    + intros s Hs Hid. apply update_where_In in Hs. destruct Hs as [r [_ ->]].
      cbn [uuid_is] in *. destruct (N.eqb (s_id r) sid) eqn:E.
      * split; reflexivity.
      * apply N.eqb_neq in E. contradiction.
    + intros s Hs Hid. apply update_where_In in Hs. destruct Hs as [r [Hr ->]].
      apply update_where_In in Hr. destruct Hr as [r0 [Hr0 ->]].
      cbn [uuid_is] in *.
      destruct (N.eqb (s_id r0) sid) eqn:E0.
      * exfalso. apply Hid. simpl. rewrite E0. simpl. now apply N.eqb_eq.
      * rewrite E0. exact Hr0.
Qed.

(** X6. [escalate_session] never returns false.  When no session has the
    id it raises a foreign-key violation; with a NULL id it returns true,
    changes no session and logs an escalation event that belongs to no
    session. *)
Theorem escalate_session_never_returns_false :
  (forall now gen db p_session_id p_reason answer db',
     escalate_session now gen db p_session_id p_reason = Ok (answer, db') ->
     answer = true) /\
  (forall now gen db sid p_reason,
     ~ In gen (map e_id (events db)) ->
     ~ In sid (map s_id (sessions db)) ->
     escalate_session now gen db (Some sid) p_reason = Err foreign_key_violation) /\
  (forall now gen db p_reason,
     ~ In gen (map e_id (events db)) ->
     escalate_session now gen db None p_reason =
     Ok (true,
         set_events db
           (events db ++
            [mk_event gen None "escalation" "system" p_reason (Some empty_object)
               (Some now)]))).
Proof.
  split; [| split].
  - intros now gen db p_session_id p_reason answer db' H.
    now apply escalate_session_inv in H.
  - intros now gen db sid p_reason Hfresh Hmissing. unfold escalate_session.
    rewrite insert_event_dangling; try reflexivity; try assumption.
    cbn [sessions set_sessions].
    now rewrite (update_where_keys s_id) by reflexivity.
  - intros now gen db p_reason Hfresh. unfold escalate_session.
    rewrite insert_event_ok; try reflexivity; try assumption; [| discriminate].
    cbn [bind uuid_is]. unfold update_where.
    rewrite map_id. unfold set_sessions, set_events. cbn. reflexivity.
Qed.

(** X7. [log_event] with a NULL session id does not fail: it stores an
    event that belongs to no session, touches no session, and the stored
    event is returned by no [get_session_history] request, whatever its
    session argument. *)
Theorem log_event_null_session_is_orphan :
  forall now gen db ty sender content metadata,
    In ty event_types -> In sender senders ->
    ~ In gen (map e_id (events db)) ->
    exists db',
      log_event now gen db None (Some ty) (Some sender) content metadata =
        Ok (gen, db') /\
      events db' = events db ++ [mk_event gen None ty sender content metadata (Some now)] /\
      sessions db' = sessions db /\
      forall p_session_id p_limit,
        get_session_history db' p_session_id p_limit =
        get_session_history db p_session_id p_limit.
Proof.
  intros now gen db ty sender content metadata Hty Hsender Hfresh.
  eexists. unfold log_event.
  rewrite (insert_event_ok now gen db None ty sender content metadata
             (event_type_fits ty Hty) (sender_fits sender Hsender) Hfresh)
    by discriminate.
  cbn [bind uuid_is]. split; [reflexivity |].
  cbn [events sessions set_events set_sessions].
  unfold update_where. rewrite map_id. repeat split.
  intros p p_limit. unfold get_session_history.
  cbn [events sessions set_events set_sessions].
  rewrite filter_app. simpl.
  replace (in_session p (mk_event gen None ty sender content metadata (Some now)))
    with false by reflexivity.
  now rewrite app_nil_r.
Qed.

(** X8. A takeover that names an agent without a row returns false, and
    yet it has assigned the session to that id and logged the takeover
    event; the agents table is as before. *)
Theorem agent_takeover_unknown_agent_writes :
  forall now gen db sid aid,
    In sid (map s_id (sessions db)) ->
    fits 100 (Some aid) = true ->
    ~ In gen (map e_id (events db)) ->
    ~ In aid (map a_id (agents db)) ->
    agent_takeover now gen db (Some sid) (Some aid) =
    Ok (false,
        mk_db (users db)
          (update_where (fun s => N.eqb (s_id s) sid) (assigned (Some aid) now)
             (sessions db))
          (events db ++
           [mk_event gen (Some sid) "takeover" "system"
              (Some "Agent took over conversation")
              (Some (jsonb_build_object "agent_id" (Some aid))) (Some now)])
          (conversation_costs db) (agents db)).
Proof.
  intros now gen db sid aid Hsession Hfit Hfresh Hunknown.
  assert (Hnone : forall a, In a (agents db) -> str_is (a_id a) (Some aid) = false).
  { intros a Ha. simpl. apply String.eqb_neq. intros E. apply Hunknown.
    rewrite <- E. now apply in_map. }
  rewrite (agent_takeover_ok now gen db sid aid Hsession Hfit Hfresh).
  - now rewrite (found_none _ _ Hnone), (update_where_none _ _ _ Hnone).
  - intros a Ha Hid. exfalso. apply Hunknown. rewrite <- Hid. now apply in_map.
Qed.

Lemma update_where_m_raises {A : Type} (p : A -> bool) (f : A -> result A)
    (e0 : sqlerror) (t : list A) (a : A) :
  (forall r e, f r = Err e -> e = e0) ->
  In a t -> p a = true -> f a = Err e0 ->
  update_where_m p f t = Err e0.
Proof.
  intros Honly. induction t as [| r rest IH]; intros Hin Hp Hfail; [contradiction |].
  simpl. destruct (p r) eqn:Hpr.
  - destruct (f r) as [r' | e] eqn:Hfr.
    + destruct Hin as [-> | Hin]; [congruence |].
      cbn [bind]. now rewrite (IH Hin Hp Hfail).
    + cbn [bind]. f_equal. now apply (Honly r).
  - destruct Hin as [-> | Hin]; [congruence |].
    cbn [bind]. now rewrite (IH Hin Hp Hfail).
Qed.

Lemma took_over_error now a e :
  took_over now a = Err e -> e = numeric_value_out_of_range.
Proof.
  unfold took_over, int4_add.
  destruct (a_current_sessions a) as [c |]; cbn [bind].
  - destruct (in_int4 (c + 1)); cbn [bind]; [| intros H; now injection H].
    destruct (a_total_takeovers a) as [t |]; cbn [bind]; [| discriminate].
    destruct (in_int4 (t + 1)); cbn [bind]; [discriminate | intros H; now injection H].
  - destruct (a_total_takeovers a) as [t |]; cbn [bind]; [| discriminate].
    destruct (in_int4 (t + 1)); cbn [bind]; [discriminate | intros H; now injection H].
Qed.

(** X9. A takeover by an agent whose [current_sessions] or
    [total_takeovers] stands at the largest [INT] raises "numeric value out
    of range"; the call is rolled back, so the session is not assigned. *)
Theorem agent_takeover_full_counter_raises :
  forall now gen db sid aid a,
    In sid (map s_id (sessions db)) ->
    fits 100 (Some aid) = true ->
    ~ In gen (map e_id (events db)) ->
    In a (agents db) -> a_id a = aid ->
    a_current_sessions a = Some int4_max \/ a_total_takeovers a = Some int4_max ->
    agent_takeover now gen db (Some sid) (Some aid) = Err numeric_value_out_of_range /\
    db_after db (agent_takeover now gen db (Some sid) (Some aid)) = db.
Proof.
  intros now gen db sid aid a Hsession Hfit Hfresh Ha Hid Hfull.
  assert (Hcall : agent_takeover now gen db (Some sid) (Some aid) =
                  Err numeric_value_out_of_range).
  { unfold agent_takeover.
    rewrite (varchar_fits 100 (Some aid) Hfit). cbn [bind].
    rewrite insert_event_ok; try reflexivity; try assumption.
    - cbn [bind agents set_events set_sessions].
      rewrite (update_where_m_raises _ (took_over now) numeric_value_out_of_range
                 (agents db) a); try assumption; try reflexivity.
      + intros r e. apply took_over_error.
      + simpl. rewrite Hid. apply String.eqb_refl.
      + unfold took_over, int4_add.
        destruct Hfull as [-> | Htotal].
        * reflexivity.
        * rewrite Htotal. destruct (a_current_sessions a) as [c |]; cbn [bind].
          -- destruct (in_int4 (c + 1)); reflexivity.
          -- reflexivity.
    - intros sid' E. injection E as <-. cbn [sessions set_sessions].
      now rewrite (update_where_keys s_id) by reflexivity. }
  split; [exact Hcall |]. now rewrite Hcall.
Qed.

(** X10. The token counts of [log_api_cost] at their edges: when both
    counts are [INT] values but their sum is not, the call raises "numeric
    value out of range" and stores nothing; when a count is NULL the call
    goes through and the stored total is NULL, not the other count. *)
Theorem log_api_cost_count_edges :
  forall now gen db sid eid service model (i o cost : Z),
    fits 20 (Some service) = true ->
    fits 50 model = true ->
    in_int4 i = true -> in_int4 o = true ->
    Z.abs cost < 10000000000 ->
    (in_int4 (i + o) = false ->
     log_api_cost now gen db sid eid (Some service) model (Some i) (Some o) (Some cost) =
     Err numeric_value_out_of_range) /\
    (~ In gen (map c_id (conversation_costs db)) ->
     refers sid (map s_id (sessions db)) -> refers eid (map e_id (events db)) ->
     log_api_cost now gen db sid eid (Some service) model None (Some o) (Some cost) =
     Ok (gen,
         set_costs db
           (conversation_costs db ++
            [mk_cost gen sid eid service model None (Some o) None cost (Some now)]))).
Proof.
  intros now gen db sid eid service model i o cost Hservice Hmodel Hi Ho Hcost.
  split.
  - intros Hsum. unfold log_api_cost.
    rewrite (int4_arg_in_range i Hi), (int4_arg_in_range o Ho). cbn [bind].
    rewrite (varchar_fits 20 (Some service) Hservice), (varchar_fits 50 model Hmodel).
    cbn [bind int4_add]. now rewrite Hsum.
  - intros Hfresh Hs He. unfold log_api_cost.
    rewrite (int4_arg_in_range o Ho). cbn [bind int4_arg].
    rewrite (varchar_fits 20 (Some service) Hservice), (varchar_fits 50 model Hmodel).
    cbn [bind int4_add decimal_10_6].
    apply Z.ltb_lt in Hcost. rewrite Hcost. cbn [bind not_null].
    rewrite (pkey_free_fresh _ _ Hfresh). cbn [bind].
    assert (Hrefs : forall ref ids, refers ref ids -> references ref ids = Ok tt).
    { intros [v |] ids Hr; [now apply references_present | reflexivity]. }
    rewrite (Hrefs _ _ Hs), (Hrefs _ _ He). reflexivity.
Qed.

(** ** The sample database satisfies the constraints *)

Lemma sample_db_primary_keys : primary_keys sample_db.
Proof.
  unfold primary_keys. simpl.
  repeat split; repeat constructor; simpl; intuition discriminate.
Qed.

Lemma sample_db_foreign_keys : foreign_keys sample_db.
Proof.
  unfold foreign_keys. simpl. repeat split.
  - intros s [<- | [<- | [<- | []]]]; simpl; auto.
  - intros e [<- | [<- | [<- | []]]]; simpl; auto.
  - contradiction.
  - contradiction.
Qed.

Lemma open_session_of_inv (user_id : uuid) (s : session) :
  open_session_of user_id s = true ->
  s_user_id s = Some user_id /\ open_status (s_status s) = true.
Proof.
  unfold open_session_of. intros H. apply andb_true_iff in H. destruct H as [Hu Ho].
  split; [| exact Ho].
  destruct (s_user_id s) as [v |]; [| discriminate].
  simpl in Hu. apply N.eqb_eq in Hu. now subst.
Qed.

Lemma sample_db_one_open_session : one_open_session_per_user sample_db.
Proof.
  intros user_id a b Ha Hb. unfold open_sessions in Ha, Hb.
  apply filter_In in Ha. apply filter_In in Hb.
  destruct Ha as [Ha Hopen_a], Hb as [Hb Hopen_b].
  apply open_session_of_inv in Hopen_a. apply open_session_of_inv in Hopen_b.
  destruct Hopen_a as [Ua Oa], Hopen_b as [Ub Ob].
  simpl in Ha, Hb.
  destruct Ha as [<- | [<- | [<- | []]]]; destruct Hb as [<- | [<- | [<- | []]]];
    try reflexivity; simpl in *; congruence.
Qed.

Lemma requests_keep_keys_unique_witness :
  primary_keys
    (serve_all
       [CreateOrGetSession 40 91 92 (Some "web") (Some "u9") None;
        EscalateSession 41 24 (Some 11%N) (Some "stuck");
        AgentTakeover 42 25 (Some 11%N) (Some "A1");
        LogEvent 43 25 (Some 11%N) (Some "agent_message") (Some "agent") None None]
       sample_db) /\
  unique_user_key
    (serve_all
       [CreateOrGetSession 40 91 92 (Some "web") (Some "u9") None;
        EscalateSession 41 24 (Some 11%N) (Some "stuck");
        AgentTakeover 42 25 (Some 11%N) (Some "A1");
        LogEvent 43 25 (Some 11%N) (Some "agent_message") (Some "agent") None None]
       sample_db).
Proof.
  apply requests_keep_keys_unique.
  - exact sample_db_primary_keys.
  - exact sample_db_unique_user_key.
Defined.

Lemma requests_keep_references_valid_witness :
  foreign_keys
    (serve_all
       [CreateOrGetSession 40 91 92 (Some "web") (Some "u9") None;
        LogEvent 43 25 (Some 11%N) (Some "agent_message") (Some "agent") None None;
        LogApiCost 44 31 (Some 11%N) (Some 25%N) (Some "pinecone") None (Some 3) (Some 4)
          (Some 12)]
       sample_db).
Proof.
  apply requests_keep_references_valid. exact sample_db_foreign_keys.
Defined.

Lemma requests_keep_one_open_session_witness :
  one_open_session_per_user
    (serve_all
       [EscalateSession 41 24 (Some 11%N) (Some "stuck");
        CreateOrGetSession 42 91 92 (Some "whatsapp") (Some "u1") None]
       sample_db).
Proof.
  apply requests_keep_one_open_session.
  - simpl. split; [| split; [intros [] | exact I]].
    intros [s [Hs [Hhit Hclosed]]].
    destruct Hs as [<- | [<- | [<- | []]]]; discriminate.
  - exact sample_db_one_open_session.
Defined.

Lemma create_or_get_session_reports_the_user_statement_first_witness :
  create_or_get_session 40 91 92 sample_db None (Some "u9") (Some "Dan") =
    Err not_null_violation /\
  create_or_get_session 40 1 92 sample_db (Some "web") (Some "u9") (Some "Dan") =
    Err unique_violation /\
  create_or_get_session 40 91 92 sample_db (Some "web") (Some "u9") (Some "Dan") =
    Err ambiguous_column /\
  create_or_get_session 40 91 92 sample_db (Some "whatsapp") (Some "u1") (Some "Al") =
    Err ambiguous_column.
Proof.
  destruct (create_or_get_session_reports_the_user_statement_first 40 91%N 92%N
              sample_db None (Some "u9") (Some "Dan")) as (_ & _ & _ & Hnull).
  destruct (create_or_get_session_reports_the_user_statement_first 40 1%N 92%N
              sample_db (Some "web") (Some "u9") (Some "Dan")) as (_ & _ & _ & Htaken).
  destruct (create_or_get_session_reports_the_user_statement_first 40 91%N 92%N
              sample_db (Some "web") (Some "u9") (Some "Dan")) as (_ & _ & _ & Hnew).
  destruct (create_or_get_session_reports_the_user_statement_first 40 91%N 92%N
              sample_db (Some "whatsapp") (Some "u1") (Some "Al"))
    as (_ & _ & _ & Hknown).
  split; [| split; [| split]].
  - apply (Hnull eq_refl eq_refl eq_refl). now left.
  - destruct (Htaken eq_refl eq_refl eq_refl) as (_ & H & _).
    apply (H "web" "u9" eq_refl eq_refl); [reflexivity |].
    simpl. now left.
  - destruct (Hnew eq_refl eq_refl eq_refl) as (_ & _ & H).
    apply (H "web" "u9" eq_refl eq_refl).
    right. simpl. intuition discriminate.
  - destruct (Hknown eq_refl eq_refl eq_refl) as (_ & _ & H).
    apply (H "whatsapp" "u1" eq_refl eq_refl).
    left. discriminate.
Defined.

Lemma set_session_category_missing_and_last_write_witness :
  set_session_category 40 sample_db (Some 99%N) (Some "billing") = Ok (false, sample_db) /\
  exists db',
    set_session_category 40 sample_db (Some 11%N) (Some "billing") = Ok (true, db').
Proof.
  destruct (set_session_category_missing_and_last_write 40 sample_db 99%N
              (Some "billing") eq_refl) as [Hmissing _].
  destruct (set_session_category_missing_and_last_write 40 sample_db 11%N
              (Some "billing") eq_refl) as [_ Hpresent].
  split.
  - apply Hmissing. simpl. intuition discriminate.
  - destruct Hpresent as [db' [Hcall _]]; [simpl; auto |].
    exists db'. exact Hcall.
Defined.

Lemma escalate_session_never_returns_false_witness :
  escalate_session 40 24 sample_db (Some 99%N) None = Err foreign_key_violation /\
  exists db', escalate_session 40 24 sample_db None None = Ok (true, db').
Proof.
  destruct escalate_session_never_returns_false as [_ [Hmissing Hnull]].
  assert (Hfresh : ~ In 24%N (map e_id (events sample_db)))
    by (simpl; intuition discriminate).
  split.
  - apply Hmissing; [exact Hfresh |]. simpl. intuition discriminate.
  - eexists. apply Hnull. exact Hfresh.
Defined.

Lemma log_event_null_session_is_orphan_witness :
  exists db',
    log_event 40 24 sample_db None (Some "system") (Some "system") (Some "ping") None =
      Ok (24%N, db') /\
    sessions db' = sessions sample_db.
Proof.
  destruct (log_event_null_session_is_orphan 40 24%N sample_db "system" "system"
              (Some "ping") None) as [db' [Hcall [_ [Hsessions _]]]].
  - simpl. auto 10.
  - simpl. auto 10.
  - simpl. intuition discriminate.
  - exists db'. split; assumption.
Defined.

Lemma agent_takeover_unknown_agent_writes_witness :
  exists db',
    agent_takeover 40 24 sample_db (Some 12%N) (Some "A9") = Ok (false, db') /\
    map s_assigned_agent_id (sessions db') = [None; Some "A9"; None].
Proof.
  eexists. split.
  - apply (agent_takeover_unknown_agent_writes 40 24%N sample_db 12%N "A9").
    + simpl. auto.
    + reflexivity.
    + simpl. intuition discriminate.
    + simpl. intuition discriminate.
  - reflexivity.
Defined.

Lemma agent_takeover_full_counter_raises_witness :
  agent_takeover 40 24
    (set_agents sample_db
       [mk_agent "A1" "Ann" None (Some "online") (Some 2147483647) (Some 0) (Some 1)
          (Some 1)])
    (Some 12%N) (Some "A1") = Err numeric_value_out_of_range.
Proof.
  apply (agent_takeover_full_counter_raises 40 24%N
           (set_agents sample_db
              [mk_agent "A1" "Ann" None (Some "online") (Some 2147483647) (Some 0)
                 (Some 1) (Some 1)])
           12%N "A1"
           (mk_agent "A1" "Ann" None (Some "online") (Some 2147483647) (Some 0) (Some 1)
              (Some 1))).
  - simpl. auto.
  - reflexivity.
  - simpl. intuition discriminate.
  - simpl. auto.
  - reflexivity.
  - left. reflexivity.
Defined.

Lemma log_api_cost_count_edges_witness :
  log_api_cost 50 31 sample_db (Some 11%N) (Some 21%N) (Some "pinecone") None
    (Some 2147483647) (Some 1) (Some 5) = Err numeric_value_out_of_range /\
  exists db',
    log_api_cost 50 31 sample_db (Some 11%N) (Some 21%N) (Some "pinecone") None
      None (Some 1) (Some 5) = Ok (31%N, db').
Proof.
  assert (Hcost : Z.abs 5 < 10000000000) by (simpl; lia).
  split.
  - destruct (log_api_cost_count_edges 50 31%N sample_db (Some 11%N) (Some 21%N)
                "pinecone" None 2147483647 1 5 eq_refl eq_refl eq_refl eq_refl Hcost)
      as [Hsum _].
    apply Hsum. reflexivity.
  - destruct (log_api_cost_count_edges 50 31%N sample_db (Some 11%N) (Some 21%N)
                "pinecone" None 0 1 5 eq_refl eq_refl eq_refl eq_refl Hcost)
      as [_ Hnull].
    eexists. apply Hnull; simpl; auto.
Defined.

(** ** The history after an append *)

Lemma StronglySorted_app_inv {A : Type} (R : A -> A -> Prop) (l1 l2 : list A) :
  StronglySorted R (l1 ++ l2) ->
  StronglySorted R l1 /\ StronglySorted R l2 /\
  (forall x y, In x l1 -> In y l2 -> R x y).
Proof.
  induction l1 as [| a l1 IH]; simpl; intros Hsorted.
  - repeat split; [constructor | assumption | contradiction].
  - inversion Hsorted as [| a' l' Hrest Ha]; subst.
    destruct (IH Hrest) as [H1 [H2 H12]].
    rewrite Forall_forall in Ha.
    repeat split; try assumption.
    + constructor; [assumption |]. apply Forall_forall.
      intros x Hx. apply Ha. apply in_or_app. now left.
    + intros x y [<- | Hx] Hy; [| now apply H12].
      apply Ha. apply in_or_app. now right.
Qed.

Lemma newest_row_is_last (older rows : list event) (e : event) (now : timestamp) :
  e_created_at e = Some now ->
  (forall x, In x older -> exists t, e_created_at x = Some t /\ t < now) ->
  ordered_by_created_at (older ++ [e]) rows ->
  exists first, rows = first ++ [e] /\ ordered_by_created_at older first.
Proof.
  intros Hnow Holder [Hperm Hsorted].
  assert (Hin : In e rows).
  { apply (Permutation_in _ (Permutation_sym Hperm)). apply in_or_app. right. now left. }
  apply in_split in Hin. destruct Hin as [l1 [l2 ->]].
  assert (Hrest : Permutation (l1 ++ l2) older).
  { rewrite <- (app_nil_r older).
    apply Permutation_app_inv with (a := e). exact Hperm. }
  destruct (StronglySorted_app_inv _ _ _ Hsorted) as [Hs1 [Hs2 _]].
  destruct l2 as [| y l2].
  - exists l1. split; [reflexivity |]. rewrite app_nil_r in Hrest. now split.
  - exfalso. inversion Hs2 as [| e' l' _ Hle]; subst.
    rewrite Forall_forall in Hle. specialize (Hle y (or_introl eq_refl)).
    assert (Hy : In y older).
    { apply (Permutation_in _ Hrest). apply in_or_app. right. now left. }
    destruct (Holder y Hy) as [t [Ht Hlt]].
    unfold created_leb in Hle. rewrite Hnow, Ht in Hle. simpl in Hle.
    apply Z.leb_le in Hle. lia.
Qed.

(** X11. Append, then read.  When [log_event] has logged an event for a
    session all of whose earlier events are older than the call, every
    answer to the whole history of that session is an answer to the
    history before the call, followed by the new event; and the answers to
    every other history request are what they were. *)
Theorem history_after_log_event :
  forall now gen db sid p_type p_sender p_content p_metadata id db',
    log_event now gen db (Some sid) p_type p_sender p_content p_metadata = Ok (id, db') ->
    (forall e, In e (events db) -> in_session (Some sid) e = true ->
       exists t, e_created_at e = Some t /\ t < now) ->
    (forall page,
       history_answer db' (Some sid) None (Ok page) ->
       exists older new,
         page = older ++ [new] /\
         h_event_id new = id /\ h_content new = p_content /\
         h_metadata new = p_metadata /\ h_created_at new = Some now /\
         history_answer db (Some sid) None (Ok older)) /\
    (forall other p_limit answer,
       other <> Some sid ->
       (history_answer db' other p_limit answer <->
        history_answer db other p_limit answer)).
Proof.
  intros now gen db sid p_type p_sender p_content p_metadata id db' Hcall Holder.
  apply log_event_inv in Hcall.
  destruct Hcall as [e [-> [Hid [Hsid [Hcontent [Hmeta [Hcreated [_ [_ ->]]]]]]]]].
  split.
  - intros page [rows [Hordered Hpage]]. cbn [events] in Hordered.
    rewrite filter_app in Hordered. simpl in Hordered.
    replace (in_session (Some sid) e) with true in Hordered
      by (unfold in_session; rewrite Hsid; simpl; now rewrite N.eqb_refl).
    apply (newest_row_is_last _ _ _ now Hcreated) in Hordered.
    + destruct Hordered as [first [-> Hfirst]].
      simpl in Hpage. injection Hpage as ->.
      exists (map history_of first), (history_of e).
      rewrite map_app. repeat split; try assumption.
      exists first. split; [exact Hfirst | reflexivity].
    + intros x Hx. apply filter_In in Hx. destruct Hx as [Hx Hs]. now apply Holder.
  - intros other p_limit answer Hother.
    assert (Hsame : filter (in_session other) (events db ++ [e]) =
                    filter (in_session other) (events db)).
    { rewrite filter_app. simpl.
      replace (in_session other e) with false; [now rewrite app_nil_r |].
      unfold in_session. rewrite Hsid. destruct other as [o |]; [| reflexivity].
      simpl. symmetry. apply N.eqb_neq. intros E. apply Hother. now rewrite E. }
    unfold history_answer. cbn [events]. rewrite Hsame. reflexivity.
Qed.

Lemma history_after_log_event_witness :
  exists older new,
    get_session_history
      (db_after sample_db
         (log_event 40 24 sample_db (Some 11%N) (Some "agent_message") (Some "agent")
            (Some "on it") None))
      (Some 11%N) None = Ok (older ++ [new]) /\
    h_event_id new = 24%N /\
    history_answer sample_db (Some 11%N) None (Ok older).
Proof.
  destruct (log_event 40 24 sample_db (Some 11%N) (Some "agent_message") (Some "agent")
              (Some "on it") None) as [[id db'] | e] eqn:Hcall.
  - destruct (history_after_log_event 40 24%N sample_db 11%N (Some "agent_message")
                (Some "agent") (Some "on it") None id db' Hcall) as [Hlast _].
    + intros e [<- | [<- | [<- | []]]] _; simpl; eexists; split; try reflexivity; lia.
    + destruct (Hlast (map history_of
                         (order_by_created_at
                            (filter (in_session (Some 11%N)) (events db')))))
        as [older [new [Hpage [Hid [_ [_ [_ Holder]]]]]]].
      * eexists. split; [apply order_by_created_at_ordered | reflexivity].
      * exists older, new. split; [| split; [| exact Holder]].
        -- cbn [db_after]. unfold get_session_history. cbn [limit bind].
           now rewrite Hpage.
        -- rewrite Hid. vm_compute in Hcall. now injection Hcall as <- _.
  - vm_compute in Hcall. discriminate Hcall.
Defined.

(** X12. An escalation can give a user a second open session.  If a user
    has an active or escalated session and another session that is
    neither, then escalating the other one succeeds, and afterwards both
    are among the user's open sessions. *)
Theorem escalate_session_opens_second_session :
  forall now gen db reason user_id a b,
    In a (open_sessions db user_id) ->
    In b (sessions db) ->
    s_user_id b = Some user_id ->
    open_status (s_status b) = false ->
    s_id a <> s_id b ->
    ~ In gen (map e_id (events db)) ->
    exists db',
      escalate_session now gen db (Some (s_id b)) reason = Ok (true, db') /\
      In a (open_sessions db' user_id) /\
      In (escalated now b) (open_sessions db' user_id) /\
      ~ one_open_session_per_user db'.
Proof.
  intros now gen db reason user_id a b Ha Hb Huser Hclosed Hdiff Hfresh.
  eexists.
  rewrite (escalate_session_ok now gen db (s_id b) reason
             (in_map s_id _ _ Hb) Hfresh).
  split; [reflexivity |].
  unfold open_sessions in *. cbn [sessions].
  apply filter_In in Ha. destruct Ha as [Ha Hopen].
  assert (Ha' : In a (filter (open_session_of user_id)
                        (update_where (fun s => uuid_is (s_id s) (Some (s_id b)))
                           (escalated now) (sessions db)))).
  { apply filter_In. split; [| exact Hopen].
    apply update_where_In. exists a. split; [exact Ha |].
    simpl. now rewrite (proj2 (N.eqb_neq _ _) Hdiff). }
  assert (Hb' : In (escalated now b)
                  (filter (open_session_of user_id)
                     (update_where (fun s => uuid_is (s_id s) (Some (s_id b)))
                        (escalated now) (sessions db)))).
  { apply filter_In. split.
    - apply update_where_In. exists b. split; [exact Hb |].
      simpl. now rewrite N.eqb_refl.
    - unfold open_session_of. cbn [s_user_id s_status escalated].
      rewrite Huser. simpl. now rewrite N.eqb_refl. }
  repeat split; try assumption.
  intros Hone. apply Hdiff.
  apply (Hone user_id a (escalated now b)); assumption.
Qed.

Lemma escalate_session_opens_second_session_witness :
  exists db',
    escalate_session 40 24
      (set_sessions sample_db
         [active_session;
          mk_session 14 (Some 1%N) "whatsapp" None None (Some "closed") None None None
            (Some 3) (Some 4)])
      (Some 14%N) None = Ok (true, db') /\
    ~ one_open_session_per_user db'.
Proof.
  destruct (escalate_session_opens_second_session 40 24%N
              (set_sessions sample_db
                 [active_session;
                  mk_session 14 (Some 1%N) "whatsapp" None None (Some "closed") None None
                    None (Some 3) (Some 4)])
              None 1%N active_session
              (mk_session 14 (Some 1%N) "whatsapp" None None (Some "closed") None None
                 None (Some 3) (Some 4)))
    as [db' [Hcall [_ [_ Hbroken]]]].
  - simpl. auto.
  - simpl. auto.
  - reflexivity.
  - reflexivity.
  - discriminate.
  - simpl. intuition discriminate.
  - exists db'. split; assumption.
Defined.

(** ** The real-time metrics *)

Lemma count_int_ok (n : nat) :
  Z.of_nat n <= int4_max -> count_int n = Ok (Z.of_nat n).
Proof.
  intros Hle. unfold count_int, in_int4.
  replace (int4_min <=? Z.of_nat n) with true
    by (symmetry; apply Z.leb_le; unfold int4_min; lia).
  now rewrite (proj2 (Z.leb_le _ _) Hle).
Qed.

Lemma count_int_inv (n : nat) (z : Z) :
  count_int n = Ok z -> z = Z.of_nat n /\ Z.of_nat n <= int4_max.
Proof.
  unfold count_int, in_int4. intros H.
  destruct (int4_min <=? Z.of_nat n); [| discriminate].
  destruct (Z.of_nat n <=? int4_max) eqn:Hle; [| discriminate].
  injection H as <-. split; [reflexivity | now apply Z.leb_le].
Qed.

Lemma filter_length_le {A : Type} (p : A -> bool) (l : list A) :
  Z.of_nat (List.length (filter p l)) <= Z.of_nat (List.length l).
Proof.
  induction l as [| a l IH]; simpl; [lia |].
  destruct (p a); simpl List.length; lia.
Qed.

(** Rewriting the one row that has a key moves a count by what the row
    was and what it has become. *)
Lemma count_update_where {A K : Type} (key : A -> K) (p q : A -> bool) (f : A -> A)
    (l : list A) (s : A) :
  NoDup (map key l) -> In s l ->
  (forall r, p r = true <-> key r = key s) ->
  Z.of_nat (List.length (filter q (update_where p f l))) =
  Z.of_nat (List.length (filter q l)) - Z.b2z (q s) + Z.b2z (q (f s)).
Proof.
  intros Hnodup Hin Hp.
  induction l as [| r rest IH]; [contradiction |].
  simpl in Hnodup. inversion Hnodup as [| k ks Hfresh Hrest]; subst.
  destruct Hin as [-> | Hin].
  - assert (Hnone : update_where p f rest = rest).
    { apply update_where_none. intros r Hr.
      destruct (p r) eqn:E; [| reflexivity].
      exfalso. apply Hfresh. apply Hp in E. rewrite <- E. now apply in_map. }
    change (update_where p f (s :: rest))
      with ((if p s then f s else s) :: update_where p f rest).
    rewrite Hnone, (proj2 (Hp s) eq_refl). simpl.
    destruct (q s), (q (f s)); simpl List.length; simpl Z.b2z; lia.
  - assert (Hr : p r = false).
    { destruct (p r) eqn:E; [| reflexivity].
      exfalso. apply Hfresh. apply Hp in E. rewrite E. now apply in_map. }
    change (update_where p f (r :: rest))
      with ((if p r then f r else r) :: update_where p f rest).
    rewrite Hr. simpl. specialize (IH Hrest Hin).
    destruct (q r); simpl List.length; lia.
Qed.

Lemma count_appended {A : Type} (q : A -> bool) (l : list A) (x : A) :
  Z.of_nat (List.length (filter q (l ++ [x]))) =
  Z.of_nat (List.length (filter q l)) + Z.b2z (q x).
Proof.
  rewrite filter_app, length_app. simpl.
  destruct (q x); simpl List.length; simpl Z.b2z; lia.
Qed.

Lemma get_realtime_metrics_inv now db decisions m :
  get_realtime_metrics now db decisions = Ok m ->
  m_active_sessions m = Z.of_nat (List.length (filter is_active (sessions db))) /\
  m_messages_last_hour m =
    Z.of_nat (List.length (filter (fun e => newer_than (now - hour) (e_created_at e))
                             (events db))) /\
  m_escalations_pending m = Z.of_nat (List.length (filter is_pending (sessions db))) /\
  m_agents_online m = Z.of_nat (List.length (filter is_online (agents db))) /\
  avg_int (map d_response_time_ms
             (filter (fun d => newer_than (now - hour) (d_created_at d)) decisions)) =
    Ok (m_avg_response_time_ms m).
Proof.
  unfold get_realtime_metrics. intros H.
  step_ok H. rename a into active. apply count_int_inv in E. destruct E as [-> _].
  step_ok H. rename a into messages. apply count_int_inv in E. destruct E as [-> _].
  step_ok H. rename a into pending. apply count_int_inv in E. destruct E as [-> _].
  step_ok H. rename a into online. apply count_int_inv in E. destruct E as [-> _].
  step_ok H. rename a into response_time.
  step_ok H. apply int4_arg_ok in E0. subst a.
  injection H as <-. cbn. repeat split; assumption.
Qed.

Lemma avg_int_in_range (values : list (option Z)) (r : option Z) :
  avg_int values = Ok r -> int4_arg r = Ok r.
Proof.
  unfold avg_int. destruct (non_null values) as [| v rest].
  - intros H. now injection H as <-.
  - intros H. pose proof (int4_arg_ok _ _ H) as ->. exact H.
Qed.

Lemma get_realtime_metrics_returns now db decisions avg :
  Z.of_nat (List.length (sessions db)) <= int4_max ->
  Z.of_nat (List.length (events db)) <= int4_max ->
  Z.of_nat (List.length (agents db)) <= int4_max ->
  avg_int (map d_response_time_ms
             (filter (fun d => newer_than (now - hour) (d_created_at d)) decisions)) =
    Ok avg ->
  get_realtime_metrics now db decisions =
  Ok (mk_metrics
        (Z.of_nat (List.length (filter is_active (sessions db))))
        (Z.of_nat (List.length (filter (fun e => newer_than (now - hour) (e_created_at e))
                                  (events db))))
        (Z.of_nat (List.length (filter is_pending (sessions db))))
        (Z.of_nat (List.length (filter is_online (agents db))))
        avg).
Proof.
  intros Hsessions Hevents Hagents Havg. unfold get_realtime_metrics.
  rewrite !count_int_ok, Havg; cbn [bind].
  - now rewrite (avg_int_in_range _ _ Havg).
  - pose proof (filter_length_le is_online (agents db)). lia.
  - pose proof (filter_length_le is_pending (sessions db)). lia.
  - pose proof (filter_length_le (fun e => newer_than (now - hour) (e_created_at e))
                  (events db)). lia.
  - pose proof (filter_length_le is_active (sessions db)). lia.
Qed.

(** X13. The real-time metrics follow a session through escalation and
    takeover.  Escalating an active, unassigned session moves it from
    [active_sessions] to [escalations_pending]; the takeover by an online
    agent takes it out of [escalations_pending] again without returning it
    to [active_sessions], and takes the agent out of [agents_online].
    [messages_last_hour] has grown by the two system events the calls
    logged, as far as they fall into the hour. *)
Theorem realtime_metrics_follow_escalation_and_takeover :
  forall t now1 now2 gen1 gen2 db decisions s a reason m,
    NoDup (map s_id (sessions db)) ->
    NoDup (map a_id (agents db)) ->
    In s (sessions db) -> s_status s = Some "active" -> s_assigned_agent_id s = None ->
    In a (agents db) -> a_status a = Some "online" -> room 1 a ->
    fits 100 (Some (a_id a)) = true ->
    ~ In gen1 (map e_id (events db)) -> ~ In gen2 (map e_id (events db)) ->
    gen1 <> gen2 ->
    Z.of_nat (List.length (sessions db)) <= int4_max ->
    Z.of_nat (List.length (events db)) + 2 <= int4_max ->
    Z.of_nat (List.length (agents db)) <= int4_max ->
    get_realtime_metrics t db decisions = Ok m ->
    exists db1 db2 m1 m2,
      escalate_session now1 gen1 db (Some (s_id s)) reason = Ok (true, db1) /\
      agent_takeover now2 gen2 db1 (Some (s_id s)) (Some (a_id a)) = Ok (true, db2) /\
      get_realtime_metrics t db1 decisions = Ok m1 /\
      get_realtime_metrics t db2 decisions = Ok m2 /\
      m_active_sessions m1 = m_active_sessions m - 1 /\
      m_escalations_pending m1 = m_escalations_pending m + 1 /\
      m_agents_online m1 = m_agents_online m /\
      m_active_sessions m2 = m_active_sessions m - 1 /\
      m_escalations_pending m2 = m_escalations_pending m /\
      m_agents_online m2 = m_agents_online m - 1 /\
      m_messages_last_hour m2 =
        m_messages_last_hour m + Z.b2z (t - hour <? now1) + Z.b2z (t - hour <? now2) /\
      m_avg_response_time_ms m2 = m_avg_response_time_ms m.
Proof.
  intros t now1 now2 gen1 gen2 db decisions s a reason m
    Hsessions Hagents Hs Hstatus Hunassigned Ha Honline Hroom Hfit Hgen1 Hgen2 Hgen
    Hsize_s Hsize_e Hsize_a Hm.
  apply get_realtime_metrics_inv in Hm.
  destruct Hm as [Hactive [Hmessages [Hpending [Hon Havg]]]].
  set (hit := fun r : session => uuid_is (s_id r) (Some (s_id s))).
  set (sessions1 := update_where hit (escalated now1) (sessions db)).
  set (sessions2 := update_where hit (assigned (Some (a_id a)) now2) sessions1).
  set (event1 := mk_event gen1 (Some (s_id s)) "escalation" "system" reason
                   (Some empty_object) (Some now1)).
  set (event2 := mk_event gen2 (Some (s_id s)) "takeover" "system"
                   (Some "Agent took over conversation")
                   (Some (jsonb_build_object "agent_id" (Some (a_id a)))) (Some now2)).
  set (db1 := mk_db (users db) sessions1 (events db ++ [event1]) (conversation_costs db)
                (agents db)).
  set (agents2 := update_where (fun r => str_is (a_id r) (Some (a_id a))) (busy now2)
                    (agents db)).
  set (db2 := mk_db (users db) sessions2 ((events db ++ [event1]) ++ [event2])
                (conversation_costs db) agents2).
  assert (Hhit : forall r, hit r = true <-> s_id r = s_id s).
  { intros r. unfold hit. simpl. apply N.eqb_eq. }
  assert (Hkeys1 : map s_id sessions1 = map s_id (sessions db)).
  { apply update_where_keys. intros r. reflexivity. }
  assert (Hs1 : In (escalated now1 s) sessions1).
  { apply update_where_In. exists s. split; [exact Hs |].
    now rewrite (proj2 (Hhit s) eq_refl). }
  assert (Hescalate :
            escalate_session now1 gen1 db (Some (s_id s)) reason = Ok (true, db1)).
  { apply escalate_session_ok; [now apply in_map | exact Hgen1]. }
  assert (Htakeover :
            agent_takeover now2 gen2 db1 (Some (s_id s)) (Some (a_id a)) = Ok (true, db2)).
  { rewrite (agent_takeover_ok now2 gen2 db1 (s_id s) (a_id a)).
    - cbn [agents db1]. rewrite agent_found by now apply in_map. reflexivity.
    - cbn [sessions db1]. rewrite Hkeys1. now apply in_map.
    - exact Hfit.
    - cbn [events db1]. rewrite map_app. intros Hin. apply in_app_or in Hin.
      destruct Hin as [Hin | [Heq | []]]; [now apply Hgen2 | now apply Hgen].
    - cbn [agents db1]. intros a' Ha' Hid.
      replace a' with a; [exact Hroom |].
      apply (NoDup_map_injective a_id (agents db)); auto. }
  assert (Hcount1 : forall q,
            Z.of_nat (List.length (filter q sessions1)) =
            Z.of_nat (List.length (filter q (sessions db))) - Z.b2z (q s) +
            Z.b2z (q (escalated now1 s))).
  { intros q. now apply (count_update_where s_id). }
  assert (Hcount2 : forall q,
            Z.of_nat (List.length (filter q sessions2)) =
            Z.of_nat (List.length (filter q sessions1)) - Z.b2z (q (escalated now1 s)) +
            Z.b2z (q (assigned (Some (a_id a)) now2 (escalated now1 s)))).
  { intros q. apply (count_update_where s_id); [now rewrite Hkeys1 | exact Hs1 |].
    intros r. apply Hhit. }
  assert (Hcount_a : Z.of_nat (List.length (filter is_online agents2)) =
                     Z.of_nat (List.length (filter is_online (agents db))) -
                     Z.b2z (is_online a) + Z.b2z (is_online (busy now2 a))).
  { apply (count_update_where a_id); [exact Hagents | exact Ha |].
    intros r. simpl. apply String.eqb_eq. }
  assert (Hlen1 : List.length sessions1 = List.length (sessions db))
    by apply length_map.
  assert (Hlen2 : List.length sessions2 = List.length (sessions db))
    by (unfold sessions2; rewrite <- Hlen1; apply length_map).
  assert (Hlen_a : List.length agents2 = List.length (agents db))
    by apply length_map.
  assert (Hs_active : is_active s = true) by (unfold is_active; now rewrite Hstatus).
  assert (Hs_pending : is_pending s = false) by (unfold is_pending; now rewrite Hstatus).
  assert (Hs1_pending : is_pending (escalated now1 s) = true)
    by (unfold is_pending; cbn; now rewrite Hunassigned).
  assert (Ha_online : is_online a = true) by (unfold is_online; now rewrite Honline).
  exists db1, db2.
  eexists. eexists.
  split; [exact Hescalate |]. split; [exact Htakeover |].
  split.
  { apply get_realtime_metrics_returns; cbn [sessions events agents db1];
      try rewrite Hlen1; try rewrite length_app; simpl List.length; try lia.
    exact Havg. }
  split.
  { apply get_realtime_metrics_returns; cbn [sessions events agents db2];
      try rewrite Hlen2; try rewrite Hlen_a; try rewrite !length_app;
      simpl List.length; try lia.
    exact Havg. }
  cbn [m_active_sessions m_escalations_pending m_agents_online m_messages_last_hour
       m_avg_response_time_ms sessions events agents db1 db2].
  rewrite Hactive, Hpending, Hon, Hmessages, Hcount_a, !Hcount2, !Hcount1, !count_appended.
  rewrite Hs_active, Hs_pending, Hs1_pending, Ha_online.
  cbn. repeat split; lia.
Qed.

Lemma realtime_metrics_follow_escalation_and_takeover_witness :
  exists db1 db2 m1 m2,
    escalate_session 25 24 sample_db (Some 11%N) None = Ok (true, db1) /\
    agent_takeover 26 25 db1 (Some 11%N) (Some "A1") = Ok (true, db2) /\
    get_realtime_metrics 30 db1 sample_decisions = Ok m1 /\
    get_realtime_metrics 30 db2 sample_decisions = Ok m2 /\
    m_active_sessions m1 = 1 - 1 /\
    m_escalations_pending m1 = 1 + 1 /\
    m_agents_online m1 = 2 /\
    m_active_sessions m2 = 1 - 1 /\
    m_escalations_pending m2 = 1 /\
    m_agents_online m2 = 2 - 1 /\
    m_messages_last_hour m2 = 3 + 1 + 1 /\
    m_avg_response_time_ms m2 = Some 1001.
Proof.
  destruct sample_db_primary_keys as [_ [Hsessions [_ [_ Hagents]]]].
  apply (realtime_metrics_follow_escalation_and_takeover 30 25 26 24%N 25%N sample_db
           sample_decisions active_session ann None (mk_metrics 1 3 1 2 (Some 1001)));
    try reflexivity; try assumption.
  - simpl. auto.
  - simpl. auto.
  - unfold room, counter_room, int4_min, int4_max. simpl. lia.
  - simpl. intuition discriminate.
  - simpl. intuition discriminate.
  - discriminate.
  - unfold int4_max. simpl. lia.
  - unfold int4_max. simpl. lia.
  - unfold int4_max. simpl. lia.
Defined.

Lemma round_div_between (n d lo hi : Z) :
  0 < d -> lo * d <= n <= hi * d -> lo <= round_div n d <= hi.
Proof.
  intros Hd [Hlo Hhi]. unfold round_div.
  destruct (Z.lt_trichotomy n 0) as [Hneg | [-> | Hpos]].
  - rewrite (Z.sgn_neg n Hneg), (Z.abs_neq n) by lia.
    assert (Hq : - hi <= (2 * - n + d) / (2 * d) <= - lo).
    { split.
      - apply Z.div_le_lower_bound; nia.
      - apply Z.lt_succ_r. apply Z.div_lt_upper_bound; nia. }
    lia.
  - simpl. nia.
  - rewrite (Z.sgn_pos n Hpos), (Z.abs_eq n) by lia.
    assert (Hq : lo <= (2 * n + d) / (2 * d) <= hi).
    { split.
      - apply Z.div_le_lower_bound; nia.
      - apply Z.lt_succ_r. apply Z.div_lt_upper_bound; nia. }
    lia.
Qed.

Lemma sum_z_between (values : list Z) (lo hi : Z) :
  (forall v, In v values -> lo <= v <= hi) ->
  lo * Z.of_nat (List.length values) <= sum_z values <= hi * Z.of_nat (List.length values).
Proof.
  induction values as [| v rest IH]; intros Hall.
  - simpl. lia.
  - change (sum_z (v :: rest)) with (v + sum_z rest).
    change (List.length (v :: rest)) with (S (List.length rest)).
    specialize (IH (fun x Hx => Hall x (or_intror Hx))).
    specialize (Hall v (or_introl eq_refl)). nia.
Qed.

Lemma non_null_In {A : Type} (values : list (option A)) (x : A) :
  In x (non_null values) <-> In (Some x) values.
Proof.
  unfold non_null. rewrite in_flat_map. split.
  - intros [[y |] [Hin Hx]]; simpl in Hx; [| contradiction].
    destruct Hx as [-> | []]. exact Hin.
  - intros Hin. exists (Some x). split; [exact Hin | now left].
Qed.

Lemma avg_int_between (values : list (option Z)) (lo hi : Z) :
  (forall v, In v (non_null values) -> lo <= v <= hi) ->
  non_null values <> [] ->
  lo <= round_div (sum_z (non_null values)) (Z.of_nat (List.length (non_null values)))
     <= hi.
Proof.
  intros Hall Hsome. apply round_div_between.
  - destruct (non_null values); [contradiction | simpl; lia].
  - now apply sum_z_between.
Qed.

(** X14. [avg_response_time_ms].  On tables of fewer than 2^31 rows
    [get_realtime_metrics] returns; the average is NULL exactly when no
    decision of the last hour has a response time, and otherwise lies
    between the smallest and the largest of those response times. *)
Theorem avg_response_time_between_extremes :
  forall now db decisions,
    Z.of_nat (List.length (sessions db)) <= int4_max ->
    Z.of_nat (List.length (events db)) <= int4_max ->
    Z.of_nat (List.length (agents db)) <= int4_max ->
    (forall d v, In d decisions -> d_response_time_ms d = Some v -> in_int4 v = true) ->
    exists m,
      get_realtime_metrics now db decisions = Ok m /\
      let times :=
        non_null
          (map d_response_time_ms
             (filter (fun d => newer_than (now - hour) (d_created_at d)) decisions)) in
      (m_avg_response_time_ms m = None <-> times = []) /\
      (forall avg lo hi,
         m_avg_response_time_ms m = Some avg ->
         (forall v, In v times -> lo <= v <= hi) ->
         lo <= avg <= hi).
Proof.
  intros now db decisions Hsessions Hevents Hagents Hint.
  set (values := map d_response_time_ms
                   (filter (fun d => newer_than (now - hour) (d_created_at d)) decisions)).
  assert (Hrange : forall v, In v (non_null values) -> int4_min <= v <= int4_max).
  { intros v Hv. apply non_null_In in Hv. unfold values in Hv.
    apply in_map_iff in Hv. destruct Hv as [d [Hd Hin]].
    apply filter_In in Hin. destruct Hin as [Hin _].
    specialize (Hint d v Hin Hd). unfold in_int4 in Hint.
    apply andb_prop in Hint. destruct Hint as [H1 H2].
    apply Z.leb_le in H1. apply Z.leb_le in H2. now split. }
  destruct (non_null values) as [| v rest] eqn:Hpresent.
  - exists (mk_metrics
              (Z.of_nat (List.length (filter is_active (sessions db))))
              (Z.of_nat (List.length (filter (fun e => newer_than (now - hour) (e_created_at e))
                                        (events db))))
              (Z.of_nat (List.length (filter is_pending (sessions db))))
              (Z.of_nat (List.length (filter is_online (agents db))))
              None).
    split.
    + apply get_realtime_metrics_returns; try assumption.
      fold values. unfold avg_int. now rewrite Hpresent.
    + cbv zeta. cbn [m_avg_response_time_ms]. split; [tauto |].
      intros avg lo hi Havg. discriminate Havg.
  - set (avg := round_div (sum_z (non_null values))
                  (Z.of_nat (List.length (non_null values)))).
    assert (Hbetween : forall lo hi,
              (forall x, In x (non_null values) -> lo <= x <= hi) -> lo <= avg <= hi).
    { intros lo hi Hall. apply avg_int_between; [exact Hall |].
      rewrite Hpresent. discriminate. }
    exists (mk_metrics
              (Z.of_nat (List.length (filter is_active (sessions db))))
              (Z.of_nat (List.length (filter (fun e => newer_than (now - hour) (e_created_at e))
                                        (events db))))
              (Z.of_nat (List.length (filter is_pending (sessions db))))
              (Z.of_nat (List.length (filter is_online (agents db))))
              (Some avg)).
    split.
    + apply get_realtime_metrics_returns; try assumption.
      fold values. unfold avg_int. rewrite Hpresent. rewrite <- Hpresent. fold avg.
      apply int4_arg_in_range. unfold in_int4.
      assert (Havg : int4_min <= avg <= int4_max)
        by (apply Hbetween; rewrite Hpresent; exact Hrange).
      apply andb_true_intro. split; apply Z.leb_le; lia.
    + cbv zeta. cbn [m_avg_response_time_ms]. split.
      * split; discriminate.
      * intros avg' lo hi Havg Hall. injection Havg as <-.
        apply Hbetween. rewrite Hpresent. exact Hall.
Qed.

Lemma avg_response_time_between_extremes_witness :
  exists m,
    get_realtime_metrics 30 sample_db sample_decisions = Ok m /\
    m_avg_response_time_ms m = Some 1001.
Proof.
  destruct (avg_response_time_between_extremes 30 sample_db sample_decisions)
    as [m [Hcall _]].
  - unfold int4_max. simpl. lia.
  - unfold int4_max. simpl. lia.
  - unfold int4_max. simpl. lia.
  - intros d v [<- | [<- | []]] Hv; injection Hv as <-; reflexivity.
  - exists m. split; [exact Hcall |].
    vm_compute in Hcall. now injection Hcall as <-.
Defined.

(** ** The daily statistics *)

Lemma left_join_cons {A B : Type} (on : A -> B -> bool) (a : A) (l : list A) (r : list B) :
  left_join on (a :: l) r = left_join on [a] r ++ left_join on l r.
Proof. unfold left_join. simpl. now rewrite app_nil_r. Qed.

Lemma left_join_one_fst {A B : Type} (on : A -> B -> bool) (a : A) (r : list B) (x : A * option B) :
  In x (left_join on [a] r) -> fst x = a.
Proof.
  unfold left_join. simpl. rewrite app_nil_r.
  destruct (filter (on a) r) as [| b rest].
  - intros [<- | []]. reflexivity.
  - intros Hin. change (In x (map (fun b : B => (a, Some b)) (b :: rest))) in Hin.
    apply in_map_iff in Hin. destruct Hin as [c [<- _]]. reflexivity.
Qed.

Lemma left_join_one_inhabited {A B : Type} (on : A -> B -> bool) (a : A) (r : list B) :
  exists x, In x (left_join on [a] r).
Proof.
  unfold left_join. simpl. rewrite app_nil_r.
  destruct (filter (on a) r) as [| b rest].
  - exists (a, None). now left.
  - exists (a, Some b). now left.
Qed.

Lemma filter_all {A : Type} (p : A -> bool) (l : list A) :
  (forall x, In x l -> p x = true) -> filter p l = l.
Proof.
  induction l as [| a l IH]; intros Hall; simpl; [reflexivity |].
  rewrite (Hall a (or_introl eq_refl)), IH; [reflexivity |].
  intros x Hx. apply Hall. now right.
Qed.

Lemma filter_none {A : Type} (p : A -> bool) (l : list A) :
  (forall x, In x l -> p x = false) -> filter p l = [].
Proof.
  induction l as [| a l IH]; intros Hall; simpl; [reflexivity |].
  rewrite (Hall a (or_introl eq_refl)), IH; [reflexivity |].
  intros x Hx. apply Hall. now right.
Qed.

(** A condition on the left row can be applied before the join. *)
Lemma filter_left_join {A B : Type} (on : A -> B -> bool) (p : A -> bool)
    (l : list A) (r : list B) :
  filter (fun x => p (fst x)) (left_join on l r) = left_join on (filter p l) r.
Proof.
  induction l as [| a l IH]; [reflexivity |].
  rewrite left_join_cons, filter_app, IH. simpl.
  destruct (p a) eqn:Hp.
  - rewrite (left_join_cons on a (filter p l)). f_equal.
    apply filter_all. intros x Hx.
    now rewrite (left_join_one_fst _ _ _ _ Hx).
  - rewrite filter_none; [reflexivity |]. intros x Hx.
    now rewrite (left_join_one_fst _ _ _ _ Hx).
Qed.

Lemma left_join_fst {A B : Type} (on : A -> B -> bool) (l : list A) (r : list B) (a : A) :
  In a l <-> exists x, In x (left_join on l r) /\ fst x = a.
Proof.
  induction l as [| b l IH].
  - simpl. split; [contradiction | intros [x [[] _]]].
  - rewrite left_join_cons. split.
    + intros [-> | Hin].
      * destruct (left_join_one_inhabited on a r) as [x Hx].
        exists x. split; [apply in_or_app; now left |].
        now apply left_join_one_fst in Hx.
      * apply IH in Hin. destruct Hin as [x [Hx Hfst]].
        exists x. split; [apply in_or_app; now right | exact Hfst].
    + intros [x [Hx Hfst]]. apply in_app_or in Hx. destruct Hx as [Hx | Hx].
      * left. apply left_join_one_fst in Hx. congruence.
      * right. apply IH. now exists x.
Qed.

(** [COUNT(DISTINCT CASE WHEN c THEN s.id END)] over the joined rows counts
    the sessions, not the rows. *)
Lemma count_distinct_join {B : Type} (on : session -> B -> bool) (c : session -> bool)
    (l : list session) (r : list B) :
  NoDup (map s_id l) ->
  count_distinct (map (fun x => id_when c (fst x)) (left_join on l r)) =
  List.length (filter c l).
Proof.
  intros Hnodup. unfold count_distinct.
  rewrite <- (length_map s_id (filter c l)).
  apply Permutation_length. apply NoDup_Permutation.
  - apply NoDup_nodup.
  - now apply NoDup_map_filter.
  - intros id. rewrite nodup_In, non_null_In, in_map_iff. split.
    + intros [x [Hid Hx]]. unfold id_when in Hid.
      destruct (c (fst x)) eqn:Hc; [| discriminate]. injection Hid as <-.
      apply in_map. apply filter_In. split; [| exact Hc].
      apply (left_join_fst on l r). now exists x.
    + intros Hin. apply in_map_iff in Hin. destruct Hin as [s [<- Hs]].
      apply filter_In in Hs. destruct Hs as [Hs Hc].
      apply (left_join_fst on l r) in Hs. destruct Hs as [x [Hx <-]].
      exists x. split; [| exact Hx]. unfold id_when. now rewrite Hc.
Qed.

Lemma non_null_app {A : Type} (l1 l2 : list (option A)) :
  non_null (l1 ++ l2) = non_null l1 ++ non_null l2.
Proof. unfold non_null. apply flat_map_app. Qed.

Lemma sum_z_app (l1 l2 : list Z) : sum_z (l1 ++ l2) = sum_z l1 + sum_z l2.
Proof.
  induction l1 as [| a l1 IH]; simpl; [reflexivity |].
  unfold sum_z in *. simpl. rewrite IH. lia.
Qed.

Lemma or_zero_sum_of (values : list (option Z)) :
  or_zero (sum_of values) = sum_z (non_null values).
Proof.
  unfold or_zero, sum_of. destruct (non_null values); reflexivity.
Qed.

Lemma non_null_joined_costs (s : session) (costs : list conversation_cost) :
  non_null (map (fun x : session * option conversation_cost => option_map c_cost_usd (snd x))
              (left_join cost_of [s] costs)) =
  map c_cost_usd (filter (cost_of s) costs).
Proof.
  unfold left_join. cbn [flat_map]. rewrite app_nil_r.
  destruct (filter (cost_of s) costs) as [| c rest]; [reflexivity |].
  cbv beta iota. generalize (c :: rest). intros l.
  induction l as [| x l IH]; [reflexivity |].
  unfold non_null in *. simpl. now rewrite IH.
Qed.

Lemma sum_filter_orb_disjoint {A : Type} (f : A -> Z) (p q : A -> bool) (l : list A) :
  (forall x, In x l -> p x = true -> q x = false) ->
  sum_z (map f (filter (fun x => p x || q x) l)) =
  sum_z (map f (filter p l)) + sum_z (map f (filter q l)).
Proof.
  induction l as [| a l IH]; intros Hdisjoint; [reflexivity |].
  specialize (IH (fun x Hx => Hdisjoint x (or_intror Hx))).
  specialize (Hdisjoint a (or_introl eq_refl)).
  simpl. destruct (p a) eqn:Hp.
  - rewrite (Hdisjoint eq_refl). simpl. unfold sum_z in *. simpl. rewrite IH. lia.
  - simpl. destruct (q a); simpl; unfold sum_z in *; simpl; rewrite IH; lia.
Qed.

(** The sum over the joined rows takes every cost record of the sessions
    once. *)
Lemma joined_costs_once (l : list session) (costs : list conversation_cost) :
  NoDup (map s_id l) ->
  sum_z (non_null (map (fun x : session * option conversation_cost =>
                          option_map c_cost_usd (snd x))
                     (left_join cost_of l costs))) =
  sum_z (map c_cost_usd (filter (fun c => existsb (fun s => cost_of s c) l) costs)).
Proof.
  induction l as [| s l IH]; intros Hnodup.
  - simpl. rewrite filter_none; [reflexivity | reflexivity].
  - simpl in Hnodup. inversion Hnodup as [| k ks Hfresh Hrest]; subst.
    rewrite left_join_cons, map_app, non_null_app, sum_z_app.
    rewrite non_null_joined_costs, (IH Hrest).
    symmetry. apply (sum_filter_orb_disjoint c_cost_usd (cost_of s)).
    intros c _ Hc. unfold cost_of in Hc.
    destruct (c_session_id c) as [v |] eqn:Hv; [| discriminate].
    apply N.eqb_eq in Hc. subst v.
    destruct (existsb (fun s0 => cost_of s0 c) l) eqn:E; [| reflexivity].
    exfalso. apply existsb_exists in E. destruct E as [s' [Hs' Hc']].
    unfold cost_of in Hc'. rewrite Hv in Hc'. apply N.eqb_eq in Hc'.
    apply Hfresh. rewrite Hc'. now apply in_map.
Qed.

Lemma ratio_none (n d : Z) : 0 <= d -> (ratio n d = None <-> d = 0).
Proof.
  intros Hd. unfold ratio. destruct (d =? 0) eqn:E.
  - apply Z.eqb_eq in E. tauto.
  - apply Z.eqb_neq in E. split; [discriminate | contradiction].
Qed.

Lemma get_daily_stats_value db d :
  NoDup (map s_id (sessions db)) ->
  Z.of_nat (List.length (sessions db)) <= int4_max ->
  get_daily_stats db (Some d) =
  let day := filter (created_on (Some d)) (sessions db) in
  let resolved := Z.of_nat (List.length (filter ai_resolved_session day)) in
  let cost := sum_z (map c_cost_usd
                       (filter (fun c => existsb (fun s => cost_of s c) day)
                          (conversation_costs db))) in
  Ok (mk_daily (Z.of_nat (List.length day)) resolved
        (Z.of_nat (List.length (filter was_escalated day)))
        (ratio (resolved * 10000) (Z.of_nat (List.length day)))
        cost
        (ratio cost (Z.of_nat (List.length day) * 100))).
Proof.
  intros Hnodup Hsize. cbv zeta.
  set (day := filter (created_on (Some d)) (sessions db)).
  assert (Hday : NoDup (map s_id day)) by now apply NoDup_map_filter.
  assert (Hrows : filter (fun r : session * option conversation_cost =>
                            created_on (Some d) (fst r))
                    (left_join cost_of (sessions db) (conversation_costs db)) =
                  left_join cost_of day (conversation_costs db))
    by apply filter_left_join.
  assert (Htotal : count_distinct
                     (map (fun r : session * option conversation_cost => Some (s_id (fst r)))
                        (left_join cost_of day (conversation_costs db))) =
                   List.length day).
  { rewrite <- (filter_all (fun _ => true) day) at 2 by reflexivity.
    rewrite <- (count_distinct_join cost_of (fun _ => true) day (conversation_costs db) Hday).
    reflexivity. }
  assert (Hall : Z.of_nat (List.length day) <= int4_max).
  { pose proof (filter_length_le (created_on (Some d)) (sessions db)) as H.
    fold day in H. lia. }
  assert (Hle : forall c, Z.of_nat (List.length (filter c day)) <= int4_max).
  { intros c. pose proof (filter_length_le c day). lia. }
  unfold get_daily_stats. cbv zeta. rewrite Hrows, Htotal.
  rewrite !(count_distinct_join cost_of _ day (conversation_costs db) Hday).
  rewrite !count_int_ok by (try apply Hle; exact Hall).
  cbn [bind].
  now rewrite or_zero_sum_of, (joined_costs_once day (conversation_costs db) Hday).
Qed.

(** X15. [get_daily_stats] counts every session of the day once and every
    cost record of those sessions once, however many cost records a
    session has; the two rates are NULL exactly on a day without sessions,
    and the resolution rate is a percentage. *)
Theorem daily_stats_count_each_session_once :
  forall db d,
    NoDup (map s_id (sessions db)) ->
    Z.of_nat (List.length (sessions db)) <= int4_max ->
    exists stats,
      get_daily_stats db (Some d) = Ok stats /\
      let day := filter (created_on (Some d)) (sessions db) in
      ds_total_conversations stats = Z.of_nat (List.length day) /\
      ds_ai_resolved stats = Z.of_nat (List.length (filter ai_resolved_session day)) /\
      ds_human_escalations stats = Z.of_nat (List.length (filter was_escalated day)) /\
      ds_total_cost_usd stats =
        sum_z (map c_cost_usd
                 (filter (fun c => existsb (fun s => cost_of s c) day)
                    (conversation_costs db))) /\
      (ds_ai_resolution_rate stats = None <-> day = []) /\
      (ds_avg_cost_per_conversation stats = None <-> day = []) /\
      (forall rate, ds_ai_resolution_rate stats = Some rate -> 0 <= rate <= 10000).
Proof.
  intros db d Hnodup Hsize.
  eexists. split; [apply (get_daily_stats_value db d Hnodup Hsize) |].
  cbv zeta.
  cbn [ds_total_conversations ds_ai_resolved ds_human_escalations ds_total_cost_usd
       ds_ai_resolution_rate ds_avg_cost_per_conversation].
  set (day := filter (created_on (Some d)) (sessions db)).
  assert (Hempty : Z.of_nat (List.length day) = 0 <-> day = []).
  { destruct day; simpl; split; intros H; try reflexivity; try discriminate; lia. }
  assert (Hpos : 0 <= Z.of_nat (List.length day)) by apply Nat2Z.is_nonneg.
  do 4 (split; [reflexivity |]).
  split; [| split].
  - rewrite ratio_none by exact Hpos. exact Hempty.
  - rewrite ratio_none by lia. rewrite <- Hempty. lia.
  - intros rate H. unfold ratio in H.
    destruct (Z.of_nat (List.length day) =? 0) eqn:E; [discriminate |].
    injection H as <-. apply Z.eqb_neq in E.
    apply (round_div_between _ _ 0 10000); [lia |].
    pose proof (filter_length_le ai_resolved_session day). lia.
Qed.

Lemma daily_stats_count_each_session_once_witness :
  exists stats,
    get_daily_stats (set_costs sample_db sample_costs) (Some 0) = Ok stats /\
    ds_total_conversations stats = 3 /\
    ds_human_escalations stats = 1 /\
    ds_total_cost_usd stats = 7500.
Proof.
  destruct sample_db_primary_keys as [_ [Hsessions _]].
  destruct (daily_stats_count_each_session_once (set_costs sample_db sample_costs) 0)
    as [stats [Hcall [Htotal [_ [Hescalations [Hcost _]]]]]].
  - exact Hsessions.
  - unfold int4_max. simpl. lia.
  - exists stats. split; [exact Hcall |].
    split; [exact Htotal |]. split; [exact Hescalations | exact Hcost].
Defined.

(** ** The category report *)

Lemma left_join_app {A B : Type} (on : A -> B -> bool) (l1 l2 : list A) (r : list B) :
  left_join on (l1 ++ l2) r = left_join on l1 r ++ left_join on l2 r.
Proof. unfold left_join. apply flat_map_app. Qed.

Lemma spread_length {A : Type} (costs : list conversation_cost) (x : A) :
  Z.of_nat (List.length (spread costs x)) = at_least_one (List.length costs).
Proof.
  unfold spread, at_least_one. destruct costs as [| c rest]; [reflexivity |].
  rewrite length_map. simpl List.length. lia.
Qed.

Lemma spread_fst {A : Type} (costs : list conversation_cost) (x : A)
    (r : A * option conversation_cost) :
  In r (spread costs x) -> fst r = x.
Proof.
  unfold spread. destruct costs as [| c rest].
  - intros [<- | []]. reflexivity.
  - intros Hin. apply in_map_iff in Hin. destruct Hin as [c' [<- _]]. reflexivity.
Qed.

Lemma spread_costs {A : Type} (costs : list conversation_cost) (x : A) :
  non_null (map (fun r : A * option conversation_cost => option_map c_cost_usd (snd r))
              (spread costs x)) =
  map c_cost_usd costs.
Proof.
  unfold spread. destruct costs as [| c rest]; [reflexivity |].
  generalize (c :: rest). intros l.
  induction l as [| y l IH]; [reflexivity |].
  unfold non_null in *. simpl. now rewrite IH.
Qed.

Lemma second_join_of_one_session (s : session) (costs : list conversation_cost)
    (rows : list (session * option ai_decision)) :
  (forall sd, In sd rows -> fst sd = s) ->
  left_join (fun sd cc => cost_of (fst sd) cc) rows costs =
  flat_map (spread (filter (cost_of s) costs)) rows.
Proof.
  unfold left_join. induction rows as [| sd rows IH]; intros Hs; [reflexivity |].
  cbn [flat_map]. rewrite IH by (intros x Hx; apply Hs; now right).
  rewrite (Hs sd (or_introl eq_refl)). f_equal. unfold spread.
  change (fun cc : conversation_cost => cost_of s cc) with (cost_of s).
  now destruct (filter (cost_of s) costs).
Qed.

Lemma count_spread {A : Type} (q : A -> bool) (costs : list conversation_cost)
    (rows : list A) :
  Z.of_nat (List.length (filter (fun r => q (fst r)) (flat_map (spread costs) rows))) =
  Z.of_nat (List.length (filter q rows)) * at_least_one (List.length costs).
Proof.
  induction rows as [| x rows IH]; [reflexivity |].
  cbn [flat_map]. rewrite filter_app, length_app, Nat2Z.inj_add, IH.
  cbn [filter]. destruct (q x) eqn:Hq.
  - rewrite filter_all by (intros r Hr; now rewrite (spread_fst _ _ _ Hr)).
    rewrite spread_length. simpl List.length. lia.
  - rewrite filter_none by (intros r Hr; now rewrite (spread_fst _ _ _ Hr)).
    simpl List.length. lia.
Qed.

Lemma costs_spread {A : Type} (costs : list conversation_cost) (rows : list A) :
  sum_z (non_null (map (fun r : A * option conversation_cost =>
                          option_map c_cost_usd (snd r))
                     (flat_map (spread costs) rows))) =
  Z.of_nat (List.length rows) * sum_z (map c_cost_usd costs).
Proof.
  induction rows as [| x rows IH]; [reflexivity |].
  cbn [flat_map]. rewrite map_app, non_null_app, sum_z_app, IH, spread_costs.
  simpl List.length. lia.
Qed.

(** The rows the first join makes of one session. *)
Lemma first_join_of_one_session (s : session) (ai_decisions : list ai_decision) :
  left_join decision_of [s] ai_decisions =
  match decisions_of ai_decisions s with
  | [] => [(s, None)]
  | matches => map (fun ad => (s, Some ad)) matches
  end.
Proof. unfold left_join. cbn [flat_map]. apply app_nil_r. Qed.

Lemma first_join_fst (s : session) (ai_decisions : list ai_decision)
    (sd : session * option ai_decision) :
  In sd (left_join decision_of [s] ai_decisions) -> fst sd = s.
Proof. apply left_join_one_fst. Qed.

Lemma first_join_length (s : session) (ai_decisions : list ai_decision) :
  Z.of_nat (List.length (left_join decision_of [s] ai_decisions)) =
  at_least_one (List.length (decisions_of ai_decisions s)).
Proof.
  rewrite first_join_of_one_session. unfold at_least_one.
  destruct (decisions_of ai_decisions s) as [| ad rest]; [reflexivity |].
  rewrite length_map. simpl List.length. lia.
Qed.

Lemma first_join_count (q : ai_decision -> bool) (s : session)
    (ai_decisions : list ai_decision) :
  List.length
    (filter (fun sd : session * option ai_decision =>
               match snd sd with Some ad => q ad | None => false end)
       (left_join decision_of [s] ai_decisions)) =
  List.length (filter q (decisions_of ai_decisions s)).
Proof.
  rewrite first_join_of_one_session.
  destruct (decisions_of ai_decisions s) as [| ad rest]; [reflexivity |].
  generalize (ad :: rest). intros l.
  induction l as [| x l IH]; [reflexivity |].
  simpl. destruct (q x); simpl; now rewrite IH.
Qed.

Lemma both_joins_cons db ai_decisions s l :
  both_joins db ai_decisions (s :: l) =
  flat_map (spread (costs_of db s)) (left_join decision_of [s] ai_decisions) ++
  both_joins db ai_decisions l.
Proof.
  unfold both_joins. rewrite (left_join_cons decision_of s l), left_join_app.
  f_equal. apply second_join_of_one_session. apply first_join_fst.
Qed.

Lemma both_joins_count (q : ai_decision -> bool) db ai_decisions (l : list session) :
  Z.of_nat
    (List.length
       (filter (fun r : joined_row =>
                  match row_decision r with Some ad => q ad | None => false end)
          (both_joins db ai_decisions l))) =
  sum_z (map (fun s => Z.of_nat (List.length (filter q (decisions_of ai_decisions s))) *
                       at_least_one (List.length (costs_of db s))) l).
Proof.
  induction l as [| s l IH]; [reflexivity |].
  rewrite both_joins_cons, filter_app, length_app, Nat2Z.inj_add.
  change (sum_z (map ?f (s :: l))) with (f s + sum_z (map f l)).
  f_equal; [| exact IH]. cbv beta.
  rewrite <- (first_join_count q s ai_decisions).
  apply (count_spread
           (fun sd : session * option ai_decision =>
              match snd sd with Some ad => q ad | None => false end)).
Qed.

Lemma both_joins_costs db ai_decisions (l : list session) :
  sum_z (non_null (map (fun r : joined_row => option_map c_cost_usd (row_cost r))
                     (both_joins db ai_decisions l))) =
  sum_z (map (fun s => at_least_one (List.length (decisions_of ai_decisions s)) *
                       sum_z (map c_cost_usd (costs_of db s))) l).
Proof.
  induction l as [| s l IH]; [reflexivity |].
  rewrite both_joins_cons, map_app, non_null_app, sum_z_app.
  change (sum_z (map ?f (s :: l))) with (f s + sum_z (map f l)).
  f_equal; [| exact IH]. cbv beta. rewrite <- first_join_length. apply costs_spread.
Qed.

Lemma both_joins_filter (p : session -> bool) db ai_decisions (l : list session) :
  filter (fun r : joined_row => p (row_session r)) (both_joins db ai_decisions l) =
  both_joins db ai_decisions (filter p l).
Proof.
  unfold both_joins, row_session.
  rewrite (filter_left_join (fun sd cc => cost_of (fst sd) cc)
             (fun sd : session * option ai_decision => p (fst sd))).
  now rewrite (filter_left_join decision_of p).
Qed.

Lemma both_joins_session db ai_decisions (l : list session) (s : session) :
  In s l <-> exists r, In r (both_joins db ai_decisions l) /\ row_session r = s.
Proof.
  unfold both_joins, row_session. split.
  - intros Hin. apply (left_join_fst decision_of l ai_decisions) in Hin.
    destruct Hin as [sd [Hsd <-]].
    apply (left_join_fst (fun sd cc => cost_of (fst sd) cc) _ (conversation_costs db))
      in Hsd.
    destruct Hsd as [r [Hr <-]]. now exists r.
  - intros [r [Hr <-]].
    apply (left_join_fst decision_of l ai_decisions). exists (fst r). split; [| reflexivity].
    apply (left_join_fst (fun sd cc => cost_of (fst sd) cc) _ (conversation_costs db)).
    now exists r.
Qed.

Lemma category_join_both db ai_decisions p_start_date p_end_date :
  category_join db ai_decisions p_start_date p_end_date =
  both_joins db ai_decisions (filter (reported p_start_date p_end_date) (sessions db)).
Proof.
  unfold category_join. apply (both_joins_filter (reported p_start_date p_end_date)).
Qed.

Lemma nodup_block {B : Type} (dec : forall a b : B, {a = b} + {a <> b}) (x : B)
    (block rest rest' : list B) :
  block <> [] -> (forall b, In b block -> b = x) ->
  nodup dec rest = nodup dec rest' ->
  nodup dec (block ++ rest) = nodup dec (x :: rest').
Proof.
  intros Hne Hall Hrest.
  assert (Hsame : forall y, In y rest <-> In y rest').
  { intros y. rewrite <- (nodup_In dec), Hrest, nodup_In. reflexivity. }
  induction block as [| b block IHb]; [contradiction |].
  assert (Hb : b = x) by (apply Hall; now left). subst b.
  destruct block as [| b' block].
  - simpl.
    destruct (in_dec dec x rest) as [H1 | H1], (in_dec dec x rest') as [H2 | H2].
    + exact Hrest.
    + exfalso. apply H2. now apply Hsame.
    + exfalso. apply H1. now apply Hsame.
    + now rewrite Hrest.
  - change (nodup dec (x :: (b' :: block) ++ rest) = nodup dec (x :: rest')).
    rewrite <- IHb; [| discriminate | intros b Hb; apply Hall; now right].
    cbn [nodup].
    destruct (in_dec dec x ((b' :: block) ++ rest)) as [H1 | H1]; [reflexivity |].
    exfalso. apply H1. left. apply Hall. right. now left.
Qed.

Lemma category_join_categories db ai_decisions p_start_date p_end_date :
  nodup option_string_dec
    (map (fun r => s_selected_category (row_session r))
       (category_join db ai_decisions p_start_date p_end_date)) =
  reported_categories db p_start_date p_end_date.
Proof.
  rewrite category_join_both. unfold reported_categories.
  generalize (filter (reported p_start_date p_end_date) (sessions db)). intros l.
  induction l as [| s l IH]; [reflexivity |].
  rewrite both_joins_cons, map_app.
  apply nodup_block; [| | exact IH].
  - destruct (left_join_one_inhabited decision_of s ai_decisions) as [sd Hsd].
    intros Hempty. apply map_eq_nil in Hempty.
    assert (Hin : exists r, In r (spread (costs_of db s) sd)).
    { unfold spread. destruct (costs_of db s) as [| c rest'].
      - exists (sd, None). now left.
      - exists (sd, Some c). now left. }
    destruct Hin as [r Hr].
    assert (Hflat : In r (flat_map (spread (costs_of db s))
                            (left_join decision_of [s] ai_decisions))).
    { apply in_flat_map. now exists sd. }
    rewrite Hempty in Hflat. contradiction.
  - intros b Hb. apply in_map_iff in Hb.
    destruct Hb as [r [<- Hr]]. apply in_flat_map in Hr.
    destruct Hr as [sd [Hsd Hr]]. apply spread_fst in Hr.
    apply first_join_fst in Hsd. unfold row_session. now rewrite Hr, Hsd.
Qed.

Lemma all_ok_map {A B : Type} (f : A -> result B) (g : A -> B) (l : list A) :
  (forall x, In x l -> f x = Ok (g x)) -> all_ok (map f l) = Ok (map g l).
Proof.
  induction l as [| a l IH]; intros Hall; [reflexivity |].
  cbn [map all_ok]. rewrite (Hall a (or_introl eq_refl)). cbn [bind].
  rewrite IH by (intros x Hx; apply Hall; now right). reflexivity.
Qed.

Lemma category_group_report db ai_decisions p_start_date p_end_date category :
  k_total_messages (category_report db ai_decisions p_start_date p_end_date category)
    <= int4_max ->
  category_group category
    (filter (in_category category)
       (category_join db ai_decisions p_start_date p_end_date)) =
  Ok (category_report db ai_decisions p_start_date p_end_date category).
Proof.
  intros Hroom. rewrite category_join_both.
  change (in_category category)
    with (fun r : joined_row => of_category category (row_session r)).
  rewrite both_joins_filter.
  set (mine := filter (of_category category)
                 (filter (reported p_start_date p_end_date) (sessions db))).
  assert (Hmessages :
            Z.of_nat (List.length (filter has_decision (both_joins db ai_decisions mine))) =
            k_total_messages
              (category_report db ai_decisions p_start_date p_end_date category)).
  { change has_decision
      with (fun r : joined_row =>
              match row_decision r with Some ad => (fun _ => true) ad | None => false end).
    rewrite (both_joins_count (fun _ => true)).
    cbn [k_total_messages category_report]. fold mine.
    f_equal. apply map_ext. intros s.
    now rewrite (filter_all (fun _ : ai_decision => true)). }
  assert (Hresolved :
            Z.of_nat (List.length (filter not_escalated (both_joins db ai_decisions mine))) =
            sum_z (map (fun s => Z.of_nat (List.length (filter unescalated
                                                          (decisions_of ai_decisions s))) *
                                 at_least_one (List.length (costs_of db s))) mine)).
  { change not_escalated
      with (fun r : joined_row =>
              match row_decision r with Some ad => unescalated ad | None => false end).
    apply both_joins_count. }
  unfold category_group. cbv zeta.
  rewrite count_int_ok by (rewrite Hmessages; exact Hroom).
  cbn [bind]. rewrite Hmessages, Hresolved, or_zero_sum_of, both_joins_costs.
  reflexivity.
Qed.

Lemma insert_by_total_messages_perm (g : category_stats) (l : list category_stats) :
  Permutation (insert_by_total_messages g l) (g :: l).
Proof.
  induction l as [| h l IH]; simpl; [apply Permutation_refl |].
  destruct (k_total_messages h <? k_total_messages g); [apply Permutation_refl |].
  apply Permutation_trans with (h :: g :: l); [now apply perm_skip | apply perm_swap].
Qed.

Lemma sorted_by_total_messages_perm (l : list category_stats) :
  Permutation (fold_right insert_by_total_messages [] l) l.
Proof.
  induction l as [| g l IH]; simpl; [apply Permutation_refl |].
  apply Permutation_trans with (g :: fold_right insert_by_total_messages [] l).
  - apply insert_by_total_messages_perm.
  - now apply perm_skip.
Qed.

(** X16. The category report multiplies across its two joins.  As long as
    the counts are [INT] values, the row of a category is the row of
    [category_report]: a session with [d] decisions and [k] cost records
    adds [d * max 1 k] to [total_messages] and [max 1 d] times its cost to
    [total_cost_usd], and the percentage is taken over the multiplied
    counts.  Every answer of [get_category_stats] consists of these rows,
    one for each category of a session in the range. *)
Theorem category_stats_multiply_across_joins :
  forall db ai_decisions p_start_date p_end_date,
    (forall c, In c (reported_categories db p_start_date p_end_date) ->
       k_total_messages (category_report db ai_decisions p_start_date p_end_date c)
         <= int4_max) ->
    let reports := map (category_report db ai_decisions p_start_date p_end_date)
                     (reported_categories db p_start_date p_end_date) in
    category_groups db ai_decisions p_start_date p_end_date = Ok reports /\
    (exists rows,
       get_category_stats db ai_decisions p_start_date p_end_date = Ok rows /\
       Permutation rows reports) /\
    (forall answer,
       category_stats_answer db ai_decisions p_start_date p_end_date answer ->
       exists rows, answer = Ok rows /\ Permutation rows reports).
Proof.
  intros db ai_decisions p_start_date p_end_date Hroom reports.
  assert (Hgroups : category_groups db ai_decisions p_start_date p_end_date = Ok reports).
  { unfold category_groups. cbv zeta. rewrite category_join_categories.
    apply all_ok_map. intros c Hc. apply category_group_report. now apply Hroom. }
  split; [exact Hgroups |]. split.
  - exists (fold_right insert_by_total_messages [] reports). split.
    + unfold get_category_stats. now rewrite Hgroups.
    + apply sorted_by_total_messages_perm.
  - intros answer Hanswer. unfold category_stats_answer in Hanswer.
    rewrite Hgroups in Hanswer. destruct Hanswer as [rows [[Hperm _] ->]].
    now exists rows.
Qed.

Lemma category_stats_multiply_across_joins_witness :
  exists rows,
    get_category_stats (set_costs sample_db sample_costs) sample_decisions
      (Some 0) (Some 1) = Ok rows /\
    Permutation rows
      [mk_category (Some "billing") 4 (Some 500) 15000;
       mk_category (Some "orders") 0 None 0].
Proof.
  destruct (category_stats_multiply_across_joins (set_costs sample_db sample_costs)
              sample_decisions (Some 0) (Some 1)) as [_ [[rows [Hcall Hperm]] _]].
  - intros c [<- | [<- | []]]; vm_compute; discriminate.
  - exists rows. split; [exact Hcall | exact Hperm].
Defined.

Lemma after_midnight (t : timestamp) (d : date) :
  date_of t = d -> t <> midnight d -> midnight d < t.
Proof.
  unfold date_of, midnight, day_length. intros Hdate Hnot.
  pose proof (Z.mul_div_le t 86400000000 ltac:(lia)) as Hle.
  rewrite Hdate in Hle. lia.
Qed.

(** X17. The category report ends at the midnight that begins its last
    day.  If every session was created on the day [last] but not at its
    first instant, [get_daily_stats] for that day counts all of them, and
    [get_category_stats] up to that day returns no row at all, whatever
    the first day of the range and whatever the categories, decisions and
    costs. *)
Theorem category_stats_leave_out_the_last_day :
  forall db ai_decisions p_start_date last,
    NoDup (map s_id (sessions db)) ->
    Z.of_nat (List.length (sessions db)) <= int4_max ->
    (forall s, In s (sessions db) ->
       exists t, s_created_at s = Some t /\ date_of t = last /\ t <> midnight last) ->
    (exists stats,
       get_daily_stats db (Some last) = Ok stats /\
       ds_total_conversations stats = Z.of_nat (List.length (sessions db))) /\
    get_category_stats db ai_decisions p_start_date (Some last) = Ok [] /\
    (forall answer,
       category_stats_answer db ai_decisions p_start_date (Some last) answer ->
       answer = Ok []).
Proof.
  intros db ai_decisions p_start_date last Hnodup Hsize Hday.
  assert (Hall : filter (created_on (Some last)) (sessions db) = sessions db).
  { apply filter_all. intros s Hs. destruct (Hday s Hs) as [t [Ht [Hdate _]]].
    unfold created_on. rewrite Ht. now apply Z.eqb_eq. }
  assert (Hnone : filter (reported p_start_date (Some last)) (sessions db) = []).
  { apply filter_none. intros s Hs. destruct (Hday s Hs) as [t [Ht [Hdate Hnot]]].
    unfold reported, created_between. rewrite Ht.
    destruct p_start_date as [first |]; [| reflexivity].
    pose proof (after_midnight t last Hdate Hnot) as Hlate.
    replace (t <=? midnight last) with false by (symmetry; apply Z.leb_gt; exact Hlate).
    now rewrite andb_false_r. }
  assert (Hgroups : category_groups db ai_decisions p_start_date (Some last) = Ok []).
  { unfold category_groups. cbv zeta.
    rewrite category_join_both, Hnone. reflexivity. }
  split; [| split].
  - eexists. split; [apply (get_daily_stats_value db last Hnodup Hsize) |].
    cbv zeta. cbn [ds_total_conversations]. now rewrite Hall.
  - unfold get_category_stats. now rewrite Hgroups.
  - intros answer Hanswer. unfold category_stats_answer in Hanswer.
    rewrite Hgroups in Hanswer. destruct Hanswer as [rows [[Hperm _] ->]].
    apply Permutation_sym, Permutation_nil in Hperm. now subst rows.
Qed.

Lemma category_stats_leave_out_the_last_day_witness :
  (exists stats,
     get_daily_stats (set_costs sample_db sample_costs) (Some 0) = Ok stats /\
     ds_total_conversations stats = 3) /\
  get_category_stats (set_costs sample_db sample_costs) sample_decisions
    (Some (-7)) (Some 0) = Ok [].
Proof.
  destruct sample_db_primary_keys as [_ [Hsessions _]].
  destruct (category_stats_leave_out_the_last_day (set_costs sample_db sample_costs)
              sample_decisions (Some (-7)) 0) as [Hdaily [Hcategories _]].
  - exact Hsessions.
  - unfold int4_max. simpl. lia.
  - intros s [<- | [<- | [<- | []]]]; simpl; eexists;
      (split; [reflexivity | split; [reflexivity | discriminate]]).
  - split; [exact Hdaily | exact Hcategories].
Defined.

(** ** The agent console between sign-in and sign-out *)

Lemma onmessage_frame (message : AgentConsole.ws_message) (st : AgentConsole.console) :
  AgentConsole.agentInfo (AgentConsole.onmessage message st) = AgentConsole.agentInfo st /\
  AgentConsole.agentToken (AgentConsole.onmessage message st) = AgentConsole.agentToken st /\
  AgentConsole.selectedSession (AgentConsole.onmessage message st) =
    AgentConsole.selectedSession st /\
  AgentConsole.conversationHistory (AgentConsole.onmessage message st) =
    AgentConsole.conversationHistory st.
Proof.
  unfold AgentConsole.onmessage.
  repeat match goal with
         | |- context [if ?c then _ else _] => destruct c
         | |- context [match ?p with _ => _ end] => destruct p
         end; repeat split; reflexivity.
Qed.

Lemma quiet_action_keeps_conversation (x : AgentDesk.action) (a : AgentDesk.app) :
  AgentDesk.writes_conversation x = false ->
  AgentConsole.conversationHistory (AgentDesk.desk (AgentDesk.act x a)) =
  AgentConsole.conversationHistory (AgentDesk.desk a).
Proof.
  destruct x as [token [[sub name] |] | | message | sessionId [|] [events |]
                | message [|] now_ms sent_at |]; simpl; intros Hquiet;
    try discriminate Hquiet; try reflexivity.
  - apply onmessage_frame.
  - unfold AgentConsole.handleTakeover.
    now destruct (AgentConsole.agentToken (AgentDesk.desk a)),
                 (AgentConsole.agentInfo (AgentDesk.desk a)).
  - unfold AgentConsole.handleTakeover.
    now destruct (AgentConsole.agentToken (AgentDesk.desk a)),
                 (AgentConsole.agentInfo (AgentDesk.desk a)).
  - unfold AgentConsole.handleTakeover.
    now destruct (AgentConsole.agentToken (AgentDesk.desk a)),
                 (AgentConsole.agentInfo (AgentDesk.desk a)).
  - unfold AgentDesk.handleSendMessage.
    now destruct (AgentConsole.selectedSession (AgentDesk.desk a)),
                 (AgentDesk.truthy (AgentConsole.agentToken (AgentDesk.desk a))),
                 (AgentConsole.agentInfo (AgentDesk.desk a)).
Qed.

(** X18. The conversation on screen is replaced only by a history that
    was loaded, extended only by a message that was sent, and cleared only
    by closing the session.  No other action touches it: not signing out,
    not signing in, no message from the server, no takeover whose history
    could not be loaded.  Such a takeover still selects the session and
    ends with the notice of success, so that after one agent signed out and
    another signed in, it shows the first agent's conversation under the
    new session. *)
Theorem conversation_survives_sign_out :
  (forall actions a,
     forallb (fun x => negb (AgentDesk.writes_conversation x)) actions = true ->
     AgentConsole.conversationHistory (AgentDesk.desk (AgentDesk.run actions a)) =
     AgentConsole.conversationHistory (AgentDesk.desk a)) /\
  (forall a token sub name sessionId,
     let a' := AgentDesk.run
                 [AgentDesk.Logout; AgentDesk.Login token (Some (sub, name));
                  AgentDesk.Takeover sessionId true None] a in
     AgentConsole.agentInfo (AgentDesk.desk a') = Some (sub, name) /\
     AgentConsole.selectedSession (AgentDesk.desk a') = Some sessionId /\
     AgentConsole.conversationHistory (AgentDesk.desk a') =
       AgentConsole.conversationHistory (AgentDesk.desk a) /\
     AgentConsole.notification (AgentDesk.desk a') =
       Some ("You are now handling this conversation", "success")).
Proof.
  split.
  - unfold AgentDesk.run.
    induction actions as [| x actions IH]; intros a Hquiet; [reflexivity |].
    simpl in Hquiet. apply andb_prop in Hquiet. destruct Hquiet as [Hx Hrest].
    simpl. rewrite (IH _ Hrest). apply quiet_action_keeps_conversation.
    now destruct (AgentDesk.writes_conversation x).
  - intros a token sub name sessionId. repeat split; reflexivity.
Qed.

Lemma conversation_survives_sign_out_witness :
  AgentConsole.conversationHistory
    (AgentDesk.desk
       (AgentDesk.run
          [AgentDesk.Logout; AgentDesk.Login "token-of-ben" (Some ("A2", "Ben"));
           AgentDesk.Takeover 12 true None]
          (AgentDesk.mk_app
             (AgentConsole.setConversationHistory [history_of first_event] ann_console)
             true (Some "token-of-ann")))) =
  [history_of first_event].
Proof.
  destruct conversation_survives_sign_out as [Hquiet _].
  apply (Hquiet
           [AgentDesk.Logout; AgentDesk.Login "token-of-ben" (Some ("A2", "Ben"));
            AgentDesk.Takeover 12%N true None]
           (AgentDesk.mk_app
              (AgentConsole.setConversationHistory [history_of first_event] ann_console)
              true (Some "token-of-ann"))).
  reflexivity.
Defined.

Lemma onmessage_keeps_list_duplicate_free (message : AgentConsole.ws_message)
    (st : AgentConsole.console) :
  AgentDesk.expected (AgentDesk.Received message) ->
  NoDup (map AgentConsole.session_id (AgentConsole.escalations st)) ->
  NoDup (map AgentConsole.session_id
           (AgentConsole.escalations (AgentConsole.onmessage message st))).
Proof.
  destruct message as [type payload]. intros [_ Hlist] Hnodup.
  cbn [AgentConsole.m_type AgentConsole.m_payload] in Hlist.
  unfold AgentConsole.onmessage. cbn [AgentConsole.m_type AgentConsole.m_payload].
  destruct (String.eqb type "connected"); [exact Hnodup |].
  destruct (String.eqb_spec type "initial_escalations") as [Htype | _].
  { destruct payload as [[l | new | text | id] |]; simpl; try exact Hnodup.
    - exact (Hlist Htype l eq_refl).
    - constructor. }
  destruct (String.eqb type "escalation").
  { destruct payload as [[l | new | text | id] |]; try exact Hnodup.
    apply (escalation_keeps_list_duplicate_free new st Hnodup). }
  destruct (String.eqb type "takeover_success"); [exact Hnodup |].
  destruct (String.eqb type "pong"); [exact Hnodup |].
  destruct (String.eqb type "error"); [| exact Hnodup].
  destruct payload as [[l | new | [[| c rest] |] | id] |]; exact Hnodup.
Qed.

Lemma step_keeps_list_duplicate_free (e : AgentDesk.input) (p : AgentDesk.page) :
  AgentDesk.expected e ->
  NoDup (map AgentConsole.session_id
           (AgentConsole.escalations (AgentDesk.desk (AgentDesk.component p)))) ->
  NoDup (map AgentConsole.session_id
           (AgentConsole.escalations
              (AgentDesk.desk (AgentDesk.component (AgentDesk.step e p))))).
Proof.
  intros Hexpected Hnodup.
  destruct e as [token [[sub name] |] | | message | | sessionId | sessionId response_ok
                | sessionId loaded | message | message response_ok now_ms sent_at];
    cbn [AgentDesk.step].
  - exact Hnodup.
  - exact Hnodup.
  - constructor.
  - now apply onmessage_keeps_list_duplicate_free.
  - exact Hnodup.
  - destruct (AgentConsole.agentInfo (AgentDesk.desk (AgentDesk.component p)));
      [| exact Hnodup].
    now destruct (AgentDesk.truthy
                    (AgentConsole.agentToken (AgentDesk.desk (AgentDesk.component p)))).
  - destruct (AgentDesk.answer (AgentDesk.HumanTakeover sessionId) (AgentDesk.awaited p));
      [| exact Hnodup].
    destruct response_ok; [| exact Hnodup].
    cbn. now apply NoDup_map_filter.
  - destruct (AgentDesk.answer (AgentDesk.Conversation sessionId) (AgentDesk.awaited p));
      [| exact Hnodup].
    now destruct loaded.
  - destruct (AgentConsole.selectedSession (AgentDesk.desk (AgentDesk.component p)));
      [| exact Hnodup].
    destruct (AgentDesk.truthy
                (AgentConsole.agentToken (AgentDesk.desk (AgentDesk.component p))));
      [| exact Hnodup].
    now destruct (AgentConsole.agentInfo (AgentDesk.desk (AgentDesk.component p))).
  - destruct (AgentDesk.answer (AgentDesk.SendMessage message) (AgentDesk.awaited p));
      [| exact Hnodup].
    now destruct response_ok.
Qed.

(** X19. No session is listed twice.  Let the console go through any
    series of sign-ins, sign-outs, messages from the server, closed
    sessions, takeovers and sent messages, with the requests of the last
    two answered at any later time and in any order.  If the messages have
    the shape their type asks for and each list sent as
    [initial_escalations] names no session twice, then a list of
    escalations that names no session twice stays so. *)
Theorem escalations_stay_duplicate_free :
  forall trace p,
    Forall AgentDesk.expected trace ->
    NoDup (map AgentConsole.session_id
             (AgentConsole.escalations (AgentDesk.desk (AgentDesk.component p)))) ->
    NoDup (map AgentConsole.session_id
             (AgentConsole.escalations
                (AgentDesk.desk (AgentDesk.component (AgentDesk.play trace p))))).
Proof.
  unfold AgentDesk.play.
  induction trace as [| e trace IH]; intros p Hexpected Hnodup; [exact Hnodup |].
  inversion Hexpected as [| y ys He Hrest]; subst. simpl.
  apply IH; [exact Hrest |]. now apply step_keeps_list_duplicate_free.
Qed.

Lemma escalations_stay_duplicate_free_witness :
  NoDup
    (map AgentConsole.session_id
       (AgentConsole.escalations
          (AgentDesk.desk
             (AgentDesk.component
                (AgentDesk.play
                   [AgentDesk.Received
                      (AgentConsole.mk_message "escalation"
                         (Some (AgentConsole.Escalation pending_card)));
                    AgentDesk.TakeoverClicked 12;
                    AgentDesk.Received
                      (AgentConsole.mk_message "initial_escalations"
                         (Some (AgentConsole.Escalations [pending_card])));
                    AgentDesk.TakeoverAnswered 12 true;
                    AgentDesk.Received
                      (AgentConsole.mk_message "escalation"
                         (Some (AgentConsole.Escalation pending_card)));
                    AgentDesk.HistoryAnswered 12 None]
                   (AgentDesk.mk_page
                      (AgentDesk.mk_app ann_console true (Some "token-of-ann")) [])))))).
Proof.
  apply escalations_stay_duplicate_free.
  - repeat constructor; try discriminate.
    intros _ l E. injection E as <-. simpl. repeat constructor. intros [].
  - simpl. repeat constructor. intros [].
Defined.

Lemma step_keeps_token_with_claims (e : AgentDesk.input) (p : AgentDesk.page) :
  AgentDesk.token_with_claims (AgentDesk.component p) ->
  AgentDesk.token_with_claims (AgentDesk.component (AgentDesk.step e p)).
Proof.
  intros Hinv. pose proof Hinv as [Hauth Hinfo]. unfold AgentDesk.token_with_claims.
  destruct e as [token [[sub name] |] | | message | | sessionId | sessionId response_ok
                | sessionId loaded | message | message response_ok now_ms sent_at];
    cbn [AgentDesk.step].
  - cbn. repeat split; try discriminate; try reflexivity.
  - cbn. repeat split; tauto.
  - cbn. repeat split; try discriminate; try contradiction; intros H; now elim H.
  - cbn [AgentDesk.component AgentDesk.on_desk AgentDesk.desk AgentDesk.isAuthenticated].
    destruct (onmessage_frame message (AgentDesk.desk (AgentDesk.component p)))
      as [-> [-> _]].
    exact Hinv.
  - exact Hinv.
  - destruct (AgentConsole.agentInfo (AgentDesk.desk (AgentDesk.component p)));
      [| exact Hinv].
    now destruct (AgentDesk.truthy
                    (AgentConsole.agentToken (AgentDesk.desk (AgentDesk.component p)))).
  - destruct (AgentDesk.answer (AgentDesk.HumanTakeover sessionId) (AgentDesk.awaited p));
      [| exact Hinv].
    destruct response_ok; exact Hinv.
  - destruct (AgentDesk.answer (AgentDesk.Conversation sessionId) (AgentDesk.awaited p));
      [| exact Hinv].
    destruct loaded; exact Hinv.
  - destruct (AgentConsole.selectedSession (AgentDesk.desk (AgentDesk.component p)));
      [| exact Hinv].
    destruct (AgentDesk.truthy
                (AgentConsole.agentToken (AgentDesk.desk (AgentDesk.component p))));
      [| exact Hinv].
    destruct (AgentConsole.agentInfo (AgentDesk.desk (AgentDesk.component p))) eqn:E;
      [exact Hinv |].
    cbn. now rewrite E.
  - destruct (AgentDesk.answer (AgentDesk.SendMessage message) (AgentDesk.awaited p));
      [| exact Hinv].
    destruct response_ok; exact Hinv.
Qed.

Lemma answer_only_request (r : AgentDesk.fetch) :
  AgentDesk.answer r [r] = Some [].
Proof.
  simpl. destruct r; simpl; now rewrite ?N.eqb_refl, ?String.eqb_refl.
Qed.

(** With nothing else happening between the click and the answers, the
    steps of a takeover make up [AgentConsole.handleTakeover]. *)
Lemma handleTakeover_without_interleaving sessionId response_ok loaded
    (a : AgentDesk.app) :
  AgentConsole.agentToken (AgentDesk.desk a) <> Some "" ->
  AgentDesk.component
    (AgentDesk.play
       [AgentDesk.TakeoverClicked sessionId;
        AgentDesk.TakeoverAnswered sessionId response_ok;
        AgentDesk.HistoryAnswered sessionId loaded]
       (AgentDesk.mk_page a [])) =
  AgentDesk.on_desk (AgentConsole.handleTakeover sessionId response_ok loaded) a.
Proof.
  intros Hnonempty. destruct a as [st auth saved].
  unfold AgentDesk.play, AgentDesk.on_desk, AgentConsole.handleTakeover.
  cbn [fold_left AgentDesk.step AgentDesk.component AgentDesk.desk AgentDesk.awaited
       AgentDesk.isAuthenticated AgentDesk.agent_token].
  destruct (AgentConsole.agentInfo st) as [info |] eqn:Hinfo.
  - destruct (AgentConsole.agentToken st) as [[| c rest] |] eqn:Htoken.
    + now elim Hnonempty.
    + cbn [AgentDesk.truthy app AgentDesk.awaited AgentDesk.component].
      rewrite answer_only_request.
      destruct response_ok.
      * cbn [AgentDesk.awaited AgentDesk.component app AgentDesk.on_desk AgentDesk.desk
             AgentDesk.isAuthenticated AgentDesk.agent_token].
        rewrite answer_only_request. reflexivity.
      * reflexivity.
    + reflexivity.
  - now destruct (AgentConsole.agentToken st).
Qed.

(** X20. From the first render on and through any series of clicks,
    messages of the expected shapes and answers to requests, in any order,
    the component is signed in exactly when it holds a token, and holds a
    token exactly when it holds the agent's claims.  So
    [handleSendMessage], called with a session selected and a token, finds
    [agentInfo] where it reads [agentInfo.id] and sends its request.  A
    session may however be selected while nobody is signed in:
    [handleTakeover] checks the token at the click and selects the
    session when its request is answered, so when an agent signs in, is
    sent an escalation, clicks to take it over and signs out before the
    request is answered, the answer selects the session all the same, and
    the next agent to sign in finds that session selected. *)
Theorem token_and_claims_stay_together :
  (forall trace saved,
     Forall AgentDesk.expected trace ->
     let p := AgentDesk.play trace (AgentDesk.start saved) in
     AgentDesk.token_with_claims (AgentDesk.component p) /\
     forall message,
       AgentConsole.selectedSession (AgentDesk.desk (AgentDesk.component p)) <> None ->
       AgentDesk.truthy
         (AgentConsole.agentToken (AgentDesk.desk (AgentDesk.component p))) = true ->
       AgentDesk.step (AgentDesk.SendClicked message) p =
       AgentDesk.mk_page (AgentDesk.component p)
         (AgentDesk.awaited p ++ [AgentDesk.SendMessage message])) /\
  (forall saved token sub name card next_token next_sub next_name,
     AgentDesk.truthy (Some token) = true ->
     let sessionId := AgentConsole.session_id card in
     let p :=
       AgentDesk.play
         [AgentDesk.LoginClicked token (Some (sub, name));
          AgentDesk.Received
            (AgentConsole.mk_message "escalation" (Some (AgentConsole.Escalation card)));
          AgentDesk.TakeoverClicked sessionId;
          AgentDesk.LogoutClicked;
          AgentDesk.TakeoverAnswered sessionId true]
         (AgentDesk.start saved) in
     let next :=
       AgentDesk.step (AgentDesk.LoginClicked next_token (Some (next_sub, next_name))) p in
     AgentDesk.isAuthenticated (AgentDesk.component p) = false /\
     AgentConsole.agentToken (AgentDesk.desk (AgentDesk.component p)) = None /\
     AgentConsole.selectedSession (AgentDesk.desk (AgentDesk.component p)) =
       Some sessionId /\
     AgentDesk.isAuthenticated (AgentDesk.component next) = true /\
     AgentConsole.agentInfo (AgentDesk.desk (AgentDesk.component next)) =
       Some (next_sub, next_name) /\
     AgentConsole.selectedSession (AgentDesk.desk (AgentDesk.component next)) =
       Some sessionId).
Proof.
  split.
  - intros trace saved _.
    assert (Hinv : forall q,
              AgentDesk.token_with_claims (AgentDesk.component q) ->
              AgentDesk.token_with_claims
                (AgentDesk.component (AgentDesk.play trace q))).
    { unfold AgentDesk.play.
      induction trace as [| e trace IH]; intros q Hq; [exact Hq |].
      simpl. apply IH. now apply step_keeps_token_with_claims. }
    assert (Hstart : AgentDesk.token_with_claims
                       (AgentDesk.component (AgentDesk.start saved))).
    { unfold AgentDesk.token_with_claims. cbn.
      repeat split; try discriminate; intros H; now elim H. }
    specialize (Hinv _ Hstart). cbv zeta.
    set (p := AgentDesk.play trace (AgentDesk.start saved)) in *.
    split; [exact Hinv |].
    intros message Hselected Htoken.
    destruct Hinv as [_ Hinfo].
    cbn [AgentDesk.step]. rewrite Htoken. cbn [negb].
    destruct (AgentConsole.selectedSession (AgentDesk.desk (AgentDesk.component p)));
      [| now elim Hselected].
    destruct (AgentConsole.agentInfo (AgentDesk.desk (AgentDesk.component p)))
      as [info |]; [reflexivity |].
    exfalso. apply (proj1 Hinfo); [| reflexivity].
    destruct (AgentConsole.agentToken (AgentDesk.desk (AgentDesk.component p)));
      [discriminate | discriminate Htoken].
  - intros saved token sub name card next_token next_sub next_name Htoken sessionId.
    destruct token as [| c rest]; [discriminate Htoken |].
    unfold AgentDesk.play.
    cbn [fold_left AgentDesk.step AgentDesk.start AgentDesk.initial AgentDesk.handleLogin
         AgentDesk.handleLogout AgentDesk.setAgent AgentDesk.component AgentDesk.desk
         AgentDesk.awaited AgentDesk.on_desk AgentConsole.agentInfo AgentConsole.agentToken
         AgentDesk.truthy app].
    rewrite answer_only_request. repeat split.
Qed.

Lemma token_and_claims_stay_together_witness :
  AgentDesk.awaited
    (AgentDesk.step (AgentDesk.SendClicked "on it")
       (AgentDesk.play
          [AgentDesk.LoginClicked "token-of-ann" (Some ("A1", "Ann"));
           AgentDesk.Received
             (AgentConsole.mk_message "escalation"
                (Some (AgentConsole.Escalation pending_card)));
           AgentDesk.TakeoverClicked 12;
           AgentDesk.TakeoverAnswered 12 true;
           AgentDesk.HistoryAnswered 12 (Some [history_of first_event])]
          (AgentDesk.start None))) =
    [AgentDesk.SendMessage "on it"] /\
  AgentConsole.selectedSession
    (AgentDesk.desk
       (AgentDesk.component
          (AgentDesk.play
             [AgentDesk.LoginClicked "token-of-ann" (Some ("A1", "Ann"));
              AgentDesk.Received
                (AgentConsole.mk_message "escalation"
                   (Some (AgentConsole.Escalation pending_card)));
              AgentDesk.TakeoverClicked 12;
              AgentDesk.LogoutClicked;
              AgentDesk.TakeoverAnswered 12 true]
             (AgentDesk.start None)))) = Some 12%N.
Proof.
  destruct token_and_claims_stay_together as [Hinv Hrace].
  split.
  - destruct (Hinv
                [AgentDesk.LoginClicked "token-of-ann" (Some ("A1", "Ann"));
                 AgentDesk.Received
                   (AgentConsole.mk_message "escalation"
                      (Some (AgentConsole.Escalation pending_card)));
                 AgentDesk.TakeoverClicked 12%N;
                 AgentDesk.TakeoverAnswered 12%N true;
                 AgentDesk.HistoryAnswered 12%N (Some [history_of first_event])]
                None) as [_ Hsend].
    + repeat constructor. discriminate.
    + rewrite (Hsend "on it"); [reflexivity | discriminate | reflexivity].
  - exact (proj1 (proj2 (proj2
             (Hrace None "token-of-ann" "A1" "Ann" pending_card "token-of-ben" "A2"
                "Ben" eq_refl)))).
Defined.

(** ** No procedure ends a session *)

Lemma descends_refl (s : session) : descends s s.
Proof. unfold descends. repeat split; try reflexivity. now left. Qed.

Lemma descends_trans (s1 s2 s3 : session) :
  descends s1 s2 -> descends s2 s3 -> descends s1 s3.
Proof.
  unfold descends. intros (A1 & A2 & A3 & A4 & A5 & A6) (B1 & B2 & B3 & B4 & B5 & B6).
  repeat split; try congruence.
  destruct B6 as [B6 | B6]; [| now right].
  destruct A6 as [A6 | A6]; [left | right]; congruence.
Qed.

Lemma descends_open (s s' : session) :
  descends s s' -> open_status (s_status s) = true -> open_status (s_status s') = true.
Proof.
  intros (_ & _ & _ & _ & _ & [-> | ->]) Hopen; [exact Hopen | reflexivity].
Qed.

Lemma update_descends (p : session -> bool) (f : session -> session) (t : list session) :
  (forall s, descends s (f s)) ->
  (forall s', In s' (update_where p f t) -> exists s, In s t /\ descends s s') /\
  (forall s, In s t -> exists s', In s' (update_where p f t) /\ descends s s').
Proof.
  intros Hf. split.
  - intros s' Hin. apply update_where_In in Hin. destruct Hin as [s [Hs ->]].
    exists s. split; [exact Hs |]. destruct (p s); [apply Hf | apply descends_refl].
  - intros s Hs. exists (if p s then f s else s). split.
    + apply update_where_In. now exists s.
    + destruct (p s); [apply Hf | apply descends_refl].
Qed.

Lemma touch_descends now s : descends s (touch now s).
Proof. unfold descends. cbn. repeat split. now left. Qed.

Lemma with_category_descends category now s : descends s (with_category category now s).
Proof. unfold descends. cbn. repeat split. now left. Qed.

Lemma escalated_descends now s : descends s (escalated now s).
Proof. unfold descends. cbn. repeat split. now right. Qed.

Lemma assigned_descends agent_id now s : descends s (assigned agent_id now s).
Proof. unfold descends. cbn. repeat split. now left. Qed.

Lemma serve_never_ends_a_session (r : request) (db : database) :
  (forall s', In s' (sessions (serve r db)) ->
     (exists s, In s (sessions db) /\ descends s s') \/
     (open_status (s_status s') = true /\ s_resolved_at s' = None)) /\
  (forall s, In s (sessions db) ->
     exists s', In s' (sessions (serve r db)) /\ descends s s').
Proof.
  assert (Hsame : (forall s', In s' (sessions db) ->
                     (exists s, In s (sessions db) /\ descends s s') \/
                     (open_status (s_status s') = true /\ s_resolved_at s' = None)) /\
                  (forall s, In s (sessions db) ->
                     exists s', In s' (sessions db) /\ descends s s')).
  { split; intros s Hs; [left |]; exists s; split; auto using descends_refl. }
  assert (Hupdate : forall p f,
            (forall s, descends s (f s)) ->
            (forall s', In s' (update_where p f (sessions db)) ->
               (exists s, In s (sessions db) /\ descends s s') \/
               (open_status (s_status s') = true /\ s_resolved_at s' = None)) /\
            (forall s, In s (sessions db) ->
               exists s', In s' (update_where p f (sessions db)) /\ descends s s')).
  { intros p f Hf. destruct (update_descends p f (sessions db) Hf) as [H1 H2].
    split; [intros s' Hs'; left; now apply H1 | exact H2]. }
  destruct r; cbn [serve].
  - destruct (create_or_get_session _ _ _ _ _ _ _) as [answer | e] eqn:Hcall;
      [| exact Hsame].
    exfalso. exact (create_or_get_session_fails _ _ _ _ _ _ _ _ Hcall).
  - destruct (log_event _ _ _ _ _ _ _ _) as [[id db'] | e] eqn:Hcall; [| exact Hsame].
    cbn [db_after]. apply log_event_inv in Hcall.
    destruct Hcall as [ev [_ [_ [_ [_ [_ [_ [_ [_ ->]]]]]]]]]. cbn [sessions].
    apply Hupdate. apply touch_descends.
  - destruct (set_session_category _ _ _ _) as [[b db'] | e] eqn:Hcall; [| exact Hsame].
    cbn [db_after]. apply set_session_category_inv in Hcall.
    destruct Hcall as [category [_ ->]]. cbn [sessions].
    apply Hupdate. apply with_category_descends.
  - destruct (escalate_session _ _ _ _ _) as [[b db'] | e] eqn:Hcall; [| exact Hsame].
    cbn [db_after]. apply escalate_session_inv in Hcall.
    destruct Hcall as [_ [_ [_ ->]]]. cbn [sessions].
    apply Hupdate. apply escalated_descends.
  - destruct (agent_takeover _ _ _ _ _) as [[b db'] | e] eqn:Hcall; [| exact Hsame].
    cbn [db_after]. apply agent_takeover_inv in Hcall.
    destruct Hcall as [agent_id [agents' [_ [_ [_ [_ [_ [_ ->]]]]]]]]. cbn [sessions].
    apply Hupdate. apply assigned_descends.
  - destruct (log_api_cost _ _ _ _ _ _ _ _ _ _) as [[id db'] | e] eqn:Hcall;
      [| exact Hsame].
    cbn [db_after]. apply log_api_cost_inv in Hcall.
    destruct Hcall as [c [_ [_ [_ [_ [_ [_ [_ [_ [_ [_ ->]]]]]]]]]]].
    exact Hsame.
Qed.

(** X21. No procedure ends a session.  After any series of calls to the
    six writing procedures every session row is still there with its id,
    owner, channel, creation time and [resolved_at], and with its status
    unless that has become [escalated]; a row that was not there before is
    active or escalated and has no [resolved_at].  So a session that is
    active or escalated stays so, no call gives a session the status
    [resolved] or [closed], and none writes [resolved_at]. *)
Theorem procedures_never_end_a_session :
  forall requests db,
    (forall s', In s' (sessions (serve_all requests db)) ->
       (exists s, In s (sessions db) /\ descends s s') \/
       (open_status (s_status s') = true /\ s_resolved_at s' = None)) /\
    (forall s, In s (sessions db) ->
       exists s', In s' (sessions (serve_all requests db)) /\ descends s s' /\
                  (open_status (s_status s) = true ->
                   open_status (s_status s') = true)).
Proof.
  unfold serve_all.
  induction requests as [| r rest IH]; intros db; simpl.
  - split; intros s Hs; [left |]; exists s; repeat split; auto using descends_refl.
  - destruct (serve_never_ends_a_session r db) as [Hnew Hold].
    destruct (IH (serve r db)) as [IHnew IHold]. split.
    + intros s' Hs'. destruct (IHnew s' Hs') as [[s1 [Hs1 Hd]] | Hfresh];
        [| now right].
      destruct (Hnew s1 Hs1) as [[s [Hs Hd0]] | [Hopen Hres]].
      * left. exists s. split; [exact Hs | now apply descends_trans with s1].
      * right. split; [now apply (descends_open s1) |].
        destruct Hd as (_ & _ & _ & _ & -> & _). exact Hres.
    + intros s Hs. destruct (Hold s Hs) as [s1 [Hs1 Hd1]].
      destruct (IHold s1 Hs1) as [s' [Hs' [Hd' _]]].
      exists s'. split; [exact Hs' |].
      assert (Hd : descends s s') by now apply descends_trans with s1.
      split; [exact Hd | now apply descends_open].
Qed.

Lemma procedures_never_end_a_session_witness :
  exists s',
    In s' (sessions
             (serve_all
                [LogEvent 40 24 (Some 11%N) (Some "user_message") (Some "user")
                   (Some "thanks") None;
                 AgentTakeover 41 25 (Some 11%N) (Some "A1");
                 SetSessionCategory 42 (Some 11%N) (Some "billing")]
                sample_db)) /\
    descends active_session s' /\
    open_status (s_status s') = true.
Proof.
  destruct (procedures_never_end_a_session
              [LogEvent 40 24%N (Some 11%N) (Some "user_message") (Some "user")
                 (Some "thanks") None;
               AgentTakeover 41 25%N (Some 11%N) (Some "A1");
               SetSessionCategory 42 (Some 11%N) (Some "billing")]
              sample_db) as [_ Hkept].
  destruct (Hkept active_session) as [s' [Hin [Hd Hopen]]].
  - simpl. auto.
  - exists s'. split; [exact Hin |]. split; [exact Hd | now apply Hopen].
Defined.

(** ** The owner dashboard's error banner *)




(** ** What the procedures feed into the daily statistics *)

Lemma serve_all_keeps_unresolved (requests : list request) (db : database) :
  primary_keys db -> unique_user_key db ->
  (forall s, In s (sessions db) -> s_status s <> Some "resolved") ->
  NoDup (map s_id (sessions (serve_all requests db))) /\
  (forall s, In s (sessions (serve_all requests db)) -> s_status s <> Some "resolved").
Proof.
  unfold serve_all. revert db.
  induction requests as [| r rest IH]; intros db Hkeys Hunique Hnone; simpl.
  - split; [apply Hkeys | exact Hnone].
  - destruct (serve_keeps_keys r db Hkeys Hunique) as [Hkeys' Hunique'].
    apply IH; try assumption.
    intros s' Hs'. destruct (serve_never_ends_a_session r db) as [Hnew _].
    destruct (Hnew s' Hs') as [[s [Hs (_ & _ & _ & _ & _ & [Hst | Hst])]] | [Hopen _]].
    + rewrite Hst. now apply Hnone.
    + rewrite Hst. discriminate.
    + intros Hres. rewrite Hres in Hopen. discriminate Hopen.
Qed.

(** X23. The procedures resolve nothing.  In a database in which no
    session has the status [resolved], none has it after any series of
    calls to the six writing procedures; so for every day
    [get_daily_stats] reports [ai_resolved] as 0, and the resolution rate
    as 0, or as NULL on a day without sessions. *)
Theorem daily_stats_never_see_a_resolution :
  forall requests db d,
    primary_keys db -> unique_user_key db ->
    (forall s, In s (sessions db) -> s_status s <> Some "resolved") ->
    Z.of_nat (List.length (sessions (serve_all requests db))) <= int4_max ->
    exists stats,
      get_daily_stats (serve_all requests db) (Some d) = Ok stats /\
      ds_ai_resolved stats = 0 /\
      (ds_ai_resolution_rate stats = Some 0 \/
       (ds_ai_resolution_rate stats = None /\ ds_total_conversations stats = 0)).
Proof.
  intros requests db d Hkeys Hunique Hnone Hsize.
  destruct (serve_all_keeps_unresolved requests db Hkeys Hunique Hnone)
    as [Hnodup Hstill].
  eexists. split; [apply (get_daily_stats_value _ d Hnodup Hsize) |].
  cbv zeta. cbn [ds_ai_resolved ds_ai_resolution_rate ds_total_conversations].
  set (day := filter (created_on (Some d)) (sessions (serve_all requests db))).
  assert (Hzero : filter ai_resolved_session day = []).
  { apply filter_none. intros s Hs. apply filter_In in Hs. destruct Hs as [Hs _].
    specialize (Hstill s Hs). unfold ai_resolved_session, str_is.
    destruct (s_status s) as [status |]; [| reflexivity].
    destruct (String.eqb_spec "resolved" status) as [E | E]; [| reflexivity].
    exfalso. apply Hstill. now rewrite E. }
  rewrite Hzero. split; [reflexivity |].
  unfold ratio. destruct (Z.of_nat (List.length day) =? 0) eqn:E.
  - right. split; [reflexivity | now apply Z.eqb_eq].
  - left. reflexivity.
Qed.

Lemma daily_stats_never_see_a_resolution_witness :
  exists stats,
    get_daily_stats
      (serve_all
         [EscalateSession 40 24 (Some 11%N) (Some "angry");
          AgentTakeover 41 25 (Some 11%N) (Some "A1")]
         sample_db)
      (Some 0) = Ok stats /\
    ds_ai_resolved stats = 0 /\
    ds_total_conversations stats = 3.
Proof.
  destruct (daily_stats_never_see_a_resolution
              [EscalateSession 40 24%N (Some 11%N) (Some "angry");
               AgentTakeover 41 25%N (Some 11%N) (Some "A1")]
              sample_db 0) as [stats [Hcall [Hresolved _]]].
  - exact sample_db_primary_keys.
  - exact sample_db_unique_user_key.
  - intros s [<- | [<- | [<- | []]]]; discriminate.
  - vm_compute. discriminate.
  - exists stats. split; [exact Hcall |]. split; [exact Hresolved |].
    vm_compute in Hcall. now injection Hcall as <-.
Defined.

Lemma existsb_cost_of (c : conversation_cost) (sid : uuid) (l : list session) :
  c_session_id c = Some sid ->
  existsb (fun s => cost_of s c) l = existsb (fun s => N.eqb (s_id s) sid) l.
Proof.
  intros Hsid. induction l as [| s l IH]; [reflexivity |].
  simpl. rewrite IH. unfold cost_of. rewrite Hsid. now rewrite N.eqb_sym.
Qed.

(** X24. A logged cost is in the daily total of the day its session
    began.  After [log_api_cost] has stored a cost for a session, the
    statistics of the day on which that session was created show the cost
    added once to [total_cost_usd], the statistics of every other day are
    as before, and so are the three counts and the resolution rate of
    every day; the day on which the cost was logged plays no part. *)
Theorem logged_cost_counts_for_the_day_of_its_session :
  forall now gen db sid eid service model input output cost id db' s t d,
    log_api_cost now gen db (Some sid) eid service model input output (Some cost) =
      Ok (id, db') ->
    NoDup (map s_id (sessions db)) ->
    Z.of_nat (List.length (sessions db)) <= int4_max ->
    In s (sessions db) -> s_id s = sid -> s_created_at s = Some t ->
    exists before after,
      get_daily_stats db (Some d) = Ok before /\
      get_daily_stats db' (Some d) = Ok after /\
      ds_total_cost_usd after =
        ds_total_cost_usd before + (if date_of t =? d then cost else 0) /\
      ds_total_conversations after = ds_total_conversations before /\
      ds_ai_resolved after = ds_ai_resolved before /\
      ds_human_escalations after = ds_human_escalations before /\
      ds_ai_resolution_rate after = ds_ai_resolution_rate before.
Proof.
  intros now gen db sid eid service model input output cost id db' s t d
    Hcall Hnodup Hsize Hs Hid Ht.
  apply log_api_cost_inv in Hcall.
  destruct Hcall as [c [_ [_ [Hsid [_ [_ [_ [Hcost [_ [_ [_ ->]]]]]]]]]]].
  injection Hcost as Hcost.
  eexists. eexists.
  split; [apply (get_daily_stats_value db d Hnodup Hsize) |].
  split; [apply (get_daily_stats_value (set_costs db _) d Hnodup Hsize) |].
  cbv zeta.
  cbn [ds_total_cost_usd ds_total_conversations ds_ai_resolved ds_human_escalations
       ds_ai_resolution_rate sessions conversation_costs set_costs].
  split; [| repeat split; reflexivity].
  rewrite filter_app, map_app, sum_z_app. f_equal.
  set (day := filter (created_on (Some d)) (sessions db)).
  cbn [filter]. rewrite (existsb_cost_of c sid day Hsid).
  destruct (date_of t =? d) eqn:Hday.
  - replace (existsb (fun s0 => N.eqb (s_id s0) sid) day) with true.
    + cbn. rewrite Hcost. lia.
    + symmetry. apply existsb_exists. exists s. split.
      * apply filter_In. split; [exact Hs |]. unfold created_on. now rewrite Ht.
      * rewrite Hid. apply N.eqb_refl.
  - replace (existsb (fun s0 => N.eqb (s_id s0) sid) day) with false; [reflexivity |].
    symmetry. destruct (existsb (fun s0 => N.eqb (s_id s0) sid) day) eqn:E;
      [| reflexivity].
    exfalso. apply existsb_exists in E. destruct E as [s' [Hs' Hid']].
    apply filter_In in Hs'. destruct Hs' as [Hs' Hon]. apply N.eqb_eq in Hid'.
    assert (s' = s).
    { apply (NoDup_map_injective s_id (sessions db)); auto. congruence. }
    subst s'. unfold created_on in Hon. rewrite Ht in Hon. congruence.
Qed.

Lemma logged_cost_counts_for_the_day_of_its_session_witness :
  exists before after,
    get_daily_stats sample_db (Some 0) = Ok before /\
    get_daily_stats
      (db_after sample_db
         (log_api_cost 90000000000 41 sample_db (Some 12%N) None
            (Some "openai_completion") None (Some 10) (Some 5) (Some 3000)))
      (Some 0) = Ok after /\
    ds_total_cost_usd before = 0 /\
    ds_total_cost_usd after = 3000.
Proof.
  destruct (log_api_cost 90000000000 41 sample_db (Some 12%N) None
              (Some "openai_completion") None (Some 10) (Some 5) (Some 3000))
    as [[id db'] | e] eqn:Hcall; [| vm_compute in Hcall; discriminate Hcall].
  destruct sample_db_primary_keys as [_ [Hsessions _]].
  destruct (logged_cost_counts_for_the_day_of_its_session 90000000000 41%N sample_db
              12%N None (Some "openai_completion") None (Some 10) (Some 5) 3000 id db'
              escalated_session 15 0 Hcall Hsessions)
    as [before [after [Hbefore [Hafter [Hcost _]]]]].
  - vm_compute. discriminate.
  - simpl. auto.
  - reflexivity.
  - reflexivity.
  - exists before, after. split; [exact Hbefore |]. split; [exact Hafter |].
    assert (Hzero : ds_total_cost_usd before = 0).
    { vm_compute in Hbefore. now injection Hbefore as <-. }
    split; [exact Hzero |]. rewrite Hcost, Hzero. reflexivity.
Defined.
